(** * AsyncIO: the event reactor of CommonUtilities, and its redirect pump

    A shallow embedding of [AsyncIO.c].  The C file is compiled for one of
    two backends, chosen by the preprocessor: [ASYNC_NETIO_USE_KQUEUE]
    (a kernel event queue) or [ASYNC_NETIO_USE_SELECT] (two descriptor sets
    and a software timer list).  Functions whose body depends on the
    backend take a [backend] argument that plays the role of the [#if].

    Handles are heap-allocated structs referred to by pointers; the model
    keeps an explicit heap, so that a pointer to a released handle, and a
    timer list that loops back on itself, can both be expressed. *)

From Stdlib Require Import ZArith List Bool Lia Strings.String Strings.Byte.
From stdpp Require Import base option list gmap.
Import ListNotations.

Local Open Scope Z_scope.

(** ** Constants of [AsyncIO.h] and [AsyncIO.c] *)

Inductive backend := KQueue | Select.

(** [kAIO_TYPE_*] *)
Inductive aio_type :=
  | kAIO_TYPE_LISTENER
  | kAIO_TYPE_CONNECTION
  | kAIO_TYPE_TIMER
  | kAIO_TYPE_PROC
  | kAIO_TYPE_SIGNAL.

(** The event identifiers handed to an [AsyncIOEvent] callback. *)
Inductive event_kind :=
  | kAIO_NEW_CONNECTION
  | kAIO_CONNECTION_CLOSED
  | kAIO_READY_FOR_WRITE
  | kAIO_DATA_AVAILABLE
  | kAIO_TIMER_FIRED
  | kAIO_PROCESS_EXITED
  | kAIO_SIGNAL_DELIVERED.

Definition event_id (k : event_kind) : Z :=
  match k with
  | kAIO_NEW_CONNECTION => 1
  | kAIO_CONNECTION_CLOSED => 2
  | kAIO_READY_FOR_WRITE => 3
  | kAIO_DATA_AVAILABLE => 4
  | kAIO_TIMER_FIRED => 5
  | kAIO_PROCESS_EXITED => 6
  | kAIO_SIGNAL_DELIVERED => 7
  end.

(** Kernel event filters used with [kevent]. *)
Inductive kfilter :=
  | EVFILT_READ
  | EVFILT_WRITE
  | EVFILT_TIMER
  | EVFILT_PROC
  | EVFILT_SIGNAL.

#[global] Instance kfilter_eq_dec : EqDecision kfilter.
Proof. solve_decision. Defined.

Definition kfilter_code (f : kfilter) : nat :=
  match f with
  | EVFILT_READ => 0 | EVFILT_WRITE => 1 | EVFILT_TIMER => 2
  | EVFILT_PROC => 3 | EVFILT_SIGNAL => 4
  end%nat.

Definition kfilter_of_code (n : nat) : option kfilter :=
  match n with
  | 0 => Some EVFILT_READ | 1 => Some EVFILT_WRITE | 2 => Some EVFILT_TIMER
  | 3 => Some EVFILT_PROC | 4 => Some EVFILT_SIGNAL | _ => None
  end%nat.

#[global] Instance kfilter_countable : Countable kfilter.
Proof.
  apply (inj_countable kfilter_code kfilter_of_code).
  intros []; reflexivity.
Defined.

(** [errno] values the code tests for. *)
Inductive errno_t :=
  | EWOULDBLOCK   (* the same value as EAGAIN *)
  | ENOTTY
  | ENOENT
  | EINTR
  | EBADF
  | EIO.

#[global] Instance errno_eq_dec : EqDecision errno_t.
Proof. solve_decision. Defined.

Definition O_NONBLOCK : Z := 4.
Definition kInvalidFD : Z := -1.
Definition IsValidFD (fd : Z) : bool := 0 <=? fd.

(** [uint32_t] arithmetic wraps. *)
Definition UINT32_MAX : Z := 4294967295.
Definition wrap32 (z : Z) : Z := z mod 4294967296.

(** ** Handles *)

(** A pointer to a [struct OpaqueAsyncIO]; [AsyncIO] is such a pointer or
    [NULL]. *)
Abbreviation ptr := nat (only parsing).
Abbreviation AsyncIO := (option nat) (only parsing).

Definition AsyncIO_eqb (a b : AsyncIO) : bool := bool_decide (a = b).

(** What a callback may do: it runs client code, which acts on the reactor
    only through the public functions.  A callback is a tree of such calls,
    each continuation receiving the call's result (an [int], or the new
    handle's address cast to an integer). *)
Inductive api_call :=
  | CallRelease (anio : AsyncIO) (closeDescriptor : bool)
  | CallNotifyOnReadability (anio : AsyncIO)
  | CallNotifyOnWritability (anio : AsyncIO)
  | CallEnableTimer (timer : AsyncIO) (milliseconds : Z)
  | CallDisableTimer (timer : AsyncIO)
  | CallNewConnectionListener (fd : Z)
      (eventCallback : event_kind -> AsyncIO -> Z -> Z -> client_code)
      (userData : Z)
  | CallNewConnection (fd : Z)
      (eventCallback : event_kind -> AsyncIO -> Z -> Z -> client_code)
      (userData : Z)
  | CallNewTimer
      (eventCallback : event_kind -> AsyncIO -> Z -> Z -> client_code)
      (userData : Z)
with client_code :=
  | Return
  | Call (c : api_call) (k : Z -> client_code).

(** [AsyncIOEvent], the type of a callback: it receives the event, the
    handle, a descriptor or identifier, and the handle's user data. *)
Definition AsyncIOEvent := event_kind -> AsyncIO -> Z -> Z -> client_code.

Record OpaqueAsyncIO := mkAsyncIO {
  fd : Z;
  type : aio_type;
  callback : AsyncIOEvent;
  userdata : Z;
  notifyOnRead : bool;
  notifyOnWrite : bool;
  (* ASYNC_NETIO_USE_SELECT *)
  next_fire_time : Z;
  next_timer : AsyncIO
}.

Definition set_fd (v : Z) (o : OpaqueAsyncIO) : OpaqueAsyncIO :=
  mkAsyncIO v (type o) (callback o) (userdata o) (notifyOnRead o)
            (notifyOnWrite o) (next_fire_time o) (next_timer o).
Definition set_notifyOnRead (v : bool) (o : OpaqueAsyncIO) : OpaqueAsyncIO :=
  mkAsyncIO (fd o) (type o) (callback o) (userdata o) v
            (notifyOnWrite o) (next_fire_time o) (next_timer o).
Definition set_notifyOnWrite (v : bool) (o : OpaqueAsyncIO) : OpaqueAsyncIO :=
  mkAsyncIO (fd o) (type o) (callback o) (userdata o) (notifyOnRead o)
            v (next_fire_time o) (next_timer o).
Definition set_next_fire_time (v : Z) (o : OpaqueAsyncIO) : OpaqueAsyncIO :=
  mkAsyncIO (fd o) (type o) (callback o) (userdata o) (notifyOnRead o)
            (notifyOnWrite o) v (next_timer o).
Definition set_next_timer (v : AsyncIO) (o : OpaqueAsyncIO) : OpaqueAsyncIO :=
  mkAsyncIO (fd o) (type o) (callback o) (userdata o) (notifyOnRead o)
            (notifyOnWrite o) (next_fire_time o) v.

(** ** Descriptor sets *)

(** An [fd_set] is a bit array indexed by descriptor. *)
Definition fd_set := Z.
Definition FD_ZERO : fd_set := 0.
Definition FD_SET (i : Z) (s : fd_set) : fd_set := Z.setbit s i.
Definition FD_CLR (i : Z) (s : fd_set) : fd_set := Z.clearbit s i.
Definition FD_ISSET (i : Z) (s : fd_set) : bool := Z.testbit s i.

(** ** The kernel side *)

(** One registration in the kernel event queue [anioKQ]: the [udata] it was
    added with and whether it carries [EV_ONESHOT]. *)
Record kreg := mkKreg {
  kr_udata : AsyncIO;
  kr_oneshot : bool
}.

(** An event returned by [kevent]. *)
Record kevent_t := mkKevent {
  kv_ident : Z;
  kv_filter : kfilter;
  kv_eof : bool;          (* flags & EV_EOF *)
  kv_udata : AsyncIO
}.

(** An open descriptor: its status flags, and the error [F_SETFL] fails
    with on it, if the device refuses the request. *)
Record fd_state := mkFdState {
  fl_flags : Z;
  fl_setfl_errno : option errno_t
}.

Record timeval := mkTimeval { tv_sec : Z; tv_usec : Z }.

(** A record of one callback invocation: the event, the handle and the
    [fd] argument, whether the handle's read and write interest were armed
    at the moment the callback was entered, and the place of the call in
    the loop: the descriptor [i] whose block makes the call in the select
    loop, the [ident] of the [struct kevent] in the kqueue loop, [-1] in
    the timeout branch. *)
Record delivery := mkDelivery {
  d_event : event_kind;
  d_anio : AsyncIO;
  d_fd : Z;
  d_read_armed : bool;
  d_write_armed : bool;
  d_source : Z
}.

(** ** Process-wide state *)

Record reactor := mkReactor {
  heap : gmap nat OpaqueAsyncIO;   (* the live [struct OpaqueAsyncIO]s *)
  next_alloc : nat;   (* the next address [calloc] returns *)
  anioInProgress : AsyncIO;
  anioKQ : gmap (Z * kfilter) kreg;   (* ASYNC_NETIO_USE_KQUEUE: what is registered in the queue [anioKQ] *)
  anioReadSet : fd_set;   (* ASYNC_NETIO_USE_SELECT, this one and the next four *)
  anioWriteSet : fd_set;
  enabled_timers : AsyncIO;
  aio_next_enabled_timer : AsyncIO;
  socket_userdata : gmap Z nat;   (* lwip's per-socket user data *)
  open_fds : gmap Z fd_state;   (* the descriptors the process has open *)
  delivered : list delivery;   (* observed: callbacks invoked, oldest first *)
  waited : list (option timeval);   (* observed: the timeout of each wait, [None] for [NULL] *)
  checks_failed : nat   (* observed: [check]/[require] failures logged *)
}.

Definition with_heap (f : gmap nat OpaqueAsyncIO -> gmap nat OpaqueAsyncIO)
    (r : reactor) : reactor :=
  mkReactor (f (heap r)) (next_alloc r) (anioInProgress r) (anioKQ r)
    (anioReadSet r) (anioWriteSet r) (enabled_timers r)
    (aio_next_enabled_timer r) (socket_userdata r) (open_fds r)
    (delivered r) (waited r) (checks_failed r).
Definition with_next_alloc (v : nat) (r : reactor) : reactor :=
  mkReactor (heap r) v (anioInProgress r) (anioKQ r) (anioReadSet r)
    (anioWriteSet r) (enabled_timers r) (aio_next_enabled_timer r)
    (socket_userdata r) (open_fds r) (delivered r) (waited r)
    (checks_failed r).
Definition with_anioInProgress (v : AsyncIO) (r : reactor) : reactor :=
  mkReactor (heap r) (next_alloc r) v (anioKQ r) (anioReadSet r)
    (anioWriteSet r) (enabled_timers r) (aio_next_enabled_timer r)
    (socket_userdata r) (open_fds r) (delivered r) (waited r)
    (checks_failed r).
Definition with_anioKQ (f : gmap (Z * kfilter) kreg -> gmap (Z * kfilter) kreg)
    (r : reactor) : reactor :=
  mkReactor (heap r) (next_alloc r) (anioInProgress r) (f (anioKQ r))
    (anioReadSet r) (anioWriteSet r) (enabled_timers r)
    (aio_next_enabled_timer r) (socket_userdata r) (open_fds r)
    (delivered r) (waited r) (checks_failed r).
Definition with_anioReadSet (f : fd_set -> fd_set)
    (r : reactor) : reactor :=
  mkReactor (heap r) (next_alloc r) (anioInProgress r) (anioKQ r)
    (f (anioReadSet r)) (anioWriteSet r) (enabled_timers r)
    (aio_next_enabled_timer r) (socket_userdata r) (open_fds r)
    (delivered r) (waited r) (checks_failed r).
Definition with_anioWriteSet (f : fd_set -> fd_set)
    (r : reactor) : reactor :=
  mkReactor (heap r) (next_alloc r) (anioInProgress r) (anioKQ r)
    (anioReadSet r) (f (anioWriteSet r)) (enabled_timers r)
    (aio_next_enabled_timer r) (socket_userdata r) (open_fds r)
    (delivered r) (waited r) (checks_failed r).
Definition with_enabled_timers (v : AsyncIO) (r : reactor) : reactor :=
  mkReactor (heap r) (next_alloc r) (anioInProgress r) (anioKQ r)
    (anioReadSet r) (anioWriteSet r) v (aio_next_enabled_timer r)
    (socket_userdata r) (open_fds r) (delivered r) (waited r)
    (checks_failed r).
Definition with_aio_next_enabled_timer (v : AsyncIO) (r : reactor) : reactor :=
  mkReactor (heap r) (next_alloc r) (anioInProgress r) (anioKQ r)
    (anioReadSet r) (anioWriteSet r) (enabled_timers r) v
    (socket_userdata r) (open_fds r) (delivered r) (waited r)
    (checks_failed r).
Definition with_socket_userdata (f : gmap Z nat -> gmap Z nat)
    (r : reactor) : reactor :=
  mkReactor (heap r) (next_alloc r) (anioInProgress r) (anioKQ r)
    (anioReadSet r) (anioWriteSet r) (enabled_timers r)
    (aio_next_enabled_timer r) (f (socket_userdata r)) (open_fds r)
    (delivered r) (waited r) (checks_failed r).
Definition with_open_fds (f : gmap Z fd_state -> gmap Z fd_state)
    (r : reactor) : reactor :=
  mkReactor (heap r) (next_alloc r) (anioInProgress r) (anioKQ r)
    (anioReadSet r) (anioWriteSet r) (enabled_timers r)
    (aio_next_enabled_timer r) (socket_userdata r) (f (open_fds r))
    (delivered r) (waited r) (checks_failed r).
Definition with_delivered (f : list delivery -> list delivery)
    (r : reactor) : reactor :=
  mkReactor (heap r) (next_alloc r) (anioInProgress r) (anioKQ r)
    (anioReadSet r) (anioWriteSet r) (enabled_timers r)
    (aio_next_enabled_timer r) (socket_userdata r) (open_fds r)
    (f (delivered r)) (waited r) (checks_failed r).
Definition with_waited (f : list (option timeval) -> list (option timeval))
    (r : reactor) : reactor :=
  mkReactor (heap r) (next_alloc r) (anioInProgress r) (anioKQ r)
    (anioReadSet r) (anioWriteSet r) (enabled_timers r)
    (aio_next_enabled_timer r) (socket_userdata r) (open_fds r)
    (delivered r) (f (waited r)) (checks_failed r).
Definition with_checks_failed (v : nat) (r : reactor) : reactor :=
  mkReactor (heap r) (next_alloc r) (anioInProgress r) (anioKQ r)
    (anioReadSet r) (anioWriteSet r) (enabled_timers r)
    (aio_next_enabled_timer r) (socket_userdata r) (open_fds r)
    (delivered r) (waited r) v.

(** The state after [AsyncIO_Initialize] (with [kqueue()] succeeding). *)
Definition initial_reactor : reactor :=
  mkReactor ∅ 1%nat None ∅ FD_ZERO FD_ZERO None None ∅ ∅ [] [] 0%nat.

(** ** A state and fault monad for the C code *)

(** What C leaves undefined is a fault: dereferencing [NULL] or a pointer to
    a freed handle, reading a local that was never assigned.  [Diverges]
    marks a loop that used up its step budget, or a call that never
    returns. *)
Inductive fault :=
  | NullDeref
  | UseAfterFree (p : ptr)
  | Uninitialised
  | Diverges.

Inductive res (A : Type) :=
  | Ok (a : A)
  | Fault (f : fault).
Arguments Ok {A} a.
Arguments Fault {A} f.

Definition M (A : Type) := reactor -> res A * reactor.

Definition ret {A} (a : A) : M A := fun r => (Ok a, r).
Definition bind {A B} (m : M A) (k : A -> M B) : M B :=
  fun r => match m r with
           | (Ok a, r') => k a r'
           | (Fault f, r') => (Fault f, r')
           end.
Definition raise {A} (f : fault) : M A := fun r => (Fault f, r).
Definition gets {A} (f : reactor -> A) : M A := fun r => (Ok (f r), r).
Definition modify (f : reactor -> reactor) : M unit := fun r => (Ok tt, f r).

Declare Scope m_scope.
Delimit Scope m_scope with M.
Notation "'let*' x := m 'in' k" := (bind m (fun x => k))
  (at level 10, x name, m at level 100, k at level 200, only parsing) : m_scope.
Notation "m ;; k" := (bind m (fun _ => k))
  (at level 100, k at level 200, right associativity, only parsing) : m_scope.
Local Open Scope m_scope.

(** [anio->field]: read the struct behind a pointer. *)
Definition deref (a : AsyncIO) : M OpaqueAsyncIO :=
  fun r => match a with
           | None => (Fault NullDeref, r)
           | Some p => match heap r !! p with
                       | Some o => (Ok o, r)
                       | None => (Fault (UseAfterFree p), r)
                       end
           end.

(** [anio->field = v]: update the struct behind a pointer. *)
Definition assign (a : AsyncIO) (f : OpaqueAsyncIO -> OpaqueAsyncIO) : M unit :=
  let* o := deref a in
  match a with
  | Some p => modify (with_heap (insert p (f o)))
  | None => raise NullDeref
  end.

(** [check( x )]: log a failure, carry on. *)
Definition check (x : bool) : M unit :=
  if x then ret tt
  else modify (fun r => with_checks_failed (S (checks_failed r)) r).

(** [MillisecondCounter()] is read from the environment: the functions that
    call it take the value it returns as [now]. *)

(** ** System calls *)

(** A system call returns [0] (here [None]) or fails with [-1] and an
    [errno] (here [Some e]). *)
Definition syserr := option errno_t.

(** [(uint64_t)anio], the identifier a timer is registered under. *)
Definition ident_of (a : AsyncIO) : Z :=
  match a with
  | Some p => Z.of_nat p
  | None => 0
  end.

(** [kevent( anioKQ, &kv, 1, NULL, 0, NULL )] with [EV_ADD]: the
    registration for [(ident, filter)] is created or replaced.  A read or
    write filter names a descriptor, which has to be open. *)
Definition kevent_add (ident : Z) (f : kfilter) (oneshot : bool)
    (udata : AsyncIO) : M syserr :=
  let* fds := gets open_fds in
  match f, fds !! ident with
  | (EVFILT_READ | EVFILT_WRITE), None => ret (Some EBADF)
  | _, _ =>
      modify (with_anioKQ (insert (ident, f) (mkKreg udata oneshot))) ;;
      ret None
  end.

(** The same with [EV_DELETE]: removing a registration that does not exist
    fails with [ENOENT]. *)
Definition kevent_delete (ident : Z) (f : kfilter) : M syserr :=
  let* q := gets anioKQ in
  match q !! (ident, f) with
  | Some _ => modify (with_anioKQ (delete (ident, f))) ;; ret None
  | None => ret (Some ENOENT)
  end.

(** ** The timer list of the select backend *)

(** The [while ( tio != NULL )] loop of [AsyncIO_GetNextTimerFireTime]
    (AsyncIO.c, lines 289-298);
    [best] and [best_time] are the locals [next_timer] and
    [next_fire_time]. *)
Fixpoint scan_timers (fuel : nat) (tio best : AsyncIO) (best_time : Z)
    : M (AsyncIO * Z) :=
  match tio with
  | None => ret (best, best_time)
  | Some _ =>
      match fuel with
      | O => raise Diverges
      | S fuel' =>
          let* t := deref tio in
          if next_fire_time t <? best_time
          then scan_timers fuel' (next_timer t) tio (next_fire_time t)
          else scan_timers fuel' (next_timer t) best best_time
      end
  end.

(** [AsyncIO_GetNextTimerFireTime( &tv, &out_next_timer )] (AsyncIO.c,
    lines 283-318).  Both outputs
    are written only when a timer was found: [None] leaves them as the
    caller had them. *)
Definition AsyncIO_GetNextTimerFireTime (fuel : nat) (now : Z)
    : M (option (timeval * AsyncIO)) :=
  let* tio := gets enabled_timers in
  let* found := scan_timers fuel tio None UINT32_MAX in
  match fst found with
  | Some _ =>
      if snd found <? now
      then ret (Some (mkTimeval 0 0, fst found))
      else
        let remaining := wrap32 (snd found - now) in
        ret (Some (mkTimeval (remaining / 1000) ((remaining mod 1000) * 1000),
                   fst found))
  | None => ret None
  end.

(** [AsyncIO_EnableTimer] (AsyncIO.c, lines 321-356).  On the kqueue
    backend the timer is a one-shot kernel timer registered under the
    handle's address; on the select backend it is pushed onto
    [enabled_timers]. *)
Definition AsyncIO_EnableTimer (b : backend) (now : Z) (timer : AsyncIO)
    (milliseconds : Z) : M Z :=
  match timer with
  | None => check false ;; ret (-1)
  | Some _ =>
      match b with
      | KQueue =>
          let* err := kevent_add (ident_of timer) EVFILT_TIMER true timer in
          match err with
          | None => ret 0
          | Some _ => ret (-1)
          end
      | Select =>
          assign timer (set_next_fire_time (wrap32 (now + milliseconds))) ;;
          let* head := gets enabled_timers in
          assign timer (set_next_timer head) ;;
          modify (with_enabled_timers timer) ;;
          ret 0
      end
  end.

(** The [while ( true )] loop of [AsyncIO_DisableTimer] (AsyncIO.c, lines
    394-404): [true] when the
    timer was found and unlinked, [false] when the end of the list was
    reached ([require( tio != NULL, exit )]). *)
Fixpoint unlink_timer (fuel : nat) (tio timer : AsyncIO) : M bool :=
  match fuel with
  | O => raise Diverges
  | S fuel' =>
      let* t := deref tio in
      if AsyncIO_eqb (next_timer t) timer then
        let* tm := deref timer in
        assign tio (set_next_timer (next_timer tm)) ;;
        ret true
      else
        match next_timer t with
        | None => check false ;; ret false
        | Some _ => unlink_timer fuel' (next_timer t) timer
        end
  end.

(** [AsyncIO_DisableTimer] (AsyncIO.c, lines 358-416).  The kqueue branch
    accepts [ENOENT] from the kernel. *)
Definition AsyncIO_DisableTimer (b : backend) (fuel : nat) (timer : AsyncIO)
    : M Z :=
  match b with
  | KQueue =>
      let* err := kevent_delete (ident_of timer) EVFILT_TIMER in
      match err with
      | None | Some ENOENT => ret 0
      | Some _ => check false ;; ret (-1)
      end
  | Select =>
      let* nxt := gets aio_next_enabled_timer in
      (if AsyncIO_eqb timer nxt
       then modify (with_aio_next_enabled_timer None) else ret tt) ;;
      let* tio := gets enabled_timers in
      match tio with
      | None => check false ;; ret (-1)
      | Some _ =>
          let* found :=
            (if AsyncIO_eqb tio timer then
               let* t := deref tio in
               modify (with_enabled_timers (next_timer t)) ;;
               ret true
             else unlink_timer fuel tio timer) in
          if found : bool then
            (* housekeeping (not really necessary) *)
            assign timer (set_next_timer None) ;;
            ret 0
          else ret (-1)
      end
  end.

(** ** Descriptors *)

(** [fcntl( fd, F_GETFL, 0 )]: the flags, or [-1]. *)
Definition fcntl_GETFL (fd : Z) : M Z :=
  let* fds := gets open_fds in
  match fds !! fd with
  | Some st => ret (fl_flags st)
  | None => ret (-1)
  end.

(** [fcntl( fd, F_SETFL, flags )] *)
Definition fcntl_SETFL (fd : Z) (flags : Z) : M syserr :=
  let* fds := gets open_fds in
  match fds !! fd with
  | None => ret (Some EBADF)
  | Some st =>
      match fl_setfl_errno st with
      | Some e => ret (Some e)
      | None =>
          modify (with_open_fds (insert fd (mkFdState flags None))) ;;
          ret None
      end
  end.

(** [close( fd )]; the kernel drops the descriptor's registrations with it. *)
Definition close (fd : Z) : M unit :=
  modify (with_open_fds (delete fd)) ;;
  modify (with_anioKQ (delete (fd, EVFILT_READ))) ;;
  modify (with_anioKQ (delete (fd, EVFILT_WRITE))).

(** [lwip_socket_set_userdata( fd, anio )]: fails on a descriptor that is
    not open. *)
Definition lwip_socket_set_userdata (fd : Z) (anio : AsyncIO) : M Z :=
  let* fds := gets open_fds in
  match fds !! fd with
  | None => ret (-1)
  | Some _ =>
      match anio with
      | Some p => modify (with_socket_userdata (insert fd p))
      | None => modify (with_socket_userdata (delete fd))
      end ;;
      ret 0
  end.

(** [lwip_socket_get_userdata( i, &anio )] *)
Definition lwip_socket_get_userdata (i : Z) : M AsyncIO :=
  gets (fun r => socket_userdata r !! i).

(** [calloc( 1, sizeof( struct OpaqueAsyncIO ) )], with the fields the
    constructor stores right after it. *)
Definition alloc (o : OpaqueAsyncIO) : M AsyncIO :=
  let* p := gets next_alloc in
  modify (with_heap (insert p o)) ;;
  modify (with_next_alloc (S p)) ;;
  ret (Some p).

(** [ForgetMem( &anio )] on a non-[NULL] pointer. *)
Definition free (anio : AsyncIO) : M unit :=
  match anio with
  | Some p => modify (with_heap (delete p))
  | None => ret tt
  end.

(** ** Constructors *)

(** [AsyncIO_NewConnectionListener] (AsyncIO.c, lines 204-258) *)
Definition AsyncIO_NewConnectionListener (b : backend) (fd : Z)
    (eventCallback : AsyncIOEvent) (userData : Z) : M AsyncIO :=
  let* anio := alloc (mkAsyncIO fd kAIO_TYPE_LISTENER eventCallback userData
                                false false 0 None) in
  (* make sure socket is in non-blocking mode *)
  let* flags := fcntl_GETFL fd in
  if flags =? -1 then check false ;; free anio ;; ret None
  else
    let* err := fcntl_SETFL fd (Z.lor flags O_NONBLOCK) in
    match err with
    | Some _ => check false ;; free anio ;; ret None
    | None =>
        match b with
        | KQueue =>
            let* err := kevent_add fd EVFILT_READ false anio in
            match err with
            | Some _ => check false ;; free anio ;; ret None
            | None => ret anio
            end
        | Select =>
            lwip_socket_set_userdata fd anio ;;
            modify (with_anioReadSet (FD_SET fd)) ;;
            ret anio
        end
    end.

(** [AsyncIO_NewTimer] (AsyncIO.c, lines 260-280) *)
Definition AsyncIO_NewTimer (eventCallback : AsyncIOEvent) (userData : Z)
    : M AsyncIO :=
  alloc (mkAsyncIO (-1) kAIO_TYPE_TIMER eventCallback userData
                   false false 0 None).

(** [AsyncIO_NewConnection] (AsyncIO.c, lines 504-542): as the listener,
    but [ENOTTY] from [F_SETFL] is let through, and nothing is registered
    yet. *)
Definition AsyncIO_NewConnection (b : backend) (fd : Z)
    (eventCallback : AsyncIOEvent) (userData : Z) : M AsyncIO :=
  let* anio := alloc (mkAsyncIO fd kAIO_TYPE_CONNECTION eventCallback userData
                                false false 0 None) in
  (* make sure socket is in non-blocking mode *)
  let* flags := fcntl_GETFL fd in
  if flags =? -1 then check false ;; free anio ;; ret None
  else
    let* err := fcntl_SETFL fd (Z.lor flags O_NONBLOCK) in
    let err := match err with Some ENOTTY => None | _ => err end in
    match err with
    | Some _ => check false ;; free anio ;; ret None
    | None =>
        match b with
        | KQueue => ret anio
        | Select => lwip_socket_set_userdata fd anio ;; ret anio
        end
    end.

(** ** Arming *)

(** [AsyncIO_NotifyOnReadability] (AsyncIO.c, lines 544-585) and
    [AsyncIO_NotifyOnWritability] (lines 587-624): a one-shot kernel
    registration, or the descriptor's bit in the interest set; then the
    handle's flag. *)
Definition AsyncIO_NotifyOnReadability (b : backend) (anio : AsyncIO) : M Z :=
  let* o := deref anio in
  let* err :=
    match b with
    | KQueue => kevent_add (fd o) EVFILT_READ true anio
    | Select =>
        let* err := lwip_socket_set_userdata (fd o) anio in
        if err =? 0
        then modify (with_anioReadSet (FD_SET (fd o))) ;; ret None
        else check false ;; ret (Some EBADF)
    end in
  match err with
  | Some _ => ret (-1)
  | None => assign anio (set_notifyOnRead true) ;; ret 0
  end.

Definition AsyncIO_NotifyOnWritability (b : backend) (anio : AsyncIO) : M Z :=
  let* o := deref anio in
  let* err :=
    match b with
    | KQueue =>
        let* err := kevent_add (fd o) EVFILT_WRITE true anio in
        match err with
        | Some _ => check false ;; ret err
        | None => ret None
        end
    | Select =>
        let* err := lwip_socket_set_userdata (fd o) anio in
        if err =? 0
        then modify (with_anioWriteSet (FD_SET (fd o))) ;; ret None
        else check false ;; ret (Some EBADF)
    end in
  match err with
  | Some _ => ret (-1)
  | None => assign anio (set_notifyOnWrite true) ;; ret 0
  end.

(** ** Release *)

(** [AsyncIO_Release] (AsyncIO.c, lines 128-202) *)
Definition AsyncIO_Release (b : backend) (fuel : nat) (anio : AsyncIO)
    (closeDescriptor : bool) : M Z :=
  match anio with
  | None => check false ;; ret (-1)
  | Some _ =>
      let* o := deref anio in
      match type o with
      | kAIO_TYPE_TIMER => AsyncIO_DisableTimer b fuel anio ;; ret tt
      | _ => ret tt
      end ;;
      let* o := deref anio in
      match b with
      | KQueue =>
          (if notifyOnRead o
           then kevent_delete (fd o) EVFILT_READ ;; ret tt else ret tt) ;;
          (if notifyOnWrite o
           then kevent_delete (fd o) EVFILT_WRITE ;; ret tt else ret tt)
      | Select =>
          modify (with_anioReadSet (FD_CLR (fd o))) ;;
          modify (with_anioWriteSet (FD_CLR (fd o)))
      end ;;
      (if closeDescriptor && IsValidFD (fd o)
       then close (fd o) ;; assign anio (set_fd kInvalidFD)
       else ret tt) ;;
      (* make sure any loop that's in progress doesn't muck with this item *)
      let* ip := gets anioInProgress in
      (if AsyncIO_eqb ip anio
       then modify (with_anioInProgress None) else ret tt) ;;
      free anio ;;
      ret 0
  end.

(** ** Running callbacks *)

(** One call from client code.  A constructor's result is the new handle's
    address, [0] for [NULL]. *)
Definition exec_api (b : backend) (fuel : nat) (now : Z) (c : api_call) : M Z :=
  match c with
  | CallRelease anio closeDescriptor => AsyncIO_Release b fuel anio closeDescriptor
  | CallNotifyOnReadability anio => AsyncIO_NotifyOnReadability b anio
  | CallNotifyOnWritability anio => AsyncIO_NotifyOnWritability b anio
  | CallEnableTimer timer ms => AsyncIO_EnableTimer b now timer ms
  | CallDisableTimer timer => AsyncIO_DisableTimer b fuel timer
  | CallNewConnectionListener fd cb ud =>
      let* a := AsyncIO_NewConnectionListener b fd cb ud in ret (ident_of a)
  | CallNewConnection fd cb ud =>
      let* a := AsyncIO_NewConnection b fd cb ud in ret (ident_of a)
  | CallNewTimer cb ud =>
      let* a := AsyncIO_NewTimer cb ud in ret (ident_of a)
  end.

Fixpoint run_client (b : backend) (fuel : nat) (now : Z) (c : client_code)
    : M unit :=
  match c with
  | Return => ret tt
  | Call a k =>
      let* z := exec_api b fuel now a in
      run_client b fuel now (k z)
  end.

(** Whether the backend currently watches descriptor [i] for reading, for
    writing. *)
Definition read_interest (b : backend) (i : Z) (r : reactor) : bool :=
  match b with
  | KQueue => bool_decide (is_Some (anioKQ r !! (i, EVFILT_READ)))
  | Select => FD_ISSET i (anioReadSet r)
  end.

Definition write_interest (b : backend) (i : Z) (r : reactor) : bool :=
  match b with
  | KQueue => bool_decide (is_Some (anioKQ r !! (i, EVFILT_WRITE)))
  | Select => FD_ISSET i (anioWriteSet r)
  end.

(** The call through [anio->callback], with arguments
    [( eventID, anio, fd, anio->userdata )]. *)
Definition invoke (b : backend) (fuel : nat) (now : Z) (k : event_kind)
    (anio : AsyncIO) (fd_arg : Z) (source : Z) : M unit :=
  let* o := deref anio in
  let* ra := gets (read_interest b (fd o)) in
  let* wa := gets (write_interest b (fd o)) in
  modify (with_delivered (fun t =>
    t ++ [mkDelivery k anio fd_arg (notifyOnRead o || ra)
                     (notifyOnWrite o || wa) source])) ;;
  run_client b fuel now (callback o k anio fd_arg (userdata o)).

(** ** Dispatch, kqueue backend *)

(** The body of the event loop for one [struct kevent] is the same text in
    [AsyncIO_Run] (AsyncIO.c, lines 1266-1334) and in
    [AsyncIO_ProcessEvents] (lines 936-1003): the [switch] on the filter,
    then the [EV_EOF] test. *)
Definition dispatch_kevent_filter (fuel : nat) (now : Z) (kv : kevent_t)
    : M unit :=
  let anio := kv_udata kv in
  let ident := kv_ident kv in
  match kv_filter kv with
  | EVFILT_READ =>
      let* o := deref anio in
      match type o with
      | kAIO_TYPE_LISTENER =>
          invoke KQueue fuel now kAIO_NEW_CONNECTION anio ident ident
      | kAIO_TYPE_CONNECTION =>
          assign anio (set_notifyOnRead false) ;;
          invoke KQueue fuel now kAIO_DATA_AVAILABLE anio ident ident
      | _ => ret tt
      end
  | EVFILT_WRITE =>
      assign anio (set_notifyOnWrite false) ;;
      invoke KQueue fuel now kAIO_READY_FOR_WRITE anio ident ident
  | EVFILT_TIMER => invoke KQueue fuel now kAIO_TIMER_FIRED anio (-1) ident
  | EVFILT_PROC => invoke KQueue fuel now kAIO_PROCESS_EXITED anio ident ident
  | EVFILT_SIGNAL =>
      invoke KQueue fuel now kAIO_SIGNAL_DELIVERED anio ident ident
  end.

Definition dispatch_kevent_eof (fuel : nat) (now : Z) (kv : kevent_t)
    : M unit :=
  let anio := kv_udata kv in
  let ident := kv_ident kv in
  if kv_eof kv then
    match kv_filter kv with
    | EVFILT_READ =>
        let* ip := gets anioInProgress in
        (* make sure it didn't get freed *)
        if AsyncIO_eqb ip anio then
          (* let them know the socket closed *)
          invoke KQueue fuel now kAIO_CONNECTION_CLOSED anio ident ident ;;
          modify (with_anioInProgress None)
        else ret tt
    | _ => modify (with_anioInProgress None)
    end
  else modify (with_anioInProgress None).

Definition dispatch_kevent (fuel : nat) (now : Z) (kv : kevent_t) : M unit :=
  modify (with_anioInProgress (kv_udata kv)) ;;
  dispatch_kevent_filter fuel now kv ;;
  dispatch_kevent_eof fuel now kv.

(** ** Dispatch, select backend *)

(** The two [if ( FD_ISSET( i, ... ) )] blocks for descriptor [i]
    (AsyncIO.c, lines 1164-1199 in [AsyncIO_Run], lines 886-921 in
    [AsyncIO_ProcessEvents]). *)
Definition dispatch_readable (fuel : nat) (now : Z) (i : Z) : M unit :=
  let* anio := lwip_socket_get_userdata i in
  (* clear it before call back, because they may request it again DURING
     the callback *)
  modify (with_anioReadSet (FD_CLR i)) ;;
  modify (with_anioInProgress anio) ;;
  let* o := deref anio in
  match type o with
  | kAIO_TYPE_LISTENER =>
      invoke Select fuel now kAIO_NEW_CONNECTION anio (fd o) i
  | kAIO_TYPE_CONNECTION =>
      assign anio (set_notifyOnRead false) ;;
      invoke Select fuel now kAIO_DATA_AVAILABLE anio (fd o) i
  | _ => ret tt
  end ;;
  modify (with_anioInProgress None).

Definition dispatch_writable (fuel : nat) (now : Z) (i : Z) : M unit :=
  let* anio := lwip_socket_get_userdata i in
  modify (with_anioWriteSet (FD_CLR i)) ;;
  modify (with_anioInProgress anio) ;;
  assign anio (set_notifyOnWrite false) ;;
  let* o := deref anio in
  invoke Select fuel now kAIO_READY_FOR_WRITE anio (fd o) i ;;
  modify (with_anioInProgress None).

(** [for ( i = 0; i <= maxFd; i++ )] over the descriptors [fds], counting
    [num] down.  [count_writes] is set in [AsyncIO_Run], whose write block
    decrements the same counter; the write block of [AsyncIO_ProcessEvents]
    decrements another variable than [ctx->num]. *)
Fixpoint dispatch_fds (fuel : nat) (now : Z) (count_writes : bool)
    (readfds writefds : fd_set) (fds : list Z) (num : Z) : M Z :=
  match fds with
  | [] => ret num
  | i :: rest =>
      if num =? 0 then ret num
      else
        let* num :=
          (if FD_ISSET i readfds
           then dispatch_readable fuel now i ;; ret (num - 1)
           else ret num) in
        let* num :=
          (if FD_ISSET i writefds
           then dispatch_writable fuel now i ;;
                ret (if count_writes then num - 1 else num)
           else ret num) in
        dispatch_fds fuel now count_writes readfds writefds rest num
  end.

(** The [num == 0] branch (AsyncIO.c, lines 1138-1156 and 860-878): the
    wait timed out. *)
Definition dispatch_timeout (fuel : nat) (now : Z) : M unit :=
  let* anio := gets aio_next_enabled_timer in
  match anio with
  | Some _ =>
      (* we don't do multishot timers, so we want to remove this one from
         the list *)
      AsyncIO_DisableTimer Select fuel anio ;;
      modify (with_anioInProgress anio) ;;
      invoke Select fuel now kAIO_TIMER_FIRED anio (-1) (-1) ;;
      modify (with_anioInProgress None)
  | None => ret tt
  end.

(** ** The wait primitives *)

(** What the environment answers to one [kevent] wait: the conditions that
    hold (identifier, filter, end-of-file seen), or an error. *)
Inductive kevent_reply :=
  | KReady (conds : list (Z * kfilter * bool))
  | KError (e : errno_t).

(** [kevent( anioKQ, NULL, 0, kv, nevents, to )]: the kernel reports, among
    the conditions that hold, those that are registered, at most [nevents]
    of them, each with the [udata] of its registration; a registration made
    with [EV_ONESHOT] is deleted as it is reported. *)
Fixpoint kevent_collect (nevents : nat) (conds : list (Z * kfilter * bool))
    : M (list kevent_t) :=
  match conds with
  | [] => ret []
  | (ident, f, eof) :: rest =>
      match nevents with
      | O => ret []
      | S n =>
          let* q := gets anioKQ in
          match q !! (ident, f) with
          | Some reg =>
              (if kr_oneshot reg
               then modify (with_anioKQ (delete (ident, f))) else ret tt) ;;
              let* evs := kevent_collect n rest in
              ret (mkKevent ident f eof (kr_udata reg) :: evs)
          | None => kevent_collect nevents rest
          end
      end
  end.

(** The result is the number of events, [-1] on error; with no timeout
    and nothing to report the call does not return. *)
Definition kevent_wait (nevents : nat) (to : option timeval)
    (reply : kevent_reply) : M (Z * list kevent_t * syserr) :=
  modify (with_waited (fun w => w ++ [to])) ;;
  match reply with
  | KError e => ret (-1, [], Some e)
  | KReady conds =>
      let* evs := kevent_collect nevents conds in
      match evs, to with
      | [], None => raise Diverges
      | _, _ => ret (Z.of_nat (length evs), evs, None)
      end
  end.

(** What the environment answers to one [select]: the descriptors that are
    readable and writable, or an error. *)
Inductive select_reply :=
  | SelReady (readable writable : fd_set)
  | SelError.

(** The number of descriptors below [nfds] that are in [s]. *)
Definition count_fds (nfds : Z) (s : fd_set) : Z :=
  Z.of_nat (length (filter (fun i => FD_ISSET (Z.of_nat i) s = true)
                           (seq 0 (Z.to_nat nfds)))).

(** [select( nfds, &readfds, &writefds, NULL, to )]: the sets are narrowed
    to the descriptors that are ready and their number is returned; [0]
    when the timeout expires first. *)
Definition select (nfds : Z) (readfds writefds : fd_set)
    (to : option timeval) (reply : select_reply) : M (Z * fd_set * fd_set) :=
  modify (with_waited (fun w => w ++ [to])) ;;
  match reply with
  | SelError => ret (-1, readfds, writefds)
  | SelReady readable writable =>
      let rf := Z.land (Z.land readfds readable) (Z.ones nfds) in
      let wf := Z.land (Z.land writefds writable) (Z.ones nfds) in
      let num := count_fds nfds rf + count_fds nfds wf in
      if num =? 0 then
        match to with
        | Some _ => ret (0, FD_ZERO, FD_ZERO)
        | None => raise Diverges
        end
      else ret (num, rf, wf)
  end.

(** The loop that copies [anioReadSet] and [anioWriteSet] into the sets
    handed to [select], for [i < LWIP_SELECT_MAXNFDS]. *)
Definition build_fd_sets (maxnfds : nat) (rs ws : fd_set)
    : Z * fd_set * fd_set :=
  fold_left
    (fun (acc : Z * fd_set * fd_set) (n : nat) =>
       let i := Z.of_nat n in
       let '(maxFd, rf, wf) := acc in
       let '(maxFd, rf) :=
         if FD_ISSET i rs then (i, FD_SET i rf) else (maxFd, rf) in
       let '(maxFd, wf) :=
         if FD_ISSET i ws then (i, FD_SET i wf) else (maxFd, wf) in
       (maxFd, rf, wf))
    (seq 0 maxnfds) (-1, FD_ZERO, FD_ZERO).

(** The descriptors [0 .. maxFd]. *)
Definition fds_upto (maxFd : Z) : list Z :=
  map Z.of_nat (seq 0 (Z.to_nat (maxFd + 1))).

(** ** The event loop *)

(** What the environment supplies to the loop: for each wait on the kernel
    queue its answer; for each turn of the select loop the value of
    [MillisecondCounter()] and the answer of [select]. *)
Record environment := mkEnvironment {
  kevent_replies : list kevent_reply;
  select_replies : list (Z * select_reply)
}.

(** [AsyncIO_Run], kqueue backend (AsyncIO.c, lines 1224-1343).
    [in_debugger] stands for
    [debug_running_in_debugger()] on Apple systems.  The loop takes one
    reply per turn; when the replies are used up it is still blocked in
    [kevent]. *)
Fixpoint AsyncIO_Run_kqueue (fuel : nat) (in_debugger : bool)
    (keepRunning got_first_event : bool) (env : list kevent_reply) : M Z :=
  match env with
  | [] => raise Diverges
  | reply :: env' =>
      (* for the first event, we always use a NULL timeout... *)
      let to := if negb keepRunning && got_first_event
                then Some (mkTimeval 0 0) else None in
      let* w := kevent_wait 1 to reply in
      let '(num, evs, err) := w in
      if (num =? 0) && negb keepRunning then
        modify (with_anioInProgress None) ;; ret 0
      else if negb (num =? 1) && bool_decide (err = Some EINTR) && in_debugger
      then AsyncIO_Run_kqueue fuel in_debugger keepRunning got_first_event env'
      else
        match evs with
        | [kv] =>
            dispatch_kevent fuel 0 kv ;;
            AsyncIO_Run_kqueue fuel in_debugger keepRunning true env'
        | _ => modify (with_anioInProgress None) ;; ret (-1)
        end
  end.

(** [AsyncIO_Run], select backend (AsyncIO.c, lines 1065-1222).  [result]
    is never set in this branch:
    the function returns [-1] however the loop ends. *)
Fixpoint AsyncIO_Run_select (maxnfds fuel : nat) (keepRunning : bool)
    (env : list (Z * select_reply)) : M Z :=
  match env with
  | [] => raise Diverges
  | (now, reply) :: env' =>
      let* rs := gets anioReadSet in
      let* ws := gets anioWriteSet in
      let '(maxFd, readfds, writefds) := build_fd_sets maxnfds rs ws in
      modify (with_aio_next_enabled_timer None) ;;
      let* nt := AsyncIO_GetNextTimerFireTime fuel now in
      let* to :=
        match nt with
        | Some (timeout, t) =>
            modify (with_aio_next_enabled_timer t) ;; ret (Some timeout)
        | None => ret None
        end in
      if negb ((0 <=? maxFd) || bool_decide (is_Some to)) then
        check false ;; modify (with_anioInProgress None) ;; ret (-1)
      else
        let* s := select (maxFd + 1) readfds writefds to reply in
        let '(num, readfds, writefds) := s in
        if num =? 0 then
          dispatch_timeout fuel now ;;
          if keepRunning then AsyncIO_Run_select maxnfds fuel keepRunning env'
          else modify (with_anioInProgress None) ;; ret (-1)
        else if 0 <? num then
          let* left := dispatch_fds fuel now true readfds writefds
                                    (fds_upto maxFd) num in
          check (left =? 0) ;;
          if keepRunning then AsyncIO_Run_select maxnfds fuel keepRunning env'
          else modify (with_anioInProgress None) ;; ret (-1)
        else
          modify (with_anioInProgress None) ;; ret (-1)
  end.

Definition AsyncIO_Run (b : backend) (maxnfds fuel : nat) (in_debugger : bool)
    (keepRunning : bool) (env : environment) : M Z :=
  let* ip := gets anioInProgress in
  check (AsyncIO_eqb ip None) ;;
  match b with
  | KQueue =>
      AsyncIO_Run_kqueue fuel in_debugger keepRunning false (kevent_replies env)
  | Select =>
      AsyncIO_Run_select maxnfds fuel keepRunning (select_replies env)
  end.

(** ** Waiting and processing as two steps *)

(** [struct OpaqueAsyncIOEventContext] *)
Record OpaqueAsyncIOEventContext := mkContext {
  ctx_num : Z;
  (* ASYNC_NETIO_USE_SELECT *)
  ctx_maxFd : Z;
  ctx_readfds : fd_set;
  ctx_writefds : fd_set;
  (* ASYNC_NETIO_USE_KQUEUE *)
  ctx_kv : list kevent_t
}.

Definition kMaxAsyncIOEvents : nat := 16.

(** A local variable: assigned, or still holding whatever was there. *)
Inductive local (A : Type) :=
  | Unassigned
  | Assigned (a : A).
Arguments Unassigned {A}.
Arguments Assigned {A} a.

(** Reading a local. *)
Definition read_local {A} (x : local A) : M A :=
  match x with
  | Assigned a => ret a
  | Unassigned => raise Uninitialised
  end.

(** The comparison of the timer's timeout with the caller's in
    [AsyncIO_WaitForEvents].  The source names the sub-second field
    [tv_nsec]; a [struct timeval] has [tv_usec]. *)
Definition timeval_gt (a c : timeval) : bool :=
  (tv_sec c <? tv_sec a) || ((tv_sec a =? tv_sec c) && (tv_usec c <? tv_usec a)).

(** [AsyncIO_WaitForEvents( &ctx, timeout )], select backend (AsyncIO.c,
    lines 759-819).  The local
    [to] is declared without a value and assigned only under
    [if ( aio_next_enabled_timer != NULL )]. *)
Definition AsyncIO_WaitForEvents_select (maxnfds fuel : nat) (now : Z)
    (timeout : option timeval) (reply : select_reply)
    : M (Z * OpaqueAsyncIOEventContext) :=
  let* rs := gets anioReadSet in
  let* ws := gets anioWriteSet in
  let '(maxFd, readfds, writefds) := build_fd_sets maxnfds rs ws in
  modify (with_aio_next_enabled_timer None) ;;
  let* nt := AsyncIO_GetNextTimerFireTime fuel now in
  let* to :=
    match nt with
    | Some (aio_timeout, t) =>
        modify (with_aio_next_enabled_timer t) ;;
        match timeout with
        | Some tmo =>
            if timeval_gt aio_timeout tmo
            then ret (Assigned (Some tmo))
            else ret (Assigned (Some aio_timeout))
        | None => ret (Assigned (Some aio_timeout))
        end
    | None => ret Unassigned
    end in
  let* ok :=
    (if 0 <=? maxFd then ret true
     else let* p := read_local to in ret (bool_decide (is_Some p))) in
  if negb ok then check false ;; ret (-1, mkContext 0 maxFd readfds writefds [])
  else
    let* p := read_local to in
    let* s := select (maxFd + 1) readfds writefds p reply in
    let '(num, readfds, writefds) := s in
    ret (0, mkContext num maxFd readfds writefds []).

(** The same, kqueue backend (AsyncIO.c, lines 821-842): the caller's
    timeout is handed to [kevent]. *)
Definition AsyncIO_WaitForEvents_kqueue (timeout : option timeval)
    (reply : kevent_reply) : M (Z * OpaqueAsyncIOEventContext) :=
  let* w := kevent_wait kMaxAsyncIOEvents timeout reply in
  let '(num, evs, _) := w in
  ret (0, mkContext num (-1) FD_ZERO FD_ZERO evs).

Definition AsyncIO_WaitForEvents (b : backend) (maxnfds fuel : nat) (now : Z)
    (timeout : option timeval) (env : environment)
    : M (Z * OpaqueAsyncIOEventContext) :=
  match b with
  | KQueue =>
      match kevent_replies env with
      | reply :: _ => AsyncIO_WaitForEvents_kqueue timeout reply
      | [] => raise Diverges
      end
  | Select =>
      match select_replies env with
      | (_, reply) :: _ =>
          AsyncIO_WaitForEvents_select maxnfds fuel now timeout reply
      | [] => raise Diverges
      end
  end.

(** The [for] loop of [AsyncIO_ProcessEvents] over [ctx->kv]. *)
Fixpoint process_kevents (fuel : nat) (now : Z) (kvs : list kevent_t) : M unit :=
  match kvs with
  | [] => ret tt
  | kv :: rest => dispatch_kevent fuel now kv ;; process_kevents fuel now rest
  end.

(** [AsyncIO_ProcessEvents] (AsyncIO.c, lines 851-1012) *)
Definition AsyncIO_ProcessEvents (b : backend) (fuel : nat) (now : Z)
    (ctx : OpaqueAsyncIOEventContext) : M Z :=
  match b with
  | Select =>
      (if ctx_num ctx =? 0 then dispatch_timeout fuel now
       else if 0 <? ctx_num ctx then
         let* left := dispatch_fds fuel now false (ctx_readfds ctx)
                                   (ctx_writefds ctx)
                                   (fds_upto (ctx_maxFd ctx)) (ctx_num ctx) in
         check (left =? 0)
       else ret tt) ;;
      ret 0
  | KQueue =>
      process_kevents fuel now (ctx_kv ctx) ;;
      ret 0
  end.

(** ** The redirect pump *)

Module Redirect.

(** [REDIR_STATE_*] *)
Inductive redir_state :=
  | REDIR_STATE_WAITING_FOR_DATA
  | REDIR_STATE_SENDING.

(** [kAIO_REDIRECT_*], the notifications that reach the owner. *)
Inductive redirect_event :=
  | kAIO_REDIRECT_INPUT_CLOSED_EVENT
  | kAIO_REDIRECT_INPUT_ERROR_EVENT
  | kAIO_REDIRECT_OUTPUT_ERROR_EVENT
  | kAIO_REDIRECT_DATA_READY
  | kAIO_REDIRECT_DATA_WRITTEN.

(** [sizeof( redir->buffer )] *)
Definition buffer_size : nat := 512.

(** [struct OpaqueAsyncIORedirect]: the fields the pump works on. *)
Record OpaqueAsyncIORedirect := mkRedirect {
  state : redir_state;
  buffer : list byte;          (* [char buffer[512]] *)
  num_in_buffer : Z
}.

(** What [read] on the input descriptor finds: bytes that have arrived, the
    end of the stream, an error, or nothing yet. *)
Inductive input_item :=
  | InData (bytes : list byte)
  | InEOF
  | InError (e : errno_t).

(** What [write] on the output descriptor does with the next call: take up
    to [k] bytes, or fail. *)
Inductive output_item :=
  | OutAccept (k : nat)
  | OutError (e : errno_t).

(** What the pump does that can be seen from outside it. *)
Inductive action :=
  | DidRead (result : Z)                    (* a [read] call and its result *)
  | DidWrite (count : Z) (result : Z)       (* a [write] call, its count and result *)
  | Notified (e : redirect_event)           (* a call of [redir->callback] *)
  | ArmedRead                               (* [AsyncIO_NotifyOnReadability( redir->anio_in )] *)
  | ArmedWrite                              (* [AsyncIO_NotifyOnWritability( redir->anio_out )] *)
  | ClosedDescriptor (fd_is_input : bool).  (* a [close] of either descriptor *)

Record world := mkWorld {
  redir : OpaqueAsyncIORedirect;
  input : list input_item;       (* what the input descriptor will deliver *)
  output : list output_item;     (* how the output descriptor will respond *)
  written : list byte;           (* the bytes the output descriptor has taken *)
  log : list action              (* oldest first *)
}.

Definition logged (a : action) (w : world) : world :=
  mkWorld (redir w) (input w) (output w) (written w) (log w ++ [a]).

(** [read( fd_in, buffer, count )]: the result ([-1] with an [errno], [0]
    at the end of the stream, else the number of bytes), and the buffer
    with the bytes stored at its start.  With nothing to deliver the call
    fails with [EWOULDBLOCK]. *)
Definition sys_read (count : nat) (buf : list byte) (inp : list input_item)
    : Z * option errno_t * list byte * list input_item :=
  match inp with
  | [] => (-1, Some EWOULDBLOCK, buf, [])
  | InError e :: rest => (-1, Some e, buf, rest)
  | InEOF :: rest => (0, None, buf, InEOF :: rest)
  | InData bytes :: rest =>
      let got := firstn count bytes in
      let later := skipn count bytes in
      (Z.of_nat (length got), None, got ++ skipn (length got) buf,
       match later with [] => rest | _ => InData later :: rest end)
  end.

(** [write( fd_out, buffer, count )]: the result and the bytes taken. *)
Definition sys_write (count : nat) (buf : list byte) (out : list output_item)
    : Z * option errno_t * list byte * list output_item :=
  match out with
  | [] => (-1, Some EWOULDBLOCK, [], [])
  | OutError e :: rest => (-1, Some e, [], rest)
  | OutAccept k :: rest =>
      let taken := firstn (Nat.min k count) buf in
      (Z.of_nat (length taken), None, taken, rest)
  end.

(** [memmove( buffer, &buffer[ from ], n )] *)
Definition memmove (buf : list byte) (from n : nat) : list byte :=
  firstn n (skipn from buf) ++ skipn n buf.

(** One turn of the [while ( !done )] loop of [redirect_Pump] (AsyncIO.c,
    lines 1382-1455): the new world and the new value of [done]. *)
Definition pump_step (w : world) : world * bool :=
  let rd := redir w in
  match state rd with
  | REDIR_STATE_WAITING_FOR_DATA =>
      let '(num_in, err, buf, inp) := sys_read buffer_size (buffer rd) (input w) in
      let w := logged (DidRead num_in)
                 (mkWorld (mkRedirect (state rd) buf (num_in_buffer rd))
                          inp (output w) (written w) (log w)) in
      if num_in <? 0 then
        if bool_decide (err = Some EWOULDBLOCK) then (logged ArmedRead w, true)
        else (logged (Notified kAIO_REDIRECT_INPUT_ERROR_EVENT) w, false)
      else if num_in =? 0 then (w, true)
      else
        (mkWorld (mkRedirect REDIR_STATE_SENDING buf num_in)
                 (input w) (output w) (written w) (log w), false)
  | REDIR_STATE_SENDING =>
      let '(num_out, err, taken, out) :=
        sys_write (Z.to_nat (num_in_buffer rd)) (buffer rd) (output w) in
      let w := logged (DidWrite (num_in_buffer rd) num_out)
                 (mkWorld rd (input w) out (written w ++ taken) (log w)) in
      if num_out <? 0 then
        if bool_decide (err = Some EWOULDBLOCK) then (logged ArmedWrite w, true)
        else (logged (Notified kAIO_REDIRECT_OUTPUT_ERROR_EVENT) w, false)
      else if num_out <? num_in_buffer rd then
        (* clear out anything we have *)
        let remaining := num_in_buffer rd - num_out in
        (mkWorld (mkRedirect (state rd)
                    (memmove (buffer rd) (Z.to_nat num_out) (Z.to_nat remaining))
                    (num_in_buffer rd))
                 (input w) (output w) (written w) (log w), false)
        (* we'll try to send again *)
      else
        let w := logged (Notified kAIO_REDIRECT_DATA_WRITTEN) w in
        (mkWorld (mkRedirect REDIR_STATE_WAITING_FOR_DATA (buffer rd)
                             (num_in_buffer rd))
                 (input w) (output w) (written w) (log w), false)
  end.

(** [redirect_Pump( redir )]: [Some] world once [done] is set, [None] when
    the loop is still running after [fuel] turns. *)
Fixpoint redirect_Pump (fuel : nat) (w : world) : option world :=
  match fuel with
  | O => None
  | S fuel' =>
      let '(w', done) := pump_step w in
      if done then Some w' else redirect_Pump fuel' w'
  end.

(** The world after exactly [n] turns of the loop, as long as [done] stays
    unset. *)
Fixpoint pump_turns (n : nat) (w : world) : world :=
  match n with
  | O => w
  | S n' => let '(w', done) := pump_step w in
            if done then w' else pump_turns n' w'
  end.

(** [redirect_AsyncIOEvent] (AsyncIO.c, lines 1459-1493), the callback the
    pump installs on both handles. *)
Definition redirect_AsyncIOEvent (fuel : nat) (eventID : event_kind)
    (w : world) : option world :=
  match eventID with
  | kAIO_DATA_AVAILABLE =>
      redirect_Pump fuel (logged (Notified kAIO_REDIRECT_DATA_READY) w)
  | kAIO_READY_FOR_WRITE => redirect_Pump fuel w
  | kAIO_CONNECTION_CLOSED =>
      Some (logged (Notified kAIO_REDIRECT_INPUT_CLOSED_EVENT) w)
  | _ => Some w
  end.

(** A freshly made redirect ([calloc] zeroes the buffer). *)
Definition new_world (inp : list input_item) (out : list output_item) : world :=
  mkWorld (mkRedirect REDIR_STATE_WAITING_FOR_DATA (repeat "000"%byte buffer_size) 0)
          inp out [] [].

End Redirect.

(** ** Vocabulary for the statements *)

(** The handles reached from [a] by following [next_timer] up to [NULL]. *)
Inductive timer_chain (hp : gmap nat OpaqueAsyncIO) : AsyncIO -> list ptr -> Prop :=
  | timer_chain_nil : timer_chain hp None []
  | timer_chain_cons p t l :
      hp !! p = Some t ->
      timer_chain hp (next_timer t) l ->
      timer_chain hp (Some p) (p :: l).

(** A callback that does nothing. *)
Definition no_callback : AsyncIOEvent := fun _ _ _ _ => Return.

(** After [AsyncIO_Initialize] and one [AsyncIO_NewTimer]: the timer is the
    handle at address 1. *)
Definition one_timer : reactor :=
  snd (AsyncIO_NewTimer no_callback 0 initial_reactor).

(** A property of the state that a computation cannot break. *)
Definition preserves {A : Type} (P : reactor -> Prop) (m : M A) : Prop :=
  forall r, P r -> P (snd (m r)).

(** What a computation returns, whatever the state. *)
Definition returns {A : Type} (R : A -> Prop) (m : M A) : Prop :=
  forall r a r1, m r = (Ok a, r1) -> R a.

(** Properties that survive every state change the public functions make,
    except arming the kernel filter [ff] (for [EVFILT_READ] and
    [EVFILT_WRITE], on the select backend, the corresponding descriptor
    set). *)
Record stable (ff : kfilter) (P : reactor -> Prop) : Prop := mkStable {
  st_heap : forall f r, P r -> P (with_heap f r);
  st_next_alloc : forall v r, P r -> P (with_next_alloc v r);
  st_anioInProgress : forall v r, P r -> P (with_anioInProgress v r);
  st_enabled_timers : forall v r, P r -> P (with_enabled_timers v r);
  st_aio_next_enabled_timer :
    forall v r, P r -> P (with_aio_next_enabled_timer v r);
  st_socket_userdata : forall f r, P r -> P (with_socket_userdata f r);
  st_open_fds : forall f r, P r -> P (with_open_fds f r);
  st_waited : forall f r, P r -> P (with_waited f r);
  st_checks_failed : forall v r, P r -> P (with_checks_failed v r);
  st_kq_delete : forall key r, P r -> P (with_anioKQ (delete key) r);
  st_kq_insert :
    forall ident f reg r,
      f <> ff -> P r -> P (with_anioKQ (insert (ident, f) reg) r);
  st_read_clr : forall j r, P r -> P (with_anioReadSet (FD_CLR j) r);
  st_write_clr : forall j r, P r -> P (with_anioWriteSet (FD_CLR j) r);
  st_read_set :
    ff <> EVFILT_READ -> forall j r, P r -> P (with_anioReadSet (FD_SET j) r);
  st_write_set :
    ff <> EVFILT_WRITE -> forall j r, P r -> P (with_anioWriteSet (FD_SET j) r)
}.

(** Calls that do not arm the filter [ff]. *)
Definition api_allowed (ff : kfilter) (c : api_call) : Prop :=
  match c with
  | CallNotifyOnReadability _ | CallNewConnectionListener _ _ _ =>
      ff <> EVFILT_READ
  | CallNotifyOnWritability _ => ff <> EVFILT_WRITE
  | CallEnableTimer _ _ => ff <> EVFILT_TIMER
  | _ => True
  end.

(** Client code all of whose calls are allowed. *)
Inductive client_allowed (ff : kfilter) : client_code -> Prop :=
  | allowed_Return : client_allowed ff Return
  | allowed_Call c k :
      api_allowed ff c ->
      (forall z, client_allowed ff (k z)) ->
      client_allowed ff (Call c k).

(** The deliveries recorded after the first [n]. *)
Definition delivered_since (n : nat) (r : reactor) : list delivery :=
  skipn n (delivered r).

(** The state extends the deliveries [l0] only by deliveries that
    satisfy [Q]. *)
Definition only_delivers (Q : delivery -> Prop) (l0 : list delivery)
    (r : reactor) : Prop :=
  exists l, delivered r = l0 ++ l /\ Forall Q l.

(** A caller that waits and processes in turns, as the two-step interface
    is meant to be used: each turn has its clock value, its timeout and the
    environment's answer. *)
Fixpoint wait_process_cycles (b : backend) (maxnfds fuel : nat)
    (turns : list (Z * option timeval * environment)) : M unit :=
  match turns with
  | [] => ret tt
  | (now, timeout, env) :: rest =>
      let* w := AsyncIO_WaitForEvents b maxnfds fuel now timeout env in
      AsyncIO_ProcessEvents b fuel now (snd w) ;;
      wait_process_cycles b maxnfds fuel rest
  end.

(** A descriptor with flags [O_RDWR], open before the reactor starts, and a
    connection handle made for it: the handle at address 1. *)
Definition one_connection (b : backend) (fd : Z) (cb : AsyncIOEvent) : reactor :=
  snd (AsyncIO_NewConnection b fd cb 0
         (with_open_fds (insert fd (mkFdState 2 None)) initial_reactor)).

(** The same with read interest armed. *)
Definition one_connection_reading (b : backend) (fd : Z) (cb : AsyncIOEvent)
    : reactor :=
  snd (AsyncIO_NotifyOnReadability b (Some 1%nat) (one_connection b fd cb)).

(** A [struct timeval] in microseconds. *)
Definition timeval_us (tv : timeval) : Z := tv_sec tv * 1000000 + tv_usec tv.


(** A callback that releases its handle, without closing the descriptor,
    when it is told that data is available. *)
Definition releases_on_data (cb : AsyncIOEvent) : Prop :=
  forall anio fd_arg ud,
    cb kAIO_DATA_AVAILABLE anio fd_arg ud
    = Call (CallRelease anio false) (fun _ => Return).

(** Such a callback. *)
Definition self_releasing : AsyncIOEvent :=
  fun k anio _ _ =>
    match k with
    | kAIO_DATA_AVAILABLE => Call (CallRelease anio false) (fun _ => Return)
    | _ => Return
    end.

(** A connection with both interests armed. *)
Definition one_connection_armed (b : backend) (fd : Z) (cb : AsyncIOEvent)
    : reactor :=
  snd (AsyncIO_NotifyOnWritability b (Some 1%nat)
         (one_connection_reading b fd cb)).

(** ** Vocabulary for one-shot arming *)

(** The event a ready read or write interest is delivered as. *)
Definition ready_kind (ff : kfilter) : event_kind :=
  match ff with
  | EVFILT_WRITE => kAIO_READY_FOR_WRITE
  | _ => kAIO_DATA_AVAILABLE
  end.




(** The backend reports descriptor [i] ready in the direction [ff] and the
    loop dispatches it: on the select backend the read or write block of
    the loop over the descriptors; on the kqueue backend the kernel's
    report followed by the loop body. *)
Definition report_and_dispatch (b : backend) (ff : kfilter) (fuel : nat)
    (now : Z) (to : option timeval) (eof : bool) (i : Z) : M unit :=
  match b with
  | Select =>
      match ff with
      | EVFILT_WRITE => dispatch_writable fuel now i
      | _ => dispatch_readable fuel now i
      end
  | KQueue =>
      let* w := kevent_wait 1 to (KReady [(i, ff, eof)]) in
      process_kevents fuel now (snd (fst w))
  end.


(** The delivery is not a readiness event of the direction [ff] made for
    descriptor [i]. *)
Definition not_ready_at (ff : kfilter) (i : Z) (d : delivery) : Prop :=
  d_event d = ready_kind ff -> d_source d <> i.


(** A callback that asks for read notification again each time data is
    available. *)
Definition rearming : AsyncIOEvent :=
  fun k anio _ _ =>
    match k with
    | kAIO_DATA_AVAILABLE => Call (CallNotifyOnReadability anio) (fun _ => Return)
    | _ => Return
    end.







(** * More of the code *)

(** ** Vocabulary for the timer list *)

(** [r'] differs from [r] in the handles and the two timer variables at
    most. *)
Definition timers_only (r r' : reactor) : Prop :=
  next_alloc r' = next_alloc r /\ anioInProgress r' = anioInProgress r /\
  anioKQ r' = anioKQ r /\ anioReadSet r' = anioReadSet r /\
  anioWriteSet r' = anioWriteSet r /\ socket_userdata r' = socket_userdata r /\
  open_fds r' = open_fds r /\ delivered r' = delivered r /\
  waited r' = waited r /\ checks_failed r' = checks_failed r.

(** Every handle of [hp] is in [hp'] with the same fields, its link in the
    timer list apart, and [hp'] has no other. *)
Definition same_handles (hp hp' : gmap nat OpaqueAsyncIO) : Prop :=
  forall p, match hp !! p with
            | Some t => exists nt, hp' !! p = Some (set_next_timer nt t)
            | None => hp' !! p = None
            end.

(** Three timers made after [AsyncIO_Initialize] and enabled at clock
    value 1000, for 50, 10 and 30 milliseconds: the list is 3, 2, 1. *)
Definition three_timers : reactor :=
  snd (AsyncIO_EnableTimer Select 1000 (Some 3%nat) 30
    (snd (AsyncIO_EnableTimer Select 1000 (Some 2%nat) 10
      (snd (AsyncIO_EnableTimer Select 1000 (Some 1%nat) 50
        (snd (AsyncIO_NewTimer no_callback 0
          (snd (AsyncIO_NewTimer no_callback 0 one_timer))))))))).

(** A timer callback that enables its timer again for [ms] milliseconds
    each time it fires. *)
Definition periodic (ms : Z) : AsyncIOEvent :=
  fun k anio _ _ =>
    match k with
    | kAIO_TIMER_FIRED => Call (CallEnableTimer anio ms) (fun _ => Return)
    | _ => Return
    end.

(** One timer with that callback, enabled at clock value 1000 and chosen
    by the loop as the next to fire. *)
Definition one_periodic_timer : reactor :=
  with_aio_next_enabled_timer (Some 1%nat)
    (snd (AsyncIO_EnableTimer Select 1000 (Some 1%nat) 20
       (snd (AsyncIO_NewTimer (periodic 20) 0 initial_reactor)))).

(** ** Vocabulary for handles and registrations *)

(** A descriptor with flags [O_RDWR], open before the reactor starts, and
    a listener made for it: the handle at address 1. *)
Definition one_listener (b : backend) (fd : Z) (cb : AsyncIOEvent) : reactor :=
  snd (AsyncIO_NewConnectionListener b fd cb 0
         (with_open_fds (insert fd (mkFdState 2 None)) initial_reactor)).

(** ** Vocabulary for what a call establishes *)

(** Whenever the computation returns, its result and the state it leaves
    satisfy [Q]. *)
Definition ensures {A : Type} (Q : A -> reactor -> Prop) (m : M A) : Prop :=
  forall r a r', m r = (Ok a, r') -> Q a r'.

(** What [AsyncIO_Run] may return and the state it returns in. *)
Definition run_outcome (b : backend) (keepRunning : bool) (z : Z)
    (r : reactor) : Prop :=
  anioInProgress r = None /\
  (z = -1 \/ (z = 0 /\ b = KQueue /\ keepRunning = false)).

(** ** Process and signal monitors (kqueue backend) *)

(** What [signal( sig, ... )] has set for a signal. *)
Inductive sig_disposition :=
  | SIG_DFL
  | SIG_IGN
  | SIG_HANDLER (handler : nat).

(** [kevent( anioKQ, &kv, 1, NULL, 0, NULL )] with
    [EV_ADD | EV_ENABLE | EV_ONESHOT] for a process or a signal.  Whether
    the kernel accepts the registration (the process may be gone, the
    signal number out of range) is not to be read off the reactor's state:
    [answer] is what the call returns. *)
Definition kevent_add_monitor (answer : syserr) (ident : Z) (f : kfilter)
    (udata : AsyncIO) : M syserr :=
  match answer with
  | None =>
      modify (with_anioKQ (insert (ident, f) (mkKreg udata true))) ;;
      ret None
  | Some e => ret (Some e)
  end.

(** [AsyncIO_NewProcessMonitor] (AsyncIO.c, lines 419-457) *)
Definition AsyncIO_NewProcessMonitor (answer : syserr) (pid : Z)
    (eventCallback : AsyncIOEvent) (userData : Z) : M AsyncIO :=
  let* anio := alloc (mkAsyncIO (-1) kAIO_TYPE_PROC eventCallback userData
                                false false 0 None) in
  let* err := kevent_add_monitor answer pid EVFILT_PROC anio in
  match err with
  | Some _ => check false ;; free anio ;; ret None
  | None => ret anio
  end.

(** [AsyncIO_NewSignalMonitor] (AsyncIO.c, lines 459-500).  The signal
    dispositions of the process are passed in and returned with the
    handle. *)
Definition AsyncIO_NewSignalMonitor (answer : syserr) (sig_id : Z)
    (eventCallback : AsyncIOEvent) (userData : Z)
    (sigs : gmap Z sig_disposition) : M (AsyncIO * gmap Z sig_disposition) :=
  let* anio := alloc (mkAsyncIO (-1) kAIO_TYPE_SIGNAL eventCallback userData
                                false false 0 None) in
  (* must set signal to be ignored *)
  let sigs := <[sig_id := SIG_IGN]> sigs in
  let* err := kevent_add_monitor answer sig_id EVFILT_SIGNAL anio in
  match err with
  | Some _ => check false ;; free anio ;; ret (None, sigs)
  | None => ret (anio, sigs)
  end.

(** The filter a monitor of each kind registers and the event its
    callback receives. *)
Definition monitor_event (f : kfilter) : option event_kind :=
  match f with
  | EVFILT_PROC => Some kAIO_PROCESS_EXITED
  | EVFILT_SIGNAL => Some kAIO_SIGNAL_DELIVERED
  | _ => None
  end.

(** The kernel reports the monitored condition twice, to two waits. *)
Definition reported_twice (ident : Z) (f : kfilter) : environment :=
  mkEnvironment [KReady [(ident, f, false)]; KReady [(ident, f, false)]] [].

(** ** Redirects: construction and release *)

(** [struct OpaqueAsyncIORedirect]: the fields the constructor fills in
    (the pump's fields are those of [Redirect.OpaqueAsyncIORedirect]). *)
Record redirect_handles := mkRedirectHandles {
  fd_in : Z;
  anio_in : AsyncIO;
  fd_out : Z;
  anio_out : AsyncIO
}.

(** [ForgetAsyncIO( &a, c )] *)
Definition ForgetAsyncIO (b : backend) (fuel : nat) (a : AsyncIO) (c : bool)
    : M unit :=
  match a with
  | Some _ => AsyncIO_Release b fuel a c ;; ret tt
  | None => ret tt
  end.

(** [AsyncIO_Redirect] (AsyncIO.c, lines 1495-1533).  The callback
    installed on both handles is [redirect_AsyncIOEvent], whose reads and
    writes are outside the reactor's state: it is given as
    [redirect_event], and the address of the new struct, the handles' user
    data, as [redir].  The result is the struct's content, [None] for
    [NULL]. *)
Definition AsyncIO_Redirect (b : backend) (fuel : nat) (fd_in fd_out : Z)
    (redirect_event : AsyncIOEvent) (redir : Z) : M (option redirect_handles) :=
  let* anio_in := AsyncIO_NewConnection b fd_in redirect_event redir in
  match anio_in with
  | None => check false ;; ret None
  | Some _ =>
      let* err := AsyncIO_NotifyOnReadability b anio_in in
      if negb (err =? 0) then
        check false ;; ForgetAsyncIO b fuel anio_in false ;; ret None
      else
        let* anio_out := AsyncIO_NewConnection b fd_out redirect_event redir in
        match anio_out with
        | None => check false ;; ForgetAsyncIO b fuel anio_in false ;; ret None
        | Some _ => ret (Some (mkRedirectHandles fd_in anio_in fd_out anio_out))
        end
  end.

(** [AsyncIO_ReleaseRedirect] (AsyncIO.c, lines 1535-1545) *)
Definition AsyncIO_ReleaseRedirect (b : backend) (fuel : nat)
    (redir : option redirect_handles) (closeIn closeOut : bool) : M unit :=
  match redir with
  | None => check false
  | Some rd =>
      ForgetAsyncIO b fuel (anio_in rd) closeIn ;;
      ForgetAsyncIO b fuel (anio_out rd) closeOut
  end.

(** No handle lives at an address [calloc] has yet to return. *)
Definition heap_fresh (r : reactor) : Prop :=
  forall q, (next_alloc r <= q)%nat -> heap r !! q = None.

(** Two descriptors with flags [O_RDWR], open before the reactor starts. *)
Definition two_descriptors (fd1 fd2 : Z) : reactor :=
  with_open_fds (insert fd1 (mkFdState 2 None))
    (with_open_fds (insert fd2 (mkFdState 2 None)) initial_reactor).

(** ** Vocabulary for the pump *)

(** An answer of the output descriptor that takes whatever the pump can
    offer in one [write]. *)
Definition takes_all (o : Redirect.output_item) : bool :=
  match o with
  | Redirect.OutAccept k => (Redirect.buffer_size <=? k)%nat
  | Redirect.OutError _ => false
  end.

(** What the pump is seen to do for a chunk of input that goes out in one
    piece: the [write] and the word to the owner, after the [read]. *)
Definition sent_log (n : Z) : list Redirect.action :=
  [Redirect.DidWrite n n;
   Redirect.Notified Redirect.kAIO_REDIRECT_DATA_WRITTEN].

Definition chunk_log (c : list byte) : list Redirect.action :=
  Redirect.DidRead (Z.of_nat (length c)) :: sent_log (Z.of_nat (length c)).

(** [redirect_Pump] returns within [turns] turns of its loop, having
    written [bytes] and done [acts]; it returns because a [read] found
    nothing, with the input armed for reading. *)
Definition pump_copies (turns : nat) (w : Redirect.world) (bytes : list byte)
    (acts : list Redirect.action) : Prop :=
  exists w',
    Redirect.redirect_Pump turns w = Some w' /\
    Redirect.written w' = Redirect.written w ++ bytes /\
    Redirect.input w' = [] /\
    Redirect.state (Redirect.redir w') = Redirect.REDIR_STATE_WAITING_FOR_DATA /\
    length (Redirect.buffer (Redirect.redir w')) = Redirect.buffer_size /\
    Redirect.log w'
    = Redirect.log w ++ acts ++ [Redirect.DidRead (-1); Redirect.ArmedRead].

(** A [write] that offers bytes of the buffer only, and takes no more than
    it offers. *)
Definition write_in_bounds (a : Redirect.action) : Prop :=
  match a with
  | Redirect.DidWrite count result =>
      0 < count <= Z.of_nat Redirect.buffer_size /\ result <= count
  | _ => True
  end.

(** The buffer has its 512 bytes, the count of a pending write lies within
    it, and so did the count of every write made so far. *)
Definition pump_in_bounds (w : Redirect.world) : Prop :=
  length (Redirect.buffer (Redirect.redir w)) = Redirect.buffer_size /\
  (Redirect.state (Redirect.redir w) = Redirect.REDIR_STATE_SENDING ->
   0 < Redirect.num_in_buffer (Redirect.redir w)
     <= Z.of_nat Redirect.buffer_size) /\
  Forall write_in_bounds (Redirect.log w).

(** ** Timers on the kqueue backend *)

(** A timer made after [AsyncIO_Initialize], the handle at address 1. *)
Definition one_kqueue_timer (cb : AsyncIOEvent) : reactor :=
  snd (AsyncIO_NewTimer cb 0 initial_reactor).

(** ** Vocabulary for the select loop *)

(** No descriptor below [maxnfds] is watched for reading or writing. *)
Definition nothing_armed (maxnfds : nat) (r : reactor) : Prop :=
  forall i, (i < maxnfds)%nat ->
    FD_ISSET (Z.of_nat i) (anioReadSet r) = false /\
    FD_ISSET (Z.of_nat i) (anioWriteSet r) = false.

(** * The clock (TimeUtilities.c) *)

(** [struct timespec]: the fields [tv_sec] and [tv_nsec]. *)
Record timespec := mkTimespec { ts_sec : Z; ts_nsec : Z }.

(** Arithmetic in [uint64_t]. *)
Definition wrap64 (z : Z) : Z := z mod 18446744073709551616.

Definition NANOSECONDS_PER_MILLISECOND : Z := 1000000.

(** [NanosecondCounter] (TimeUtilities.c, lines 80-92); [now] is what
    [clock_gettime( CLOCK_MONOTONIC, &now )] stored. *)
Definition NanosecondCounter (now : timespec) : Z :=
  let result := wrap64 (ts_sec now) in
  let result := wrap64 (result * 1000000000) in
  wrap64 (result + ts_nsec now).

(** [NanosecondsToTimespec] (TimeUtilities.c, lines 94-105) *)
Definition NanosecondsToTimespec (nanoseconds : Z) : timespec :=
  let seconds := nanoseconds / 1000000000 in
  let sec := seconds in
  let nanoseconds :=
    if 0 <? seconds
    then wrap64 (nanoseconds - wrap64 (seconds * 1000000000))
    else nanoseconds in
  mkTimespec sec nanoseconds.

(** [MillisecondCounter] (TimeUtilities.c, lines 107-114): the result is
    cut to [uint32_t]. *)
Definition MillisecondCounter (now : timespec) : Z :=
  let nanos := NanosecondCounter now in
  let nanos := nanos / (1000 * 1000) in
  wrap32 nanos.

(** [DelayMilliseconds] (TimeUtilities.c, lines 116-122): the
    [struct timespec] handed to [nanosleep]. *)
Definition DelayMilliseconds (ms : Z) : timespec :=
  mkTimespec (ms / 1000)
             (wrap64 (wrap32 (ms mod 1000) * NANOSECONDS_PER_MILLISECOND)).

(** A reading of the monotonic clock: no negative field, less than a
    second in [tv_nsec], and a number of nanoseconds that fits 64 bits. *)
Definition clock_reading (t : timespec) : Prop :=
  0 <= ts_sec t /\ 0 <= ts_nsec t < 1000000000 /\
  ts_sec t * 1000000000 + ts_nsec t < 18446744073709551616.

(** The milliseconds since the clock started. *)
Definition milliseconds_of (t : timespec) : Z :=
  ts_sec t * 1000 + ts_nsec t / 1000000.

(** ** Callbacks that release their own handle *)

(** A timer callback that releases its timer when it fires. *)
Definition releases_when_fired (closeDescriptor : bool) : AsyncIOEvent :=
  fun k anio _ _ =>
    match k with
    | kAIO_TIMER_FIRED =>
        Call (CallRelease anio closeDescriptor) (fun _ => Return)
    | _ => Return
    end.

(** * Properties *)

(** ** Pointer comparison *)

Lemma AsyncIO_eqb_true a b : AsyncIO_eqb a b = true <-> a = b.
Proof. unfold AsyncIO_eqb. apply bool_decide_eq_true. Qed.

Lemma AsyncIO_eqb_false a b : AsyncIO_eqb a b = false <-> a <> b.
Proof. unfold AsyncIO_eqb. apply bool_decide_eq_false. Qed.

Lemma AsyncIO_eqb_refl a : AsyncIO_eqb a a = true.
Proof. by apply AsyncIO_eqb_true. Qed.

(** ** Enabling a timer that is enabled *)

(** A timer whose link points back to itself is never left by the scan. *)
Lemma scan_timers_self_loop fuel r h t best best_time :
  heap r !! h = Some t -> next_timer t = Some h ->
  scan_timers fuel (Some h) best best_time r = (Fault Diverges, r).
Proof.
  intros Hh Hn. revert best best_time.
  induction fuel as [|fuel IH]; intros best best_time; [reflexivity|].
  cbn [scan_timers]. unfold bind, deref. rewrite Hh, Hn.
  destruct (next_fire_time t <? best_time); apply IH.
Qed.

Lemma unlink_timer_self_loop fuel r h t x :
  heap r !! h = Some t -> next_timer t = Some h -> x <> Some h ->
  unlink_timer fuel (Some h) x r = (Fault Diverges, r).
Proof.
  intros Hh Hn Hx.
  induction fuel as [|fuel IH]; [reflexivity|].
  cbn [unlink_timer]. unfold bind, deref. rewrite Hh, Hn.
  assert (AsyncIO_eqb (Some h) x = false) as -> by (apply AsyncIO_eqb_false; congruence).
  apply IH.
Qed.

(** C10.  On the select backend, enabling a timer stores the old list head
    in its link and makes it the head, whether or not it is already in the
    list: every other handle, and so every link that leads to the timer, is
    left as it was.  When the timer is the current head, its link then
    points to itself, and from that moment the scan of
    [AsyncIO_GetNextTimerFireTime], and the scan of [AsyncIO_DisableTimer]
    for any other timer, run without end. *)
Theorem enable_timer_again_links_back (r : reactor) (h : ptr)
    (t : OpaqueAsyncIO) (now ms : Z) :
  heap r !! h = Some t ->
  fst (AsyncIO_EnableTimer Select now (Some h) ms r) = Ok 0 /\
  enabled_timers (snd (AsyncIO_EnableTimer Select now (Some h) ms r)) = Some h /\
  heap (snd (AsyncIO_EnableTimer Select now (Some h) ms r)) !! h =
    Some (set_next_timer (enabled_timers r)
            (set_next_fire_time (wrap32 (now + ms)) t)) /\
  (forall p, p <> h ->
     heap (snd (AsyncIO_EnableTimer Select now (Some h) ms r)) !! p = heap r !! p) /\
  (enabled_timers r = Some h ->
     (forall fuel now',
        fst (AsyncIO_GetNextTimerFireTime fuel now'
               (snd (AsyncIO_EnableTimer Select now (Some h) ms r)))
        = Fault Diverges) /\
     (forall fuel x, x <> Some h ->
        fst (AsyncIO_DisableTimer Select fuel x
               (snd (AsyncIO_EnableTimer Select now (Some h) ms r)))
        = Fault Diverges)).
Proof.
  intros Hh.
  assert (AsyncIO_EnableTimer Select now (Some h) ms r =
          (Ok 0, with_enabled_timers (Some h)
                   (with_heap (insert h (set_next_timer (enabled_timers r)
                      (set_next_fire_time (wrap32 (now + ms)) t))) r))) as ->.
  { unfold AsyncIO_EnableTimer, assign, bind, deref, modify, gets, ret.
    cbn. rewrite Hh. cbn. rewrite lookup_insert_eq. cbn.
    unfold with_enabled_timers, with_heap. cbn. rewrite insert_insert_eq. reflexivity. }
  cbn [fst snd].
  split; [reflexivity|]. split; [reflexivity|].
  split; [cbn; apply lookup_insert_eq|].
  split; [intros p Hp; cbn; by apply lookup_insert_ne|].
  intros Hhead. rewrite Hhead.
  set (t' := set_next_timer (Some h) (set_next_fire_time (wrap32 (now + ms)) t)).
  set (r' := with_enabled_timers _ _).
  assert (heap r' !! h = Some t') as Hh' by (cbn; apply lookup_insert_eq).
  split.
  - intros fuel now'. unfold AsyncIO_GetNextTimerFireTime, bind, gets. cbn [enabled_timers r'].
    change (enabled_timers r') with (Some h).
    by rewrite (scan_timers_self_loop fuel r' h t').
  - intros fuel x Hx. unfold AsyncIO_DisableTimer, bind, gets.
    destruct (AsyncIO_eqb x (aio_next_enabled_timer r')).
    + cbn. assert (AsyncIO_eqb (Some h) x = false) as -> by (apply AsyncIO_eqb_false; congruence).
      rewrite (unlink_timer_self_loop fuel _ h t' x); [reflexivity| |reflexivity|done].
      cbn. apply lookup_insert_eq.
    + cbn. assert (AsyncIO_eqb (Some h) x = false) as -> by (apply AsyncIO_eqb_false; congruence).
      rewrite (unlink_timer_self_loop fuel _ h t' x); [reflexivity| |reflexivity|done].
      cbn. apply lookup_insert_eq.
Qed.


Lemma enable_timer_again_witness :
  heap (snd (AsyncIO_EnableTimer Select 1000 (Some 1%nat) 50 one_timer)) !! 1%nat
    = Some (mkAsyncIO (-1) kAIO_TYPE_TIMER no_callback 0 false false 1050 None) /\
  forall fuel now',
    fst (AsyncIO_GetNextTimerFireTime fuel now'
           (snd (AsyncIO_EnableTimer Select 1050 (Some 1%nat) 50
              (snd (AsyncIO_EnableTimer Select 1000 (Some 1%nat) 50 one_timer)))))
    = Fault Diverges.
Proof.
  assert (heap (snd (AsyncIO_EnableTimer Select 1000 (Some 1%nat) 50 one_timer)) !! 1%nat
    = Some (mkAsyncIO (-1) kAIO_TYPE_TIMER no_callback 0 false false 1050 None)) as Hlive
    by reflexivity.
  split; [exact Hlive|].
  destruct (enable_timer_again_links_back _ 1%nat _ 1050 50 Hlive)
    as (_ & _ & _ & _ & Hloop).
  apply Hloop. reflexivity.
Defined.

(** The one call that does not scan: disabling the head itself takes the
    first branch.  With the head linked to itself, the head pointer is
    set to the timer again, so the timer stays enabled, and its link is
    reset: the list is the timer alone. *)
Lemma disable_self_linked_head (r : reactor) (h : nat) (t : OpaqueAsyncIO)
    (fuel : nat) :
  heap r !! h = Some t -> next_timer t = Some h -> enabled_timers r = Some h ->
  fst (AsyncIO_DisableTimer Select fuel (Some h) r) = Ok 0 /\
  enabled_timers (snd (AsyncIO_DisableTimer Select fuel (Some h) r)) = Some h /\
  heap (snd (AsyncIO_DisableTimer Select fuel (Some h) r)) !! h
  = Some (set_next_timer None t).
Proof.
  intros Hh Hn He.
  unfold AsyncIO_DisableTimer, assign, bind, deref, gets, modify, ret.
  destruct (AsyncIO_eqb (Some h) (aio_next_enabled_timer r));
    repeat (progress (cbn; rewrite ?Hh, ?Hn, ?He, ?AsyncIO_eqb_refl));
    by rewrite lookup_insert_eq.
Qed.

(** ** Disabling a timer that is not armed *)

Lemma unlink_timer_absent (r : reactor) (q : ptr) (l : list ptr) :
  forall (p : ptr) (fuel : nat),
    timer_chain (heap r) (Some p) (p :: l) ->
    q ∉ l -> (length (p :: l) <= fuel)%nat ->
    unlink_timer fuel (Some p) (Some q) r
    = (Ok false, with_checks_failed (S (checks_failed r)) r).
Proof.
  induction l as [|p1 l IH]; intros p fuel Hc Hq Hf.
  - inversion Hc as [|? t ? Hp Hrest]; subst. inversion Hrest as [Hnil|]; subst.
    destruct fuel as [|fuel]; [cbn in Hf; lia|].
    cbn [unlink_timer]. unfold bind, deref. rewrite Hp, <- Hnil. reflexivity.
  - inversion Hc as [|? t ? Hp Hrest]; subst.
    inversion Hrest as [|? t1 ? Hp1 Hrest1 Hnext]; subst.
    destruct fuel as [|fuel]; [cbn in Hf; lia|].
    cbn [unlink_timer]. unfold bind, deref. rewrite Hp, <- Hnext.
    assert (AsyncIO_eqb (Some p1) (Some q) = false) as ->.
    { apply AsyncIO_eqb_false. intros [= ->]. apply Hq. left. }
    apply IH.
    + rewrite Hnext. exact Hrest.
    + intros Hin. apply Hq. by right.
    + cbn in Hf |- *. lia.
Qed.

(** C8, as the code has it.  On the select backend, disabling a timer that
    is not in the list of enabled timers fails: the call logs a failed
    check and returns -1, and the list and every handle are as before.  On
    the kqueue backend the kernel answers [ENOENT], which the code accepts:
    the call returns 0 and changes nothing. *)
Theorem disable_absent_timer (b : backend) (r : reactor) (q : ptr) (fuel : nat) :
  match b with
  | Select =>
      forall l : list ptr,
        timer_chain (heap r) (enabled_timers r) l ->
        q ∉ l -> (length l <= fuel)%nat ->
        fst (AsyncIO_DisableTimer Select fuel (Some q) r) = Ok (-1) /\
        heap (snd (AsyncIO_DisableTimer Select fuel (Some q) r)) = heap r /\
        enabled_timers (snd (AsyncIO_DisableTimer Select fuel (Some q) r))
          = enabled_timers r /\
        checks_failed (snd (AsyncIO_DisableTimer Select fuel (Some q) r))
          = S (checks_failed r)
  | KQueue =>
      anioKQ r !! (Z.of_nat q, EVFILT_TIMER) = None ->
      AsyncIO_DisableTimer KQueue fuel (Some q) r = (Ok 0, r)
  end.
Proof.
  destruct b.
  - intros Hq. unfold AsyncIO_DisableTimer, kevent_delete, bind, gets, ret.
    cbn. rewrite Hq. reflexivity.
  - intros l Hc Hq Hf.
    unfold AsyncIO_DisableTimer, bind, gets.
    set (r1 := snd ((if AsyncIO_eqb (Some q) (aio_next_enabled_timer r)
                     then modify (with_aio_next_enabled_timer None)
                     else ret tt) r)).
    assert (Hr1 : (if AsyncIO_eqb (Some q) (aio_next_enabled_timer r)
                   then modify (with_aio_next_enabled_timer None)
                   else ret tt) r = (Ok tt, r1)).
    { subst r1. by destruct (AsyncIO_eqb _ _). }
    rewrite Hr1.
    assert (Hheap : heap r1 = heap r) by (subst r1; by destruct (AsyncIO_eqb _ _)).
    assert (Hhead : enabled_timers r1 = enabled_timers r)
      by (subst r1; by destruct (AsyncIO_eqb _ _)).
    assert (Hchk : checks_failed r1 = checks_failed r)
      by (subst r1; by destruct (AsyncIO_eqb _ _)).
    rewrite Hhead.
    inversion Hc as [Hnil|p t l' Hp Hrest Hnext]; subst.
    + cbn. rewrite Hchk. by rewrite Hheap, Hhead.
    + assert (AsyncIO_eqb (Some p) (Some q) = false) as ->.
      { apply AsyncIO_eqb_false. intros [= ->]. apply Hq. left. }
      rewrite (unlink_timer_absent r1 q l' p fuel).
      * cbn. rewrite Hchk. by rewrite Hheap, Hhead.
      * rewrite Hheap. rewrite Hnext. exact Hc.
      * intros Hin. apply Hq. by right.
      * exact Hf.
Qed.

(** C8, where the claim fails: on the kqueue backend, disabling a timer that
    was never enabled returns 0 and leaves the state as it was. *)
Lemma disable_absent_timer_kqueue_succeeds :
  anioKQ one_timer !! (1, EVFILT_TIMER) = None /\
  AsyncIO_DisableTimer KQueue 0 (Some 1%nat) one_timer = (Ok 0, one_timer).
Proof. split; reflexivity. Qed.

Lemma disable_absent_timer_witness :
  (fst (AsyncIO_DisableTimer Select 1 (Some 1%nat) one_timer) = Ok (-1) /\
   checks_failed (snd (AsyncIO_DisableTimer Select 1 (Some 1%nat) one_timer)) = 1%nat) /\
  AsyncIO_DisableTimer KQueue 1 (Some 1%nat) one_timer = (Ok 0, one_timer).
Proof.
  split.
  - destruct (disable_absent_timer Select one_timer 1%nat 1 [])
      as (H1 & _ & _ & H2).
    + constructor.
    + intros H; inversion H.
    + cbn; lia.
    + split; [exact H1 | exact H2].
  - apply (disable_absent_timer KQueue one_timer 1%nat 1). reflexivity.
Defined.


(** ** The next timer to fire *)

(** On a list that ends, the scan returns: it leaves [best] alone or moves
    it to a handle of the list with a strictly smaller fire time, and no
    handle of the list fires before the time it returns. *)
Lemma scan_timers_chain (r : reactor) (l : list ptr) :
  forall (tio best : AsyncIO) (best_time : Z) (fuel : nat),
    timer_chain (heap r) tio l -> (length l <= fuel)%nat ->
    exists best' time',
      scan_timers fuel tio best best_time r = (Ok (best', time'), r) /\
      (forall p t, p ∈ l -> heap r !! p = Some t -> time' <= next_fire_time t) /\
      ((best' = best /\ time' = best_time) \/
       (time' < best_time /\
        exists p t, best' = Some p /\ p ∈ l /\ heap r !! p = Some t /\
                    next_fire_time t = time')).
Proof.
  induction l as [|p l IH]; intros tio best best_time fuel Hc Hf.
  - inversion Hc; subst. exists best, best_time.
    split; [by destruct fuel|]. split; [|by left].
    intros p t Hin. inversion Hin.
  - inversion Hc as [|? t ? Hp Hrest]; subst.
    destruct fuel as [|fuel]; [cbn in Hf; lia|].
    cbn [scan_timers]. unfold bind, deref. rewrite Hp.
    assert (Hf' : (length l <= fuel)%nat) by (cbn in Hf; lia).
    destruct (next_fire_time t <? best_time) eqn:Hlt.
    + apply Z.ltb_lt in Hlt.
      destruct (IH (next_timer t) (Some p) (next_fire_time t) fuel Hrest Hf')
        as (best' & time' & Hscan & Hmin & Hsel).
      exists best', time'. split; [exact Hscan|].
      assert (time' <= next_fire_time t) as Hle.
      { destruct Hsel as [[_ ->]|[Hlt' _]]; lia. }
      split.
      * intros p' t' Hin Hp'. apply elem_of_cons in Hin as [->|Hin].
        -- rewrite Hp in Hp'. injection Hp' as <-. exact Hle.
        -- by apply (Hmin p').
      * right. split; [lia|].
        destruct Hsel as [[-> ->]|[_ (p' & t' & -> & Hin & Hp' & Ht')]].
        -- exists p, t. repeat split; [left|exact Hp].
        -- exists p', t'. repeat split; [by right|exact Hp'|exact Ht'].
    + apply Z.ltb_ge in Hlt.
      destruct (IH (next_timer t) best best_time fuel Hrest Hf')
        as (best' & time' & Hscan & Hmin & Hsel).
      exists best', time'. split; [exact Hscan|].
      assert (time' <= best_time) as Hle.
      { destruct Hsel as [[_ ->]|[Hlt' _]]; lia. }
      split.
      * intros p' t' Hin Hp'. apply elem_of_cons in Hin as [->|Hin].
        -- rewrite Hp in Hp'. injection Hp' as <-. lia.
        -- by apply (Hmin p').
      * destruct Hsel as [[-> ->]|[Hlt' (p' & t' & -> & Hin & Hp' & Ht')]].
        -- by left.
        -- right. split; [exact Hlt'|].
           exists p', t'. repeat split; [by right|exact Hp'|exact Ht'].
Qed.

(** Where [AsyncIO_GetNextTimerFireTime] does what is expected of it: when
    the list ends and some enabled timer fires before [0xFFFFFFFF], the
    function returns an enabled timer that no other fires before, with the
    time left until it fires, and with zero when it is due. *)
Lemma next_timer_fire_time_earliest (r : reactor) (l : list ptr) (fuel : nat)
    (now : Z) (q : ptr) (tq : OpaqueAsyncIO) :
  timer_chain (heap r) (enabled_timers r) l ->
  (length l <= fuel)%nat ->
  q ∈ l -> heap r !! q = Some tq -> next_fire_time tq < UINT32_MAX ->
  0 <= now ->
  exists p t,
    AsyncIO_GetNextTimerFireTime fuel now r
    = (Ok (Some (if next_fire_time t <=? now then mkTimeval 0 0
                 else mkTimeval ((next_fire_time t - now) / 1000)
                                (((next_fire_time t - now) mod 1000) * 1000),
                 Some p)), r) /\
    p ∈ l /\ heap r !! p = Some t /\
    forall p' t', p' ∈ l -> heap r !! p' = Some t' ->
                  next_fire_time t <= next_fire_time t'.
Proof.
  intros Hc Hf Hq Htq Hlt Hnow.
  destruct (scan_timers_chain r l (enabled_timers r) None UINT32_MAX fuel Hc Hf)
    as (best' & time' & Hscan & Hmin & Hsel).
  destruct Hsel as [[-> ->]|[Hlt' (p & t & -> & Hin & Hp & Ht)]].
  { specialize (Hmin q tq Hq Htq). lia. }
  exists p, t. split; [|split; [exact Hin|split; [exact Hp|]]].
  - unfold AsyncIO_GetNextTimerFireTime, bind, gets. rewrite Hscan. cbn [fst snd].
    rewrite Ht.
    destruct (time' <? now) eqn:Hdue.
    + apply Z.ltb_lt in Hdue.
      assert ((time' <=? now) = true) as -> by (apply Z.leb_le; lia). reflexivity.
    + apply Z.ltb_ge in Hdue. unfold ret, wrap32, UINT32_MAX in *.
      rewrite (Z.mod_small (time' - now)) by lia.
      destruct (time' <=? now) eqn:Heq; [|reflexivity].
      apply Z.leb_le in Heq. assert (time' - now = 0) as -> by lia. reflexivity.
  - intros p' t' Hin' Hp'. rewrite Ht. by apply (Hmin p').
Qed.

(** The reading of the previous lemma for a timer that is due: the time
    reported is zero. *)
Lemma next_timer_fire_time_due (r : reactor) (l : list ptr) (fuel : nat)
    (now : Z) (q : ptr) (tq : OpaqueAsyncIO) :
  timer_chain (heap r) (enabled_timers r) l ->
  (length l <= fuel)%nat ->
  q ∈ l -> heap r !! q = Some tq -> next_fire_time tq < UINT32_MAX ->
  0 <= now -> next_fire_time tq <= now ->
  exists p, AsyncIO_GetNextTimerFireTime fuel now r
            = (Ok (Some (mkTimeval 0 0, Some p)), r).
Proof.
  intros Hc Hf Hq Htq Hlt Hnow Hdue.
  destruct (next_timer_fire_time_earliest r l fuel now q tq Hc Hf Hq Htq Hlt Hnow)
    as (p & t & Hrun & _ & _ & Hmin).
  exists p. rewrite Hrun.
  assert ((next_fire_time t <=? now) = true) as ->; [|reflexivity].
  apply Z.leb_le. specialize (Hmin q tq Hq Htq). lia.
Qed.

(** What [AsyncIO_EnableTimer] does to the state on the select backend. *)
Lemma enable_timer_select (r : reactor) (h : ptr) (t : OpaqueAsyncIO)
    (now ms : Z) :
  heap r !! h = Some t ->
  AsyncIO_EnableTimer Select now (Some h) ms r
  = (Ok 0, with_enabled_timers (Some h)
             (with_heap (insert h (set_next_timer (enabled_timers r)
                (set_next_fire_time (wrap32 (now + ms)) t))) r)).
Proof.
  intros Hh.
  unfold AsyncIO_EnableTimer, assign, bind, deref, modify, gets, ret.
  cbn. rewrite Hh. cbn. rewrite lookup_insert_eq. cbn.
  unfold with_enabled_timers, with_heap. cbn. by rewrite insert_insert_eq.
Qed.

(** Three timers, the handles at addresses 1, 2 and 3, enabled at the same
    clock value for 50, 10 and 30 ms: the second one is returned, with
    10 ms to go. *)
Lemma three_timers_example (now : Z) (r0 r1 r2 r3 : reactor) :
  0 <= now -> now + 50 <= UINT32_MAX ->
  r0 = snd (AsyncIO_NewTimer no_callback 0
         (snd (AsyncIO_NewTimer no_callback 0 one_timer))) ->
  r1 = snd (AsyncIO_EnableTimer Select now (Some 1%nat) 50 r0) ->
  r2 = snd (AsyncIO_EnableTimer Select now (Some 2%nat) 10 r1) ->
  r3 = snd (AsyncIO_EnableTimer Select now (Some 3%nat) 30 r2) ->
  AsyncIO_GetNextTimerFireTime 3 now r3
  = (Ok (Some (mkTimeval 0 10000, Some 2%nat)), r3).
Proof.
  intros Hnow Hmax Hr0 Hr1 Hr2 Hr3.
  unfold UINT32_MAX in Hmax.
  pose (t0 := mkAsyncIO (-1) kAIO_TYPE_TIMER no_callback 0 false false 0 None).
  assert (H01 : heap r0 !! 1%nat = Some t0) by (subst r0; reflexivity).
  assert (H02 : heap r0 !! 2%nat = Some t0) by (subst r0; reflexivity).
  assert (H03 : heap r0 !! 3%nat = Some t0) by (subst r0; reflexivity).
  assert (H0e : enabled_timers r0 = None) by (subst r0; reflexivity).
  rewrite (enable_timer_select r0 1%nat t0 now 50 H01) in Hr1. cbn [snd] in Hr1.
  assert (H12 : heap r1 !! 2%nat = Some t0)
    by (subst r1; cbn; by rewrite lookup_insert_ne).
  rewrite (enable_timer_select r1 2%nat t0 now 10 H12) in Hr2. cbn [snd] in Hr2.
  assert (H23 : heap r2 !! 3%nat = Some t0).
  { subst r2 r1. cbn. by rewrite !lookup_insert_ne. }
  rewrite (enable_timer_select r2 3%nat t0 now 30 H23) in Hr3. cbn [snd] in Hr3.
  assert (He1 : enabled_timers r1 = Some 1%nat) by (subst r1; reflexivity).
  assert (He2 : enabled_timers r2 = Some 2%nat) by (subst r2; reflexivity).
  rewrite He2 in Hr3. rewrite He1 in Hr2. rewrite H0e in Hr1.
  unfold wrap32 in Hr1, Hr2, Hr3. rewrite Z.mod_small in Hr1, Hr2, Hr3 by lia.
  assert (H3 : heap r3 !! 3%nat
               = Some (set_next_timer (Some 2%nat) (set_next_fire_time (now + 30) t0)))
    by (subst r3; cbn; by rewrite lookup_insert_eq).
  assert (H2 : heap r3 !! 2%nat
               = Some (set_next_timer (Some 1%nat) (set_next_fire_time (now + 10) t0))).
  { subst r3 r2. cbn. rewrite lookup_insert_ne by done. by rewrite lookup_insert_eq. }
  assert (H1 : heap r3 !! 1%nat
               = Some (set_next_timer None (set_next_fire_time (now + 50) t0))).
  { subst r3 r2 r1. cbn. rewrite !lookup_insert_ne by done. by rewrite lookup_insert_eq. }
  assert (He3 : enabled_timers r3 = Some 3%nat) by (subst r3; reflexivity).
  clear Hr0 Hr1 Hr2 Hr3.
  unfold AsyncIO_GetNextTimerFireTime, bind, gets. rewrite He3.
  cbn [scan_timers]. unfold bind, deref. rewrite H3. cbn [next_fire_time next_timer set_next_timer set_next_fire_time t0].
  assert ((now + 30 <? UINT32_MAX) = true) as -> by (apply Z.ltb_lt; unfold UINT32_MAX; lia).
  rewrite H2. cbn [next_fire_time next_timer set_next_timer set_next_fire_time t0].
  assert ((now + 10 <? now + 30) = true) as -> by (apply Z.ltb_lt; lia).
  rewrite H1. cbn [next_fire_time next_timer set_next_timer set_next_fire_time t0].
  assert ((now + 50 <? now + 10) = false) as -> by (apply Z.ltb_ge; lia).
  unfold ret. cbn [fst snd].
  assert ((now + 10 <? now) = false) as -> by (apply Z.ltb_ge; lia).
  replace (now + 10 - now) with 10 by lia.
  reflexivity.
Qed.

(** A timer enabled at clock 1000 for 4294966295 ms fires at
    [0xFFFFFFFF].  With this timer alone in the list,
    [AsyncIO_GetNextTimerFireTime] reports no timer: at clock 1000, and at
    clock [0xFFFFFFFF] when the timer is due. *)
Lemma next_timer_fire_time_last_tick_example :
  (next_fire_time <$>
     heap (snd (AsyncIO_EnableTimer Select 1000 (Some 1%nat) 4294966295 one_timer))
       !! 1%nat) = Some UINT32_MAX /\
  enabled_timers (snd (AsyncIO_EnableTimer Select 1000 (Some 1%nat) 4294966295 one_timer))
    = Some 1%nat /\
  fst (AsyncIO_GetNextTimerFireTime 8 1000
         (snd (AsyncIO_EnableTimer Select 1000 (Some 1%nat) 4294966295 one_timer)))
    = Ok None /\
  fst (AsyncIO_GetNextTimerFireTime 8 UINT32_MAX
         (snd (AsyncIO_EnableTimer Select 1000 (Some 1%nat) 4294966295 one_timer)))
    = Ok None.
Proof. repeat split; reflexivity. Qed.


(** C7, where the code goes wrong.  The scan starts from [0xFFFFFFFF] and
    moves only to a strictly smaller fire time, so a timer that fires at
    [0xFFFFFFFF] is never selected.  When every enabled timer fires at that
    tick -- one timer enabled for [0xFFFFFFFF - now] ms is enough --
    [AsyncIO_GetNextTimerFireTime] reports no timer and writes no time,
    at any clock value, also when the timer is due. *)
Theorem next_timer_fire_time_skips_last_tick (r : reactor) (l : list nat)
    (fuel : nat) (now : Z) :
  timer_chain (heap r) (enabled_timers r) l ->
  (length l <= fuel)%nat ->
  (forall p t, p ∈ l -> heap r !! p = Some t -> next_fire_time t = UINT32_MAX) ->
  AsyncIO_GetNextTimerFireTime fuel now r = (Ok None, r).
Proof.
  intros Hc Hf Hall.
  destruct (scan_timers_chain r l (enabled_timers r) None UINT32_MAX fuel Hc Hf)
    as (best' & time' & Hscan & Hmin & Hsel).
  unfold AsyncIO_GetNextTimerFireTime, bind, gets. rewrite Hscan. cbn [fst snd].
  destruct Hsel as [[-> ->]|[Hlt (p & t & -> & Hin & Hp & Ht)]]; [reflexivity|].
  rewrite (Hall p t Hin Hp) in Ht. lia.
Qed.

(** One timer, enabled at clock 1000 for 4294966295 ms. *)
Lemma next_timer_fire_time_skips_last_tick_witness :
  (next_fire_time <$>
     heap (snd (AsyncIO_EnableTimer Select 1000 (Some 1%nat) 4294966295 one_timer))
       !! 1%nat) = Some UINT32_MAX /\
  AsyncIO_GetNextTimerFireTime 8 UINT32_MAX
    (snd (AsyncIO_EnableTimer Select 1000 (Some 1%nat) 4294966295 one_timer))
  = (Ok None,
     snd (AsyncIO_EnableTimer Select 1000 (Some 1%nat) 4294966295 one_timer)).
Proof.
  split; [reflexivity|].
  apply (next_timer_fire_time_skips_last_tick _ [1%nat]).
  - apply (timer_chain_cons _ 1%nat
             (mkAsyncIO (-1) kAIO_TYPE_TIMER no_callback 0 false false
                        UINT32_MAX None)); [reflexivity|constructor].
  - cbn; lia.
  - intros p t Hin Hp. apply list_elem_of_singleton in Hin as ->.
    vm_compute in Hp. by injection Hp as <-.
Defined.

(** ** The redirect pump *)

Module RedirectFacts.
Import Redirect.

(** A write that takes fewer bytes than were offered moves the rest to the
    front of the buffer and leaves [done] unset and the state at
    [REDIR_STATE_SENDING] -- and leaves [num_in_buffer] at its old value,
    so that the next turn offers as many bytes as this one did. *)
Lemma pump_step_partial_write (w : world) (k : nat) (rest : list output_item) :
  state (redir w) = REDIR_STATE_SENDING ->
  output w = OutAccept k :: rest ->
  (Z.of_nat k < num_in_buffer (redir w) <= Z.of_nat (length (buffer (redir w)))) ->
  exists w',
    pump_step w = (w', false) /\
    state (redir w') = REDIR_STATE_SENDING /\
    num_in_buffer (redir w') = num_in_buffer (redir w) /\
    buffer (redir w') = memmove (buffer (redir w)) k
                          (Z.to_nat (num_in_buffer (redir w)) - k) /\
    written w' = written w ++ firstn k (buffer (redir w)) /\
    output w' = rest.
Proof.
  intros Hs Ho Hk. unfold pump_step. rewrite Hs, Ho. unfold sys_write.
  assert (Hmin : Nat.min k (Z.to_nat (num_in_buffer (redir w))) = k) by lia.
  rewrite Hmin.
  assert (Hlen : length (firstn k (buffer (redir w))) = k).
  { rewrite length_firstn. lia. }
  rewrite Hlen. cbn -[Z.of_nat Z.to_nat memmove].
  assert ((Z.of_nat k <? 0) = false) as -> by (apply Z.ltb_ge; lia).
  assert ((Z.of_nat k <? num_in_buffer (redir w)) = true) as ->
    by (apply Z.ltb_lt; lia).
  eexists. split; [reflexivity|]. cbn -[Z.of_nat Z.to_nat memmove].
  repeat split; try reflexivity.
  f_equal; lia.
Qed.

(** A read that fails with an error other than [EWOULDBLOCK] is reported to
    the owner, but [done] stays unset and the state stays at
    [REDIR_STATE_WAITING_FOR_DATA]: the loop goes on to read again. *)
Lemma pump_step_read_error (w : world) (e : errno_t) (rest : list input_item) :
  state (redir w) = REDIR_STATE_WAITING_FOR_DATA ->
  input w = InError e :: rest -> e <> EWOULDBLOCK ->
  pump_step w
  = (mkWorld (redir w) rest (output w) (written w)
       (log w ++ [DidRead (-1)] ++ [Notified kAIO_REDIRECT_INPUT_ERROR_EVENT]),
     false).
Proof.
  intros Hs Hi He. unfold pump_step. rewrite Hs, Hi. cbn.
  rewrite bool_decide_eq_false_2 by congruence.
  unfold logged. cbn. rewrite <- app_assoc.
  destruct (redir w); cbn in Hs |- *; by subst.
Qed.

(** A write that fails with an error other than [EWOULDBLOCK] is reported
    to the owner as an output error. *)
Lemma pump_step_write_error (w : world) (e : errno_t) (rest : list output_item) :
  state (redir w) = REDIR_STATE_SENDING ->
  output w = OutError e :: rest -> e <> EWOULDBLOCK ->
  pump_step w
  = (mkWorld (redir w) (input w) rest (written w)
       (log w ++ [DidWrite (num_in_buffer (redir w)) (-1)]
              ++ [Notified kAIO_REDIRECT_OUTPUT_ERROR_EVENT]),
     false).
Proof.
  intros Hs Ho He. unfold pump_step. rewrite Hs, Ho. cbn.
  rewrite bool_decide_eq_false_2 by congruence.
  unfold logged. cbn. by rewrite <- app_assoc, app_nil_r.
Qed.

(** A read of zero bytes ends the loop, and the owner is told nothing. *)
Lemma pump_step_zero_read (w : world) (rest : list input_item) :
  state (redir w) = REDIR_STATE_WAITING_FOR_DATA ->
  input w = InEOF :: rest ->
  pump_step w
  = (mkWorld (redir w) (InEOF :: rest) (output w) (written w)
       (log w ++ [DidRead 0]), true).
Proof.
  intros Hs Hi. unfold pump_step. rewrite Hs, Hi. cbn.
  unfold logged. cbn.
  destruct (redir w); cbn in Hs |- *; by subst.
Qed.

(** The pump never closes a descriptor. *)
Lemma pump_step_closes_nothing (w : world) (for_input : bool) :
  ClosedDescriptor for_input ∉ log w ->
  ClosedDescriptor for_input ∉ log (fst (pump_step w)).
Proof.
  intros Hn. unfold pump_step.
  destruct (state (redir w)).
  - destruct (sys_read _ _ _) as [[[num_in err] buf] inp].
    repeat (case_match; cbn);
      rewrite ?not_elem_of_app, ?not_elem_of_cons; repeat split;
      try done; apply not_elem_of_nil.
  - destruct (sys_write _ _ _) as [[[num_out err] taken] out].
    repeat (case_match; cbn);
      rewrite ?not_elem_of_app, ?not_elem_of_cons; repeat split;
      try done; apply not_elem_of_nil.
Qed.

(** A read that finds data fills the start of the buffer and moves the
    pump to [REDIR_STATE_SENDING]. *)
Lemma pump_step_read_data (w : world) (data : list byte)
    (rest : list input_item) :
  state (redir w) = REDIR_STATE_WAITING_FOR_DATA ->
  input w = InData data :: rest ->
  (0 < length data <= buffer_size)%nat ->
  pump_step w
  = (mkWorld (mkRedirect REDIR_STATE_SENDING
                (data ++ skipn (length data) (buffer (redir w)))
                (Z.of_nat (length data)))
             rest (output w) (written w)
             (log w ++ [DidRead (Z.of_nat (length data))]),
     false).
Proof.
  intros Hs Hi Hlen. unfold pump_step. rewrite Hs, Hi. unfold sys_read.
  rewrite (firstn_all2 data) by lia.
  rewrite (skipn_all2 data) by lia.
  cbn -[Z.of_nat skipn].
  assert ((Z.of_nat (length data) <? 0) = false) as -> by (apply Z.ltb_ge; lia).
  assert ((Z.of_nat (length data) =? 0) = false) as -> by (apply Z.eqb_neq; lia).
  reflexivity.
Qed.

(** A write that takes all that is offered tells the owner and moves the
    pump back to [REDIR_STATE_WAITING_FOR_DATA]. *)
Lemma pump_step_full_write (w : world) (m : nat) (rest : list output_item) :
  state (redir w) = REDIR_STATE_SENDING ->
  output w = OutAccept m :: rest ->
  (0 <= num_in_buffer (redir w) <= Z.of_nat (length (buffer (redir w)))) ->
  (num_in_buffer (redir w) <= Z.of_nat m) ->
  pump_step w
  = (mkWorld (mkRedirect REDIR_STATE_WAITING_FOR_DATA (buffer (redir w))
                (num_in_buffer (redir w)))
             (input w) rest
             (written w ++ firstn (Z.to_nat (num_in_buffer (redir w)))
                                  (buffer (redir w)))
             (log w ++ [DidWrite (num_in_buffer (redir w))
                                 (num_in_buffer (redir w))]
                    ++ [Notified kAIO_REDIRECT_DATA_WRITTEN]),
     false).
Proof.
  intros Hs Ho Hn Hm. unfold pump_step. rewrite Hs, Ho. unfold sys_write.
  assert (Hmin : Nat.min m (Z.to_nat (num_in_buffer (redir w)))
                 = Z.to_nat (num_in_buffer (redir w))) by lia.
  rewrite Hmin.
  assert (Hlen : Z.of_nat (length (firstn (Z.to_nat (num_in_buffer (redir w)))
                                          (buffer (redir w))))
                 = num_in_buffer (redir w)).
  { rewrite length_firstn. lia. }
  rewrite Hlen. cbn -[Z.of_nat Z.to_nat firstn].
  assert ((num_in_buffer (redir w) <? 0) = false) as -> by (apply Z.ltb_ge; lia).
  rewrite Z.ltb_irrefl. unfold logged. cbn -[Z.of_nat Z.to_nat firstn].
  by rewrite <- app_assoc.
Qed.

(** C1, where the code goes wrong.  The pump reads [data], a write takes
    only the first [k] bytes, and the next write takes all it is offered.
    Since [num_in_buffer] is not lowered after the partial write, the
    retry offers [length data] bytes again: the unsent rest followed by
    the last [k] bytes of the buffer's old content.  The output receives
    [data] and then the last [k] bytes of [data] once more. *)
Theorem pump_partial_write_resends (w : world) (data : list byte) (k m : nat)
    (rest_in : list input_item) (rest_out : list output_item) :
  state (redir w) = REDIR_STATE_WAITING_FOR_DATA ->
  length (buffer (redir w)) = buffer_size ->
  input w = InData data :: rest_in ->
  output w = OutAccept k :: OutAccept m :: rest_out ->
  (0 < k < length data)%nat -> (length data <= buffer_size)%nat ->
  (length data <= m)%nat ->
  written (pump_turns 3 w) = written w ++ data ++ skipn (length data - k) data /\
  length (written (pump_turns 3 w)) = (length (written w) + length data + k)%nat.
Proof.
  intros Hs Hbuf Hi Ho Hk Hn Hm.
  set (N := length data) in *.
  set (tail := skipn N (buffer (redir w))).
  assert (Htail : length tail = (buffer_size - N)%nat)
    by (subst tail; rewrite length_skipn; lia).
  assert (Hw : written (pump_turns 3 w)
               = written w ++ data ++ skipn (N - k) data).
  { cbn [pump_turns].
    rewrite (pump_step_read_data w data rest_in Hs Hi) by (subst N; lia).
    fold N tail.
    match goal with |- context [pump_step ?x] => set (w1 := x) end.
    destruct (pump_step_partial_write w1 k (OutAccept m :: rest_out))
      as (w2 & -> & Hs2 & Hn2 & Hb2 & Hw2 & Ho2);
      [reflexivity | exact Ho | cbn; rewrite length_app; lia |].
    rewrite (pump_step_full_write w2 m rest_out Hs2 Ho2);
      [| rewrite Hn2, Hb2; cbn; unfold memmove;
         rewrite length_app, length_firstn, !length_skipn, length_app; lia
       | rewrite Hn2; cbn; lia ].
    cbn [written]. rewrite Hw2, Hn2, Hb2. cbn [written buffer redir num_in_buffer w1].
    rewrite Nat2Z.id, <- app_assoc. f_equal.
    unfold memmove.
    rewrite (take_app_le data tail k) by lia.
    rewrite (drop_app_le data tail k) by lia.
    rewrite (take_app_length' (drop k data) tail (N - k))
      by (rewrite length_drop; lia).
    rewrite (drop_app_le data tail (N - k)) by lia.
    rewrite (take_app_ge (drop k data)) by (rewrite length_drop; lia).
    rewrite length_drop. fold N.
    replace (N - (N - k))%nat with k by lia.
    rewrite (take_app_length' (drop (N - k) data) tail k)
      by (rewrite length_drop; lia).
    by rewrite app_assoc, take_drop. }
  split; [exact Hw|].
  rewrite Hw, !length_app, length_skipn. lia.
Qed.

(** The four bytes "ABCD", of which the output first takes two. *)
Lemma pump_partial_write_resends_witness :
  written (pump_turns 3 (new_world [InData (list_byte_of_string "ABCD")]
                                   [OutAccept 2; OutAccept 512]))
  = list_byte_of_string "ABCDCD".
Proof.
  apply (pump_partial_write_resends
           (new_world [InData (list_byte_of_string "ABCD")]
                      [OutAccept 2; OutAccept 512])
           (list_byte_of_string "ABCD") 2 512 [] []);
    try reflexivity; cbn; unfold buffer_size; lia.
Defined.

(** Every turn taken in [REDIR_STATE_WAITING_FOR_DATA] starts with a
    [read]. *)
Lemma pump_step_waiting_reads (w : world) :
  state (redir w) = REDIR_STATE_WAITING_FOR_DATA ->
  exists (result : Z) (acts : list action),
    log (fst (pump_step w)) = log w ++ DidRead result :: acts.
Proof.
  intros Hs. unfold pump_step. rewrite Hs.
  destruct (sys_read buffer_size (buffer (redir w)) (input w))
    as [[[num_in err] buf] inp].
  exists num_in. cbn.
  destruct (num_in <? 0); [destruct (bool_decide _)|destruct (num_in =? 0)];
    cbn; eexists; rewrite <- ?app_assoc; reflexivity.
Qed.

(** C2, where the code goes wrong.  When a read fails with an error other
    than [EWOULDBLOCK], the pump tells the owner, but the loop is not left:
    [done] stays unset, the state is unchanged, and the next turn calls
    [read] again. *)
Theorem pump_read_error_reads_again (w : world) (e : errno_t)
    (rest : list input_item) :
  state (redir w) = REDIR_STATE_WAITING_FOR_DATA ->
  input w = InError e :: rest -> e <> EWOULDBLOCK ->
  snd (pump_step w) = false /\
  log (fst (pump_step w))
  = log w ++ [DidRead (-1); Notified kAIO_REDIRECT_INPUT_ERROR_EVENT] /\
  exists (result : Z) (acts : list action),
    log (pump_turns 2 w)
    = log w ++ [DidRead (-1); Notified kAIO_REDIRECT_INPUT_ERROR_EVENT]
            ++ DidRead result :: acts.
Proof.
  intros Hs Hi He.
  pose proof (pump_step_read_error w e rest Hs Hi He) as Hstep.
  rewrite Hstep. cbn [fst snd log]. split; [reflexivity|]. split; [reflexivity|].
  cbn [pump_turns]. rewrite Hstep.
  match goal with |- context [pump_step ?x] => set (w1 := x) end.
  destruct (pump_step_waiting_reads w1 Hs) as (result & acts & Hlog).
  exists result, acts.
  destruct (pump_step w1) as [w2 done] eqn:Hw2. cbn [fst] in Hlog.
  destruct done; cbn [pump_turns]; rewrite Hlog; cbn [log w1];
    by rewrite <- app_assoc.
Qed.

(** Two reads that fail with [EIO]. *)
Lemma pump_read_error_reads_again_witness :
  exists (result : Z) (acts : list action),
    log (pump_turns 2 (new_world [InError EIO; InError EIO] []))
    = [] ++ [DidRead (-1); Notified kAIO_REDIRECT_INPUT_ERROR_EVENT]
         ++ DidRead result :: acts.
Proof.
  destruct (pump_read_error_reads_again
              (new_world [InError EIO; InError EIO] []) EIO [InError EIO])
    as (_ & _ & H); [reflexivity | reflexivity | discriminate |].
  exact H.
Defined.

(** A run of the loop.  The input delivers the four bytes "ABCD"; the
    output takes two bytes on the first write and whatever it is offered
    afterwards.  The pump sends "AB", moves "CD" to the front, and then
    offers four bytes again, "CDCD": six bytes reach the output for four
    that were read. *)
Lemma pump_partial_write_example :
  option_map (fun w => (written w, log w))
    (redirect_Pump 8
       (new_world [InData (list_byte_of_string "ABCD")]
                  [OutAccept 2; OutAccept 512]))
  = Some (list_byte_of_string "ABCDCD",
          [DidRead 4; DidWrite 4 2; DidWrite 4 4;
           Notified kAIO_REDIRECT_DATA_WRITTEN; DidRead (-1); ArmedRead]).
Proof. reflexivity. Qed.

(** A run of the loop.  The first two reads fail with [EIO], after which
    the input has nothing to deliver.  The pump reports the first error
    and reads again, reports the second and reads again, and stops only
    when the third read would block. *)
Lemma pump_read_error_example :
  option_map log
    (redirect_Pump 8 (new_world [InError EIO; InError EIO] []))
  = Some [DidRead (-1); Notified kAIO_REDIRECT_INPUT_ERROR_EVENT;
          DidRead (-1); Notified kAIO_REDIRECT_INPUT_ERROR_EVENT;
          DidRead (-1); ArmedRead].
Proof. reflexivity. Qed.

End RedirectFacts.


(** ** What the public functions leave alone *)

Lemma preserves_ret {A} (P : reactor -> Prop) (a : A) : preserves P (ret a).
Proof. intros r H. exact H. Qed.

Lemma preserves_raise {A} (P : reactor -> Prop) (f : fault) :
  preserves P (@raise A f).
Proof. intros r H. exact H. Qed.

Lemma preserves_gets {A} (P : reactor -> Prop) (f : reactor -> A) :
  preserves P (gets f).
Proof. intros r H. exact H. Qed.

Lemma preserves_deref (P : reactor -> Prop) (a : option nat) :
  preserves P (deref a).
Proof.
  intros r H. unfold deref. destruct a as [p|]; [|exact H].
  by destruct (heap r !! p).
Qed.

Lemma preserves_modify (P : reactor -> Prop) (g : reactor -> reactor) :
  (forall r, P r -> P (g r)) -> preserves P (modify g).
Proof. intros Hg r H. by apply Hg. Qed.

Lemma preserves_bind {A B} (P : reactor -> Prop) (m : M A) (k : A -> M B) :
  preserves P m -> (forall a, preserves P (k a)) -> preserves P (bind m k).
Proof.
  intros Hm Hk r H. unfold bind. specialize (Hm r H).
  destruct (m r) as [[a|f] r']; cbn in Hm |- *; [by apply Hk | exact Hm].
Qed.



Lemma returns_raise {A} (R : A -> Prop) (f : fault) : returns R (raise f).
Proof. intros r a r1. discriminate. Qed.




(** Close a goal [P (g r)] where [g] is one of the state changes [P] is
    stable under. *)
Ltac stable_leaf :=
  match goal with
  | HP : stable _ ?P |- ?P _ =>
      first
        [ apply (st_heap _ _ HP) | apply (st_next_alloc _ _ HP)
        | apply (st_anioInProgress _ _ HP) | apply (st_enabled_timers _ _ HP)
        | apply (st_aio_next_enabled_timer _ _ HP)
        | apply (st_socket_userdata _ _ HP) | apply (st_open_fds _ _ HP)
        | apply (st_waited _ _ HP) | apply (st_checks_failed _ _ HP)
        | apply (st_kq_delete _ _ HP)
        | apply (st_kq_insert _ _ HP); [first [assumption | discriminate]|]
        | apply (st_read_clr _ _ HP) | apply (st_write_clr _ _ HP)
        | apply (st_read_set _ _ HP); [assumption|]
        | apply (st_write_set _ _ HP); [assumption|] ];
      assumption
  end.

(** Take the computation in the goal apart along its binds and case
    distinctions. *)
Ltac preserves_step :=
  first
    [ apply preserves_ret | apply preserves_raise | apply preserves_gets
    | apply preserves_deref
    | apply preserves_bind; [ | intros ? ]
    | apply preserves_modify; intros; stable_leaf
    | match goal with
      | |- preserves _ (match ?x with _ => _ end) => destruct x
      end ].

Ltac preserves_auto := repeat preserves_step.

Section Frame.

Context {ff : kfilter} {P : reactor -> Prop} (HP : stable ff P).

Lemma preserves_assign a f : preserves P (assign a f).
Proof using HP. unfold assign. preserves_auto. Qed.

Lemma preserves_check x : preserves P (check x).
Proof using HP.
  unfold check. destruct x; [apply preserves_ret|].
  intros r H. cbn. stable_leaf.
Qed.

Lemma preserves_alloc o : preserves P (alloc o).
Proof using HP. unfold alloc. preserves_auto. Qed.

Lemma preserves_free a : preserves P (free a).
Proof using HP. unfold free. preserves_auto. Qed.

Lemma preserves_kevent_add ident f oneshot udata :
  f <> ff -> preserves P (kevent_add ident f oneshot udata).
Proof using HP. intros Hf. unfold kevent_add. preserves_auto. Qed.

Lemma preserves_kevent_delete ident f : preserves P (kevent_delete ident f).
Proof using HP. unfold kevent_delete. preserves_auto. Qed.

Lemma preserves_fcntl_GETFL fd : preserves P (fcntl_GETFL fd).
Proof using HP. unfold fcntl_GETFL. preserves_auto. Qed.

Lemma preserves_fcntl_SETFL fd flags : preserves P (fcntl_SETFL fd flags).
Proof using HP. unfold fcntl_SETFL. preserves_auto. Qed.

Lemma preserves_close fd : preserves P (close fd).
Proof using HP. unfold close. preserves_auto. Qed.

Lemma preserves_set_userdata fd a : preserves P (lwip_socket_set_userdata fd a).
Proof using HP. unfold lwip_socket_set_userdata. preserves_auto. Qed.

Lemma preserves_scan_timers fuel tio best best_time :
  preserves P (scan_timers fuel tio best best_time).
Proof using HP.
  revert tio best best_time.
  induction fuel as [|fuel IH]; intros tio best best_time;
    destruct tio; cbn [scan_timers]; preserves_auto; apply IH.
Qed.

Lemma preserves_GetNextTimerFireTime fuel now :
  preserves P (AsyncIO_GetNextTimerFireTime fuel now).
Proof using HP.
  unfold AsyncIO_GetNextTimerFireTime.
  apply preserves_bind; [apply preserves_gets|]. intros tio.
  apply preserves_bind; [apply preserves_scan_timers|]. intros found.
  preserves_auto.
Qed.

Lemma preserves_unlink_timer fuel tio timer :
  preserves P (unlink_timer fuel tio timer).
Proof using HP.
  revert tio.
  induction fuel as [|fuel IH]; intros tio; cbn [unlink_timer];
    [apply preserves_raise|].
  apply preserves_bind; [apply preserves_deref|]. intros t.
  destruct (AsyncIO_eqb (next_timer t) timer).
  - apply preserves_bind; [apply preserves_deref|]. intros tm.
    apply preserves_bind; [apply preserves_assign|]. intros _.
    apply preserves_ret.
  - destruct (next_timer t); [apply IH|].
    apply preserves_bind; [apply preserves_check|]. intros _.
    apply preserves_ret.
Qed.

Lemma preserves_DisableTimer b fuel timer :
  preserves P (AsyncIO_DisableTimer b fuel timer).
Proof using HP.
  unfold AsyncIO_DisableTimer. destruct b.
  - apply preserves_bind; [apply preserves_kevent_delete|]. intros err.
    preserves_auto; apply preserves_check.
  - apply preserves_bind; [apply preserves_gets|]. intros nxt.
    apply preserves_bind; [preserves_auto|]. intros _.
    apply preserves_bind; [apply preserves_gets|]. intros tio.
    destruct tio as [p|].
    + apply preserves_bind.
      * destruct (AsyncIO_eqb (Some p) timer);
          [preserves_auto | apply preserves_unlink_timer].
      * intros found. destruct found; [|apply preserves_ret].
        apply preserves_bind; [apply preserves_assign|]. intros _.
        apply preserves_ret.
    + apply preserves_bind; [apply preserves_check|]. intros _.
      apply preserves_ret.
Qed.

Lemma preserves_EnableTimer b now timer ms :
  ff <> EVFILT_TIMER -> preserves P (AsyncIO_EnableTimer b now timer ms).
Proof using HP.
  intros Hff. unfold AsyncIO_EnableTimer. destruct timer as [p|].
  - destruct b.
    + apply preserves_bind; [by apply preserves_kevent_add|]. intros err.
      preserves_auto.
    + repeat first [ apply preserves_assign | preserves_step ].
  - apply preserves_bind; [apply preserves_check|]. intros _.
    apply preserves_ret.
Qed.

Lemma preserves_Release b fuel anio closeDescriptor :
  preserves P (AsyncIO_Release b fuel anio closeDescriptor).
Proof using HP.
  unfold AsyncIO_Release. destruct anio as [p|].
  - repeat first
      [ apply preserves_DisableTimer | apply preserves_kevent_delete
      | apply preserves_close | apply preserves_assign | apply preserves_free
      | preserves_step ].
  - apply preserves_bind; [apply preserves_check|]. intros _.
    apply preserves_ret.
Qed.

Lemma preserves_NotifyOnReadability b anio :
  ff <> EVFILT_READ -> preserves P (AsyncIO_NotifyOnReadability b anio).
Proof using HP.
  intros Hff. unfold AsyncIO_NotifyOnReadability.
  repeat first
    [ apply preserves_kevent_add; congruence | apply preserves_set_userdata
    | apply preserves_check | apply preserves_assign | preserves_step ].
Qed.

Lemma preserves_NotifyOnWritability b anio :
  ff <> EVFILT_WRITE -> preserves P (AsyncIO_NotifyOnWritability b anio).
Proof using HP.
  intros Hff. unfold AsyncIO_NotifyOnWritability.
  repeat first
    [ apply preserves_kevent_add; congruence | apply preserves_set_userdata
    | apply preserves_check | apply preserves_assign | preserves_step ].
Qed.

Lemma preserves_NewConnectionListener b fd cb ud :
  ff <> EVFILT_READ -> preserves P (AsyncIO_NewConnectionListener b fd cb ud).
Proof using HP.
  intros Hff. unfold AsyncIO_NewConnectionListener.
  repeat first
    [ apply preserves_alloc | apply preserves_fcntl_GETFL
    | apply preserves_fcntl_SETFL | apply preserves_free
    | apply preserves_kevent_add; congruence | apply preserves_set_userdata
    | apply preserves_check | preserves_step ].
Qed.

Lemma preserves_NewConnection b fd cb ud :
  preserves P (AsyncIO_NewConnection b fd cb ud).
Proof using HP.
  unfold AsyncIO_NewConnection.
  repeat first
    [ apply preserves_alloc | apply preserves_fcntl_GETFL
    | apply preserves_fcntl_SETFL | apply preserves_free
    | apply preserves_set_userdata | apply preserves_check | preserves_step ].
Qed.

Lemma preserves_NewTimer cb ud : preserves P (AsyncIO_NewTimer cb ud).
Proof using HP. apply preserves_alloc. Qed.



Lemma preserves_exec_api b fuel now c :
  api_allowed ff c -> preserves P (exec_api b fuel now c).
Proof using HP.
  intros Hc. destruct c; cbn [exec_api api_allowed] in *.
  - apply preserves_Release.
  - by apply preserves_NotifyOnReadability.
  - by apply preserves_NotifyOnWritability.
  - by apply preserves_EnableTimer.
  - apply preserves_DisableTimer.
  - apply preserves_bind; [by apply preserves_NewConnectionListener|].
    intros a. apply preserves_ret.
  - apply preserves_bind; [apply preserves_NewConnection|].
    intros a. apply preserves_ret.
  - apply preserves_bind; [apply preserves_NewTimer|].
    intros a. apply preserves_ret.
Qed.

Lemma preserves_run_client b fuel now c :
  client_allowed ff c -> preserves P (run_client b fuel now c).
Proof using HP.
  induction 1 as [|c k Hc Hk IH]; cbn [run_client]; [apply preserves_ret|].
  apply preserves_bind; [by apply preserves_exec_api|]. exact IH.
Qed.

End Frame.


(** ** What the loops deliver *)

Lemma client_allowed_any (c : client_code) : client_allowed EVFILT_PROC c.
Proof.
  induction c as [|a k IH]; constructor; [|exact IH].
  destruct a; cbn; done.
Qed.

Lemma only_delivers_stable (Q : delivery -> Prop) (l0 : list delivery) :
  stable EVFILT_PROC (only_delivers Q l0).
Proof. constructor; intros; assumption. Qed.

Lemma only_delivers_since (Q : delivery -> Prop) (r r' : reactor) :
  only_delivers Q (delivered r) r' ->
  Forall Q (delivered_since (length (delivered r)) r').
Proof.
  intros (l & Hl & HQ). unfold delivered_since.
  rewrite Hl, drop_app_length. exact HQ.
Qed.

Section Deliveries.

Context (Q : delivery -> Prop) (l0 : list delivery).

Let P := only_delivers Q l0.
Let HP : stable EVFILT_PROC P := only_delivers_stable Q l0.

Lemma only_delivers_invoke b fuel now k anio fd_arg source :
  (forall ra wa, Q (mkDelivery k anio fd_arg ra wa source)) ->
  preserves P (invoke b fuel now k anio fd_arg source).
Proof using Type.
  intros HQ. unfold invoke.
  apply preserves_bind; [apply preserves_deref|]. intros o.
  apply preserves_bind; [apply preserves_gets|]. intros ra.
  apply preserves_bind; [apply preserves_gets|]. intros wa.
  apply preserves_bind.
  - apply preserves_modify. intros r (l & Hl & Hall).
    exists (l ++ [mkDelivery k anio fd_arg (notifyOnRead o || ra)
                             (notifyOnWrite o || wa) source]).
    split; [cbn; by rewrite Hl, app_assoc|].
    apply Forall_app. split; [exact Hall|]. constructor; [apply HQ|constructor].
  - intros _. apply (preserves_run_client HP). apply client_allowed_any.
Qed.

(** The read block of descriptor [i] delivers [kAIO_NEW_CONNECTION] or
    [kAIO_DATA_AVAILABLE], the write block [kAIO_READY_FOR_WRITE], the
    timeout branch [kAIO_TIMER_FIRED]. *)
Lemma only_delivers_dispatch_readable fuel now i :
  (forall k anio fd_arg ra wa,
     k = kAIO_NEW_CONNECTION \/ k = kAIO_DATA_AVAILABLE ->
     Q (mkDelivery k anio fd_arg ra wa i)) ->
  preserves P (dispatch_readable fuel now i).
Proof using Type.
  intros HQ. unfold dispatch_readable, lwip_socket_get_userdata.
  repeat first
    [ apply (preserves_assign HP)
    | apply only_delivers_invoke; intros; apply HQ; tauto
    | preserves_step ].
Qed.

Lemma only_delivers_dispatch_writable fuel now i :
  (forall anio fd_arg ra wa,
     Q (mkDelivery kAIO_READY_FOR_WRITE anio fd_arg ra wa i)) ->
  preserves P (dispatch_writable fuel now i).
Proof using Type.
  intros HQ. unfold dispatch_writable, lwip_socket_get_userdata.
  repeat first
    [ apply (preserves_assign HP)
    | apply only_delivers_invoke; intros; apply HQ
    | preserves_step ].
Qed.

Lemma only_delivers_dispatch_fds fuel now count_writes readfds writefds fds :
  (forall i k anio fd_arg ra wa,
     FD_ISSET i readfds = true ->
     k = kAIO_NEW_CONNECTION \/ k = kAIO_DATA_AVAILABLE ->
     Q (mkDelivery k anio fd_arg ra wa i)) ->
  (forall i anio fd_arg ra wa,
     FD_ISSET i writefds = true ->
     Q (mkDelivery kAIO_READY_FOR_WRITE anio fd_arg ra wa i)) ->
  forall num,
    preserves P (dispatch_fds fuel now count_writes readfds writefds fds num).
Proof using Type.
  intros HQr HQw.
  induction fds as [|i rest IH]; intros num; cbn [dispatch_fds];
    [apply preserves_ret|].
  destruct (num =? 0); [apply preserves_ret|].
  apply preserves_bind.
  { destruct (FD_ISSET i readfds) eqn:Hi; [|apply preserves_ret].
    apply preserves_bind; [|intros _; apply preserves_ret].
    apply only_delivers_dispatch_readable. intros. by apply HQr. }
  intros num1. apply preserves_bind.
  { destruct (FD_ISSET i writefds) eqn:Hi; [|apply preserves_ret].
    apply preserves_bind; [|intros _; apply preserves_ret].
    apply only_delivers_dispatch_writable. intros. by apply HQw. }
  intros num2. apply IH.
Qed.

Lemma only_delivers_dispatch_timeout fuel now :
  (forall anio fd_arg ra wa,
     Q (mkDelivery kAIO_TIMER_FIRED anio fd_arg ra wa (-1))) ->
  preserves P (dispatch_timeout fuel now).
Proof using Type.
  intros HQ. unfold dispatch_timeout.
  repeat first
    [ apply (preserves_DisableTimer HP)
    | apply only_delivers_invoke; intros; apply HQ
    | preserves_step ].
Qed.

Lemma only_delivers_select nfds readfds writefds to reply :
  preserves P (select nfds readfds writefds to reply).
Proof using Type. unfold select. preserves_auto. Qed.

Lemma only_delivers_WaitForEvents_select maxnfds fuel now timeout reply :
  preserves P (AsyncIO_WaitForEvents_select maxnfds fuel now timeout reply).
Proof using Type.
  unfold AsyncIO_WaitForEvents_select, read_local.
  repeat first
    [ apply (preserves_GetNextTimerFireTime HP)
    | apply (preserves_check HP)
    | apply only_delivers_select
    | preserves_step ].
Qed.

Lemma only_delivers_ProcessEvents_select fuel now ctx :
  (forall i k anio fd_arg ra wa,
     FD_ISSET i (ctx_readfds ctx) = true ->
     k = kAIO_NEW_CONNECTION \/ k = kAIO_DATA_AVAILABLE ->
     Q (mkDelivery k anio fd_arg ra wa i)) ->
  (forall i anio fd_arg ra wa,
     FD_ISSET i (ctx_writefds ctx) = true ->
     Q (mkDelivery kAIO_READY_FOR_WRITE anio fd_arg ra wa i)) ->
  (forall anio fd_arg ra wa,
     Q (mkDelivery kAIO_TIMER_FIRED anio fd_arg ra wa (-1))) ->
  preserves P (AsyncIO_ProcessEvents Select fuel now ctx).
Proof using Type.
  intros HQr HQw HQt. unfold AsyncIO_ProcessEvents.
  repeat first
    [ apply (preserves_check HP)
    | by apply only_delivers_dispatch_timeout
    | by apply only_delivers_dispatch_fds
    | preserves_step ].
Qed.



(** What the select loop can deliver. *)
Hypothesis Q_select :
  forall k anio fd_arg ra wa source,
    k <> kAIO_CONNECTION_CLOSED -> k <> kAIO_PROCESS_EXITED ->
    k <> kAIO_SIGNAL_DELIVERED ->
    Q (mkDelivery k anio fd_arg ra wa source).

Local Ltac by_Q_select := intros; apply Q_select; intuition congruence.

Lemma only_delivers_Run_select maxnfds fuel keepRunning env :
  preserves P (AsyncIO_Run_select maxnfds fuel keepRunning env).
Proof using Q_select.
  induction env as [|[now reply] env IH]; cbn [AsyncIO_Run_select];
    [apply preserves_raise|].
  repeat first
    [ apply IH
    | apply (preserves_GetNextTimerFireTime HP)
    | apply (preserves_check HP)
    | apply only_delivers_select
    | apply only_delivers_dispatch_timeout; by_Q_select
    | apply only_delivers_dispatch_fds; by_Q_select
    | preserves_step ].
Qed.

Lemma only_delivers_cycles_select maxnfds fuel turns :
  preserves P (wait_process_cycles Select maxnfds fuel turns).
Proof using Q_select.
  induction turns as [|[[now timeout] env] rest IH];
    cbn [wait_process_cycles]; [apply preserves_ret|].
  apply preserves_bind.
  { unfold AsyncIO_WaitForEvents.
    destruct (select_replies env) as [|[? reply] ?];
      [apply preserves_raise|apply only_delivers_WaitForEvents_select]. }
  intros w. apply preserves_bind; [|intros _; exact IH].
  apply only_delivers_ProcessEvents_select; by_Q_select.
Qed.

End Deliveries.

(** C9.  On the select backend no callback is ever invoked with
    [kAIO_CONNECTION_CLOSED]: not by [AsyncIO_Run], however many turns its
    loop takes and whatever [select] reports and the callbacks do; not by
    [AsyncIO_ProcessEvents], whatever context it is given; and so not by a
    caller that alternates [AsyncIO_WaitForEvents] and
    [AsyncIO_ProcessEvents]. *)
Theorem select_never_delivers_connection_closed
    (maxnfds fuel : nat) (in_debugger keepRunning : bool) (env : environment)
    (now : Z) (ctx : OpaqueAsyncIOEventContext)
    (turns : list (Z * option timeval * environment)) (r : reactor) :
  Forall (fun d => d_event d <> kAIO_CONNECTION_CLOSED)
    (delivered_since (length (delivered r))
       (snd (AsyncIO_Run Select maxnfds fuel in_debugger keepRunning env r))) /\
  Forall (fun d => d_event d <> kAIO_CONNECTION_CLOSED)
    (delivered_since (length (delivered r))
       (snd (AsyncIO_ProcessEvents Select fuel now ctx r))) /\
  Forall (fun d => d_event d <> kAIO_CONNECTION_CLOSED)
    (delivered_since (length (delivered r))
       (snd (wait_process_cycles Select maxnfds fuel turns r))).
Proof.
  set (Q := fun d => d_event d <> kAIO_CONNECTION_CLOSED).
  assert (HQ : forall k anio fd_arg ra wa source,
             k <> kAIO_CONNECTION_CLOSED -> k <> kAIO_PROCESS_EXITED ->
             k <> kAIO_SIGNAL_DELIVERED ->
             Q (mkDelivery k anio fd_arg ra wa source))
    by (intros; assumption).
  assert (H0 : only_delivers Q (delivered r) r).
  { exists []. split; [by rewrite app_nil_r|constructor]. }
  pose proof (only_delivers_stable Q (delivered r)) as HP.
  repeat split; apply only_delivers_since.
  - unfold AsyncIO_Run.
    refine (preserves_bind _ _ _ _ _ r H0); [apply preserves_gets|]. intros ip.
    apply preserves_bind; [apply (preserves_check HP)|]. intros _.
    by apply only_delivers_Run_select.
  - apply only_delivers_ProcessEvents_select; [| | |exact H0];
      intros; apply HQ; intuition congruence.
  - by apply only_delivers_cycles_select.
Qed.


(** ** Constructors and the non-blocking flag *)

(** C6.  Both constructors that take a descriptor set [O_NONBLOCK] on it,
    keeping its other flags, and return the new handle when the two
    [fcntl] calls succeed.  When reading the flags fails (the descriptor
    is not open), or setting them fails with an error other than [ENOTTY],
    they return [NULL] and leave the table of open descriptors as it was:
    the descriptor is not closed. *)
Theorem constructors_set_nonblocking (b : backend) (listener : bool)
    (fd : Z) (cb : AsyncIOEvent) (ud : Z) (r : reactor) :
  let construct :=
    if listener then AsyncIO_NewConnectionListener b fd cb ud
    else AsyncIO_NewConnection b fd cb ud in
  (forall st,
      open_fds r !! fd = Some st -> fl_setfl_errno st = None ->
      0 <= fl_flags st ->
      fst (construct r) = Ok (Some (next_alloc r)) /\
      open_fds (snd (construct r)) !! fd
      = Some (mkFdState (Z.lor (fl_flags st) O_NONBLOCK) None) /\
      Z.land (Z.lor (fl_flags st) O_NONBLOCK) O_NONBLOCK = O_NONBLOCK) /\
  ((open_fds r !! fd = None \/
    exists st e, open_fds r !! fd = Some st /\ 0 <= fl_flags st /\
                 fl_setfl_errno st = Some e /\ e <> ENOTTY) ->
   fst (construct r) = Ok None /\
   open_fds (snd (construct r)) = open_fds r).
Proof.
  cbn zeta. split.
  - intros st Hfd Hok Hflags.
    assert ((fl_flags st =? -1) = false) as Hne by (apply Z.eqb_neq; lia).
    split; [|split].
    + destruct listener, b;
        unfold AsyncIO_NewConnectionListener, AsyncIO_NewConnection, alloc,
          fcntl_GETFL, fcntl_SETFL, kevent_add, lwip_socket_set_userdata,
          bind, gets, modify, ret;
        repeat (progress (cbn; rewrite ?Hfd, ?Hne, ?Hok, ?lookup_insert_eq));
        reflexivity.
    + destruct listener, b;
        unfold AsyncIO_NewConnectionListener, AsyncIO_NewConnection, alloc,
          fcntl_GETFL, fcntl_SETFL, kevent_add, lwip_socket_set_userdata,
          bind, gets, modify, ret;
        repeat (progress (cbn; rewrite ?Hfd, ?Hne, ?Hok, ?lookup_insert_eq));
        reflexivity.
    + apply Z.bits_inj'. intros n Hn.
      rewrite Z.land_spec, Z.lor_spec. by destruct (Z.testbit O_NONBLOCK n), (Z.testbit (fl_flags st) n).
  - intros [Hclosed|(st & e & Hfd & Hflags & Herr & Hne)].
    + destruct listener, b;
        unfold AsyncIO_NewConnectionListener, AsyncIO_NewConnection, alloc,
          fcntl_GETFL, fcntl_SETFL, kevent_add, lwip_socket_set_userdata,
          check, free, bind, gets, modify, ret;
        repeat (progress (cbn; rewrite ?Hclosed)); split; reflexivity.
    + assert ((fl_flags st =? -1) = false) as Hm1 by (apply Z.eqb_neq; lia).
      destruct listener, b;
        unfold AsyncIO_NewConnectionListener, AsyncIO_NewConnection, alloc,
          fcntl_GETFL, fcntl_SETFL, kevent_add, lwip_socket_set_userdata,
          check, free, bind, gets, modify, ret;
        repeat (progress (cbn; rewrite ?Hfd, ?Hm1, ?Herr));
        destruct e; try done; split; reflexivity.
Qed.

(** What the claim leaves open: when [F_SETFL] fails with [ENOTTY],
    [AsyncIO_NewConnection] goes on and returns the handle, with the
    descriptor's flags as they were; [AsyncIO_NewConnectionListener] has no
    such exception and returns [NULL]. *)
Lemma constructors_on_ENOTTY (b : backend) (fd : Z) (cb : AsyncIOEvent)
    (ud : Z) (r : reactor) (st : fd_state) :
  open_fds r !! fd = Some st -> 0 <= fl_flags st ->
  fl_setfl_errno st = Some ENOTTY ->
  fst (AsyncIO_NewConnection b fd cb ud r) = Ok (Some (next_alloc r)) /\
  open_fds (snd (AsyncIO_NewConnection b fd cb ud r)) = open_fds r /\
  fst (AsyncIO_NewConnectionListener b fd cb ud r) = Ok None.
Proof.
  intros Hfd Hflags Herr.
  assert ((fl_flags st =? -1) = false) as Hm1 by (apply Z.eqb_neq; lia).
  destruct b;
    unfold AsyncIO_NewConnectionListener, AsyncIO_NewConnection, alloc,
      fcntl_GETFL, fcntl_SETFL, kevent_add, lwip_socket_set_userdata,
      check, free, bind, gets, modify, ret;
    repeat (progress (cbn; rewrite ?Hfd, ?Hm1, ?Herr));
    repeat split; reflexivity.
Qed.

(** A descriptor with flags [O_RDWR], open before the reactor starts. *)
Lemma constructors_set_nonblocking_witness :
  (fst (AsyncIO_NewConnection Select 3 no_callback 0
          (with_open_fds (insert 3 (mkFdState 2 None)) initial_reactor))
   = Ok (Some 1%nat) /\
   open_fds (snd (AsyncIO_NewConnection Select 3 no_callback 0
          (with_open_fds (insert 3 (mkFdState 2 None)) initial_reactor))) !! 3
   = Some (mkFdState 6 None)) /\
  fst (AsyncIO_NewConnectionListener KQueue 3 no_callback 0
         (with_open_fds (insert 3 (mkFdState 2 (Some EIO))) initial_reactor))
  = Ok None.
Proof.
  split.
  - destruct (constructors_set_nonblocking Select false 3 no_callback 0
                (with_open_fds (insert 3 (mkFdState 2 None)) initial_reactor))
      as [Hok _].
    destruct (Hok (mkFdState 2 None)) as (H1 & H2 & _);
      [reflexivity | reflexivity | cbn; lia |].
    split; [exact H1 | exact H2].
  - destruct (constructors_set_nonblocking KQueue true 3 no_callback 0
                (with_open_fds (insert 3 (mkFdState 2 (Some EIO))) initial_reactor))
      as [_ Hfail].
    apply Hfail. right. exists (mkFdState 2 (Some EIO)), EIO.
    repeat split; [cbn; lia | discriminate].
Defined.


(** ** The timeout of a wait *)

(** The comparison in [AsyncIO_WaitForEvents] picks the smaller of two
    normalised times. *)
Lemma timeval_gt_picks_min (a c : timeval) :
  0 <= tv_usec a < 1000000 -> 0 <= tv_usec c < 1000000 ->
  timeval_us (if timeval_gt a c then c else a)
  = Z.min (timeval_us a) (timeval_us c).
Proof.
  intros Ha Hc. unfold timeval_gt, timeval_us.
  destruct (tv_sec c <? tv_sec a) eqn:H1; cbn [orb].
  - apply Z.ltb_lt in H1. lia.
  - apply Z.ltb_ge in H1.
    destruct (tv_sec a =? tv_sec c) eqn:H2; cbn [andb].
    + apply Z.eqb_eq in H2.
      destruct (tv_usec c <? tv_usec a) eqn:H3;
        [apply Z.ltb_lt in H3 | apply Z.ltb_ge in H3]; lia.
    + apply Z.eqb_neq in H2. lia.
Qed.

Lemma select_logs_timeout nfds readfds writefds to reply r :
  waited (snd (select nfds readfds writefds to reply r)) = waited r ++ [to].
Proof.
  unfold select, bind, modify, ret, raise. cbn.
  destruct reply as [readable writable|]; [|reflexivity].
  destruct (_ =? 0); [|reflexivity]. by destruct to.
Qed.

Lemma kevent_collect_waited nevents conds :
  forall r, waited (snd (kevent_collect nevents conds r)) = waited r.
Proof.
  revert nevents. induction conds as [|[[ident f] eof] rest IH]; intros nevents r;
    [reflexivity|].
  cbn [kevent_collect]. destruct nevents as [|n]; [reflexivity|].
  unfold bind, gets, modify, ret. cbn.
  destruct (anioKQ r !! (ident, f)) as [reg|]; [|apply IH].
  destruct (kr_oneshot reg); cbn.
  - match goal with |- context [kevent_collect n rest ?r1] =>
      specialize (IH n r1); destruct (kevent_collect n rest r1) as [[evs|fl] r2]
    end; cbn in IH |- *; exact IH.
  - specialize (IH n r). destruct (kevent_collect n rest r) as [[evs|fl] r2];
      cbn in IH |- *; exact IH.
Qed.

(** With a timer armed, the select branch of [AsyncIO_WaitForEvents] waits
    for the timer's remaining time, or for the caller's timeout when that
    is shorter. *)
Lemma wait_for_events_select_with_timer (maxnfds fuel : nat) (now : Z)
    (timeout : option timeval) (reply : select_reply) (r : reactor)
    (aio_timeout : timeval) (t : option nat) :
  AsyncIO_GetNextTimerFireTime fuel now (with_aio_next_enabled_timer None r)
  = (Ok (Some (aio_timeout, t)), with_aio_next_enabled_timer None r) ->
  waited (snd (AsyncIO_WaitForEvents_select maxnfds fuel now timeout reply r))
  = waited r ++
    [Some match timeout with
          | Some tmo => if timeval_gt aio_timeout tmo then tmo else aio_timeout
          | None => aio_timeout
          end].
Proof.
  intros Hnext. unfold AsyncIO_WaitForEvents_select.
  unfold bind at 1. unfold gets at 1. unfold bind at 1. unfold gets at 1.
  destruct (build_fd_sets maxnfds (anioReadSet r) (anioWriteSet r))
    as [[maxFd readfds] writefds].
  unfold bind at 1. unfold modify at 1. unfold bind at 1. rewrite Hnext.
  set (r1 := with_aio_next_enabled_timer None r).
  assert (Hto : forall tv : timeval,
    waited (snd (
      (let* ok := (if 0 <=? maxFd then ret true
                   else let* p := read_local (Assigned (Some tv)) in
                        ret (bool_decide (is_Some p))) in
       if negb ok
       then check false ;; ret (-1, mkContext 0 maxFd readfds writefds [])
       else let* p := read_local (Assigned (Some tv)) in
            let* s := select (maxFd + 1) readfds writefds p reply in
            let '(num, readfds0, writefds0) := s in
            ret (0, mkContext num maxFd readfds0 writefds0 []))%M
      (with_aio_next_enabled_timer t r1)))
    = waited r ++ [Some tv]).
  { intros tv.
    assert (Hok : forall r0,
      (if 0 <=? maxFd then ret true
       else let* p := read_local (Assigned (Some tv)) in
            ret (bool_decide (is_Some p)))%M r0 = (Ok true, r0)).
    { intros r0. destruct (0 <=? maxFd); [reflexivity|].
      unfold bind, read_local, ret. by rewrite bool_decide_eq_true_2. }
    unfold bind at 1. rewrite Hok. cbn [negb].
    unfold bind at 1. unfold read_local at 1. unfold ret at 1.
    unfold bind at 1.
    pose proof (select_logs_timeout (maxFd + 1) readfds writefds (Some tv) reply
                  (with_aio_next_enabled_timer t r1)) as Hsel.
    destruct (select _ _ _ _ _ _) as [[[[num rf] wf]|fl] r2]; cbn in Hsel |- *;
      exact Hsel. }
  destruct timeout as [tmo|].
  - unfold bind at 1. unfold bind at 1. unfold modify at 1.
    destruct (timeval_gt aio_timeout tmo); unfold ret at 1; apply Hto.
  - unfold bind at 1. unfold bind at 1. unfold modify at 1.
    unfold ret at 1. apply Hto.
Qed.

(** With no timer armed, [to] is never assigned: the caller's timeout is
    not looked at, and reading [to] for the test before [select], or for
    the call itself, is undefined.  [select] is not reached with a
    timeout of the function's choosing. *)
Lemma wait_for_events_select_no_timer (maxnfds fuel : nat) (now : Z)
    (timeout : option timeval) (reply : select_reply) (r : reactor) :
  enabled_timers r = None ->
  AsyncIO_WaitForEvents_select maxnfds fuel now timeout reply r
  = (Fault Uninitialised, with_aio_next_enabled_timer None r).
Proof.
  intros Hnone. unfold AsyncIO_WaitForEvents_select.
  unfold bind at 1. unfold gets at 1. unfold bind at 1. unfold gets at 1.
  destruct (build_fd_sets maxnfds (anioReadSet r) (anioWriteSet r))
    as [[maxFd readfds] writefds].
  unfold bind at 1. unfold modify at 1. unfold bind at 1.
  assert (AsyncIO_GetNextTimerFireTime fuel now (with_aio_next_enabled_timer None r)
          = (Ok None, with_aio_next_enabled_timer None r)) as ->.
  { unfold AsyncIO_GetNextTimerFireTime, bind, gets. cbn. rewrite Hnone.
    by destruct fuel. }
  unfold bind, ret, read_local, raise.
  by destruct (0 <=? maxFd).
Qed.

(** The kqueue branch hands the caller's timeout to [kevent]. *)
Lemma wait_for_events_kqueue_timeout (timeout : option timeval)
    (reply : kevent_reply) (r : reactor) :
  waited (snd (AsyncIO_WaitForEvents_kqueue timeout reply r))
  = waited r ++ [timeout].
Proof.
  unfold AsyncIO_WaitForEvents_kqueue, kevent_wait.
  unfold bind at 1. unfold bind at 1. unfold modify at 1.
  destruct reply as [conds|e]; [|reflexivity].
  unfold bind at 1.
  pose proof (kevent_collect_waited kMaxAsyncIOEvents conds
                (with_waited (fun w => w ++ [timeout]) r)) as Hw.
  destruct (kevent_collect _ _ _) as [[evs|fl] r2]; cbn in Hw |- *;
    [|exact Hw].
  destruct evs, timeout; cbn; exact Hw.
Qed.

(** Select backend, one connection armed for reading on descriptor 3, no
    timer armed; the caller waits with a timeout of one second.  The
    caller's timeout never reaches [select].  The kqueue branch of the same
    function, in the same situation, waits with the caller's timeout. *)
Lemma wait_for_events_example :
  enabled_timers (one_connection_reading Select 3 no_callback) = None /\
  fst (AsyncIO_WaitForEvents Select 8 8 1000 (Some (mkTimeval 1 0))
         (mkEnvironment [] [(1000, SelReady 8 0)])
         (one_connection_reading Select 3 no_callback))
  = Fault Uninitialised /\
  waited (snd (AsyncIO_WaitForEvents Select 8 8 1000 (Some (mkTimeval 1 0))
         (mkEnvironment [] [(1000, SelReady 8 0)])
         (one_connection_reading Select 3 no_callback)))
  = [] /\
  waited (snd (AsyncIO_WaitForEvents KQueue 8 8 1000 (Some (mkTimeval 1 0))
         (mkEnvironment [KReady [(3, EVFILT_READ, false)]] [])
         (one_connection_reading KQueue 3 no_callback)))
  = [Some (mkTimeval 1 0)].
Proof. repeat split; reflexivity. Qed.


(** C5, where the code goes wrong.  In the select branch of
    [AsyncIO_WaitForEvents] the local [to] is assigned only when a timer
    is armed.  With none armed the caller's timeout is not looked at:
    whatever it is, the function goes on to read [to] unassigned, and
    [select] is not called with a timeout of the caller's. *)
Theorem wait_for_events_select_drops_caller_timeout (maxnfds fuel : nat)
    (now : Z) (timeout : option timeval) (reply : select_reply) (r : reactor) :
  enabled_timers r = None ->
  fst (AsyncIO_WaitForEvents_select maxnfds fuel now timeout reply r)
  = Fault Uninitialised /\
  waited (snd (AsyncIO_WaitForEvents_select maxnfds fuel now timeout reply r))
  = waited r.
Proof.
  intros Hnone.
  by rewrite (wait_for_events_select_no_timer maxnfds fuel now timeout reply r Hnone).
Qed.

Lemma wait_for_events_select_drops_caller_timeout_witness :
  fst (AsyncIO_WaitForEvents_select 8 8 1000 (Some (mkTimeval 1 0))
         (SelReady 8 0) (one_connection_reading Select 3 no_callback))
  = Fault Uninitialised /\
  waited (snd (AsyncIO_WaitForEvents_select 8 8 1000 (Some (mkTimeval 1 0))
         (SelReady 8 0) (one_connection_reading Select 3 no_callback)))
  = [].
Proof.
  apply (wait_for_events_select_drops_caller_timeout 8 8 1000
           (Some (mkTimeval 1 0)) (SelReady 8 0)
           (one_connection_reading Select 3 no_callback)).
  reflexivity.
Defined.

(** ** Releasing a handle from its own callback *)

Lemma release_connection_select (r : reactor) (h : nat) (o : OpaqueAsyncIO)
    (fuel : nat) :
  heap r !! h = Some o -> type o = kAIO_TYPE_CONNECTION ->
  anioInProgress r = Some h ->
  AsyncIO_Release Select fuel (Some h) false r
  = (Ok 0, with_heap (delete h)
             (with_anioInProgress None
                (with_anioWriteSet (FD_CLR (fd o))
                   (with_anioReadSet (FD_CLR (fd o)) r)))).
Proof.
  intros Hh Ht Hip.
  unfold AsyncIO_Release, free, bind, deref, gets, modify, ret.
  repeat (progress (cbn; rewrite ?Hh, ?Ht, ?Hip, ?AsyncIO_eqb_refl)).
  reflexivity.
Qed.

Lemma dispatch_readable_releasing (r : reactor) (i : Z) (h : nat)
    (o : OpaqueAsyncIO) (fuel : nat) (now : Z) :
  socket_userdata r !! i = Some h -> heap r !! h = Some o ->
  type o = kAIO_TYPE_CONNECTION -> releases_on_data (callback o) ->
  exists r',
    dispatch_readable fuel now i r = (Ok tt, r') /\
    heap r' = delete h (heap r) /\
    socket_userdata r' = socket_userdata r /\
    anioInProgress r' = None /\
    delivered r' = delivered r ++
      [mkDelivery kAIO_DATA_AVAILABLE (Some h) (fd o)
         (read_interest Select (fd o) (with_anioReadSet (FD_CLR i) r))
         (notifyOnWrite o || write_interest Select (fd o) r) i].
Proof.
  intros Hu Hh Ht Hcb.
  unfold dispatch_readable, lwip_socket_get_userdata, invoke, assign.
  unfold bind, deref, gets, modify, ret.
  repeat (progress (cbn; rewrite ?Hu, ?Hh, ?Ht, ?lookup_insert_eq)).
  rewrite Hcb. cbn [run_client exec_api]. unfold bind.
  erewrite release_connection_select;
    [ | cbn; apply lookup_insert_eq | exact Ht | reflexivity ].
  cbn. eexists. split; [reflexivity|]. cbn.
  rewrite delete_insert_eq. repeat split; reflexivity.
Qed.

Lemma dispatch_writable_dangling (r : reactor) (i : Z) (h : nat)
    (fuel : nat) (now : Z) :
  socket_userdata r !! i = Some h -> heap r !! h = None ->
  fst (dispatch_writable fuel now i r) = Fault (UseAfterFree h).
Proof.
  intros Hu Hh.
  unfold dispatch_writable, lwip_socket_get_userdata, assign.
  unfold bind, deref, gets, modify, ret.
  repeat (progress (cbn; rewrite ?Hu, ?Hh)). reflexivity.
Qed.

Lemma kevent_delete_if (c : bool) (ident : Z) (f : kfilter) (r : reactor) :
  exists r',
    (if c then kevent_delete ident f ;; ret tt else ret tt)%M r = (Ok tt, r') /\
    heap r' = heap r /\ anioInProgress r' = anioInProgress r /\
    delivered r' = delivered r.
Proof.
  destruct c; [|by exists r].
  unfold kevent_delete, bind, gets, modify, ret.
  destruct (anioKQ r !! (ident, f)); eexists; (split; [reflexivity|]); done.
Qed.

Lemma release_connection_kqueue (r : reactor) (h : nat) (o : OpaqueAsyncIO)
    (fuel : nat) :
  heap r !! h = Some o -> type o = kAIO_TYPE_CONNECTION ->
  anioInProgress r = Some h ->
  exists r',
    AsyncIO_Release KQueue fuel (Some h) false r = (Ok 0, r') /\
    heap r' = delete h (heap r) /\ anioInProgress r' = None /\
    delivered r' = delivered r.
Proof.
  intros Hh Ht Hip.
  unfold AsyncIO_Release.
  unfold bind at 1. unfold deref at 1. rewrite Hh.
  unfold bind at 1. rewrite Ht. unfold ret at 1.
  unfold bind at 1. unfold deref at 1. rewrite Hh.
  unfold bind at 1. unfold bind at 1.
  destruct (kevent_delete_if (notifyOnRead o) (fd o) EVFILT_READ r)
    as (r1 & -> & Hheap1 & Hip1 & Hdel1).
  destruct (kevent_delete_if (notifyOnWrite o) (fd o) EVFILT_WRITE r1)
    as (r2 & -> & Hheap2 & Hip2 & Hdel2).
  cbn [andb]. unfold bind, ret, gets, modify, free.
  rewrite Hip2, Hip1, Hip, AsyncIO_eqb_refl.
  eexists. split; [reflexivity|]. cbn.
  rewrite Hheap2, Hheap1, Hdel2, Hdel1. done.
Qed.

Lemma dispatch_kevent_read_releasing (r : reactor) (i : Z) (h : nat)
    (o : OpaqueAsyncIO) (eof : bool) (fuel : nat) (now : Z) :
  heap r !! h = Some o -> type o = kAIO_TYPE_CONNECTION ->
  releases_on_data (callback o) ->
  exists r',
    dispatch_kevent fuel now (mkKevent i EVFILT_READ eof (Some h)) r = (Ok tt, r') /\
    heap r' = delete h (heap r) /\
    anioInProgress r' = None /\
    delivered r' = delivered r ++
      [mkDelivery kAIO_DATA_AVAILABLE (Some h) i
         (read_interest KQueue (fd o) r)
         (notifyOnWrite o || write_interest KQueue (fd o) r) i].
Proof.
  intros Hh Ht Hcb.
  unfold dispatch_kevent, dispatch_kevent_filter, dispatch_kevent_eof,
    invoke, assign.
  unfold bind at 1. unfold modify at 1. cbn [kv_filter kv_udata kv_ident kv_eof].
  unfold bind at 1. unfold bind at 1. unfold deref at 1. cbn [heap with_anioInProgress].
  rewrite Hh, Ht.
  unfold bind at 1. unfold bind at 1. unfold bind at 1. unfold deref at 1.
  cbn [heap with_anioInProgress]. rewrite Hh.
  unfold modify at 1. unfold bind at 1. unfold deref at 1.
  cbn [heap with_heap with_anioInProgress]. rewrite lookup_insert_eq.
  unfold bind at 1. unfold gets at 1. unfold bind at 1. unfold gets at 1.
  unfold bind at 1. unfold modify at 1.
  cbn [callback set_notifyOnRead userdata]. rewrite Hcb.
  cbn [run_client exec_api]. unfold bind at 1.
  match goal with |- context [AsyncIO_Release KQueue fuel (Some h) false ?r1] =>
    destruct (release_connection_kqueue r1 h (set_notifyOnRead false o) fuel)
      as (r2 & Hrel & Hheap & Hip & Hdel);
      [cbn; apply lookup_insert_eq | exact Ht | reflexivity |]
  end.
  rewrite Hrel. cbn [run_client]. unfold ret at 1.
  destruct eof.
  - unfold bind, gets. rewrite Hip.
    assert (AsyncIO_eqb None (Some h) = false) as -> by (by apply AsyncIO_eqb_false).
    unfold ret. eexists. split; [reflexivity|].
    rewrite Hheap, Hip, Hdel. cbn. rewrite delete_insert_eq. repeat split; reflexivity.
  - unfold modify. eexists. split; [reflexivity|]. cbn.
    rewrite Hheap, Hdel. cbn. rewrite delete_insert_eq. repeat split; reflexivity.
Qed.

Lemma dispatch_kevent_write_dangling (r : reactor) (i : Z) (h : nat)
    (eof : bool) (fuel : nat) (now : Z) :
  heap r !! h = None ->
  fst (dispatch_kevent fuel now (mkKevent i EVFILT_WRITE eof (Some h)) r)
  = Fault (UseAfterFree h).
Proof.
  intros Hh.
  unfold dispatch_kevent, dispatch_kevent_filter, assign, bind, deref, modify.
  cbn. rewrite Hh. reflexivity.
Qed.

(** Where the guard works: on the kqueue backend, when the callback
    releases its handle on [kAIO_DATA_AVAILABLE], the marker is cleared and
    the rest of the handling of that event leaves the handle alone, also
    when the event carries [EV_EOF]: no [kAIO_CONNECTION_CLOSED] follows. *)
Lemma release_in_callback_skips_connection_closed (r : reactor) (i : Z)
    (h : nat) (o : OpaqueAsyncIO) (fuel : nat) (now : Z) :
  heap r !! h = Some o -> type o = kAIO_TYPE_CONNECTION ->
  releases_on_data (callback o) ->
  fst (dispatch_kevent fuel now (mkKevent i EVFILT_READ true (Some h)) r) = Ok tt /\
  anioInProgress
    (snd (dispatch_kevent fuel now (mkKevent i EVFILT_READ true (Some h)) r)) = None /\
  map d_event
    (delivered_since (length (delivered r))
       (snd (dispatch_kevent fuel now (mkKevent i EVFILT_READ true (Some h)) r)))
  = [kAIO_DATA_AVAILABLE].
Proof.
  intros Hh Ht Hcb.
  destruct (dispatch_kevent_read_releasing r i h o true fuel now Hh Ht Hcb)
    as (r' & -> & _ & Hip & Hdel).
  cbn [fst snd]. repeat split; [exact Hip|].
  unfold delivered_since. by rewrite Hdel, drop_app_length.
Qed.

(** C3, where the code goes wrong.  A connection handle whose callback
    releases it on [kAIO_DATA_AVAILABLE] is ready for reading and for
    writing in the same pass.  On the select backend the loop over the
    descriptors goes on from the read block to the write block of the same
    descriptor, fetches the handle again from the socket's user data and
    stores into it.  On the kqueue backend [AsyncIO_ProcessEvents] goes on
    to the next event of the batch, which carries the same handle.  Both
    use the handle after it was freed. *)
Theorem release_in_callback_then_used (r : reactor) (i : Z) (h : nat)
    (o : OpaqueAsyncIO) (fuel : nat) (now : Z) :
  heap r !! h = Some o -> type o = kAIO_TYPE_CONNECTION ->
  releases_on_data (callback o) ->
  (socket_userdata r !! i = Some h ->
   forall (count_writes : bool) (readfds writefds : fd_set) (rest : list Z)
          (num : Z),
     FD_ISSET i readfds = true -> FD_ISSET i writefds = true -> num <> 0 ->
     fst (dispatch_fds fuel now count_writes readfds writefds (i :: rest) num r)
     = Fault (UseAfterFree h)) /\
  (forall (eof eof' : bool) (rest : list kevent_t),
     fst (process_kevents fuel now
            (mkKevent i EVFILT_READ eof (Some h)
               :: mkKevent i EVFILT_WRITE eof' (Some h) :: rest) r)
     = Fault (UseAfterFree h)).
Proof.
  intros Hh Ht Hcb. split.
  - intros Hu count_writes readfds writefds rest num Hr Hw Hnum.
    cbn [dispatch_fds].
    assert ((num =? 0) = false) as -> by (by apply Z.eqb_neq).
    rewrite Hr, Hw.
    destruct (dispatch_readable_releasing r i h o fuel now Hu Hh Ht Hcb)
      as (r' & Hrun & Hheap & Hu' & _).
    unfold bind at 1. unfold bind at 1. rewrite Hrun. unfold ret at 1.
    unfold bind at 1. unfold bind at 1.
    pose proof (dispatch_writable_dangling r' i h fuel now) as Hbad.
    rewrite Hu', Hheap, lookup_delete_eq in Hbad. specialize (Hbad Hu eq_refl).
    destruct (dispatch_writable fuel now i r') as [[[]|f] r'']; cbn in Hbad;
      [discriminate|]. cbn. by injection Hbad as ->.
  - intros eof eof' rest. cbn [process_kevents].
    destruct (dispatch_kevent_read_releasing r i h o eof fuel now Hh Ht Hcb)
      as (r' & Hrun & Hheap & _).
    unfold bind at 1. rewrite Hrun. unfold bind at 1.
    pose proof (dispatch_kevent_write_dangling r' i h eof' fuel now) as Hbad.
    rewrite Hheap, lookup_delete_eq in Hbad. specialize (Hbad eq_refl).
    destruct (dispatch_kevent fuel now _ r') as [[[]|f] r'']; cbn in Hbad;
      [discriminate|]. cbn. by injection Hbad as ->.
Qed.

Lemma release_in_callback_then_used_witness :
  fst (dispatch_fds 8 1000 true 8 8 [3] 2
         (one_connection_armed Select 3 self_releasing))
  = Fault (UseAfterFree 1%nat) /\
  fst (process_kevents 8 0
         [mkKevent 3 EVFILT_READ true (Some 1%nat);
          mkKevent 3 EVFILT_WRITE false (Some 1%nat)]
         (one_connection_armed KQueue 3 self_releasing))
  = Fault (UseAfterFree 1%nat).
Proof.
  split.
  - destruct (release_in_callback_then_used
                (one_connection_armed Select 3 self_releasing) 3 1%nat
                (mkAsyncIO 3 kAIO_TYPE_CONNECTION self_releasing 0 true true 0 None)
                8 1000) as [Hsel _];
      [reflexivity | reflexivity | intros ? ? ?; reflexivity |].
    apply Hsel; [reflexivity | reflexivity | reflexivity | lia].
  - destruct (release_in_callback_then_used
                (one_connection_armed KQueue 3 self_releasing) 3 1%nat
                (mkAsyncIO 3 kAIO_TYPE_CONNECTION self_releasing 0 true true 0 None)
                8 0) as [_ Hkq];
      [reflexivity | reflexivity | intros ? ? ?; reflexivity |].
    apply Hkq.
Defined.

(** The same through the loops.  Select backend: [AsyncIO_Run], one turn in
    which [select] reports descriptor 3 readable and writable.  Kqueue
    backend: [AsyncIO_WaitForEvents] returns both events in one batch and
    [AsyncIO_ProcessEvents] works through it.  In [AsyncIO_Run] on the
    kqueue backend, which fetches one event at a time, end of input is
    reported with the read event, and the released handle is left alone. *)
Lemma release_in_callback_examples :
  (let run := AsyncIO_Run Select 8 8 false false
                (mkEnvironment [] [(1000, SelReady 8 8)])
                (one_connection_armed Select 3 self_releasing) in
   fst run = Fault (UseAfterFree 1%nat) /\
   map d_event (delivered (snd run)) = [kAIO_DATA_AVAILABLE]) /\
  (let run := wait_process_cycles KQueue 8 8
                [(1000, None,
                  mkEnvironment [KReady [(3, EVFILT_READ, true);
                                         (3, EVFILT_WRITE, false)]] [])]
                (one_connection_armed KQueue 3 self_releasing) in
   fst run = Fault (UseAfterFree 1%nat) /\
   map d_event (delivered (snd run)) = [kAIO_DATA_AVAILABLE]) /\
  (let run := AsyncIO_Run KQueue 8 8 false false
                (mkEnvironment [KReady [(3, EVFILT_READ, true)]; KReady []] [])
                (one_connection_reading KQueue 3 self_releasing) in
   fst run = Ok 0 /\
   map d_event (delivered (snd run)) = [kAIO_DATA_AVAILABLE] /\
   heap (snd run) !! 1%nat = None).
Proof. repeat split; reflexivity. Qed.


(** ** One-shot arming *)

Lemma FD_ISSET_CLR_same (i : Z) (s : fd_set) : FD_ISSET i (FD_CLR i s) = false.
Proof.
  unfold FD_ISSET, FD_CLR. destruct (Z.lt_ge_cases i 0) as [Hneg|Hpos].
  - by apply Z.testbit_neg_r.
  - by apply Z.clearbit_eq.
Qed.

Lemma FD_ISSET_CLR_off (i j : Z) (s : fd_set) :
  FD_ISSET i s = false -> FD_ISSET i (FD_CLR j s) = false.
Proof.
  unfold FD_ISSET, FD_CLR, Z.clearbit. intros H.
  by rewrite Z.ldiff_spec, H.
Qed.






Lemma run_bind {A B} (m : M A) (k : A -> M B) (r r' : reactor) (a : A) :
  m r = (Ok a, r') -> bind m k r = k a r'.
Proof. intros H. unfold bind. by rewrite H. Qed.











(** ** One wait, one dispatch *)






Section OnePass.

Context (ff : kfilter) (i : Z) (l0 : list delivery).
Hypothesis Hff : ff = EVFILT_READ \/ ff = EVFILT_WRITE.

Let P := only_delivers (not_ready_at ff i) l0.
Let HP : stable EVFILT_PROC P := only_delivers_stable (not_ready_at ff i) l0.










End OnePass.


(** ** Quiet callbacks *)





Section QuietHeap.

Context (ff : kfilter).



























End QuietHeap.

(** ** The loops under quiet callbacks *)



Section QuietLoop.

Context {ff : kfilter} {P : reactor -> Prop} (HP : stable ff P).

(** The deliveries that [P] lets through. *)
Context (D : delivery -> Prop).
Hypothesis HD :
  forall d r, D d -> P r -> P (with_delivered (fun t => t ++ [d]) r).

















End QuietLoop.





(** ** One event for one arming *)

Section OneShotOff.

Context (b : backend) (ff : kfilter) (i : Z).
Hypothesis Hff : ff = EVFILT_READ \/ ff = EVFILT_WRITE.







End OneShotOff.

Section OneShot.

Context (b : backend) (ff : kfilter) (i : Z) (l0 : list delivery).
Hypothesis Hff : ff = EVFILT_READ \/ ff = EVFILT_WRITE.











End OneShot.










(** The same through [AsyncIO_Run], with the loop kept running and the
    environment offering descriptor 3 as readable at every wait.  A
    callback that does not ask again is called once; one that calls
    [AsyncIO_NotifyOnReadability] again is called at every turn. *)
Lemma one_shot_examples :
  map d_event (delivered (snd (AsyncIO_Run Select 8 8 false true
    (mkEnvironment [] [(1000, SelReady 8 0); (1001, SelReady 8 0); (1002, SelReady 8 0)])
    (one_connection_reading Select 3 no_callback))))
  = [kAIO_DATA_AVAILABLE] /\
  map d_event (delivered (snd (AsyncIO_Run KQueue 8 8 false true
    (mkEnvironment [KReady [(3, EVFILT_READ, false)]; KReady [(3, EVFILT_READ, false)];
                    KReady [(3, EVFILT_READ, false)]] [])
    (one_connection_reading KQueue 3 no_callback))))
  = [kAIO_DATA_AVAILABLE] /\
  map d_event (delivered (snd (AsyncIO_Run Select 8 8 false true
    (mkEnvironment [] [(1000, SelReady 8 0); (1001, SelReady 8 0); (1002, SelReady 8 0)])
    (one_connection_reading Select 3 rearming))))
  = [kAIO_DATA_AVAILABLE; kAIO_DATA_AVAILABLE; kAIO_DATA_AVAILABLE] /\
  map d_event (delivered (snd (AsyncIO_Run KQueue 8 8 false true
    (mkEnvironment [KReady [(3, EVFILT_READ, false)]; KReady [(3, EVFILT_READ, false)];
                    KReady [(3, EVFILT_READ, false)]] [])
    (one_connection_reading KQueue 3 rearming))))
  = [kAIO_DATA_AVAILABLE; kAIO_DATA_AVAILABLE; kAIO_DATA_AVAILABLE].
Proof. repeat split; reflexivity. Qed.

(** * Further properties of the code *)

(** ** The list of enabled timers *)

Lemma timer_chain_functional (hp : gmap nat OpaqueAsyncIO) (a : option nat)
    (l1 : list nat) :
  timer_chain hp a l1 -> forall l2, timer_chain hp a l2 -> l1 = l2.
Proof.
  induction 1 as [|p t l Hp Hc IH]; intros l2 H2; inversion H2 as [|? t' l' Hp' Hc']; subst.
  - reflexivity.
  - rewrite Hp in Hp'. injection Hp' as <-. f_equal. by apply IH.
Qed.

Lemma timer_chain_suffix (hp : gmap nat OpaqueAsyncIO) (a : option nat)
    (l : list nat) (q : nat) :
  timer_chain hp a l -> q ∈ l ->
  exists l1 l2, l = l1 ++ q :: l2 /\ timer_chain hp (Some q) (q :: l2).
Proof.
  induction 1 as [|p t l Hp Hc IH]; intros Hin; [inversion Hin|].
  apply elem_of_cons in Hin as [->|Hin].
  - exists [], l. split; [reflexivity|]. by econstructor.
  - destruct (IH Hin) as (l1 & l2 & -> & Hq).
    exists (p :: l1), l2. by split.
Qed.

(** A list that ends holds no handle twice. *)
Lemma timer_chain_NoDup (hp : gmap nat OpaqueAsyncIO) (a : option nat)
    (l : list nat) :
  timer_chain hp a l -> NoDup l.
Proof.
  induction 1 as [|p t l Hp Hc IH]; constructor; [|exact IH].
  intros Hin.
  destruct (timer_chain_suffix hp _ l p Hc Hin) as (l1 & l2 & Hl & Hq).
  assert (Hfull : timer_chain hp (Some p) (p :: l)) by by econstructor.
  pose proof (timer_chain_functional _ _ _ Hq _ Hfull) as Heq.
  injection Heq as Heq. subst l2.
  apply (f_equal length) in Hl. rewrite length_app in Hl. cbn in Hl. lia.
Qed.

(** The list is read off the [next_timer] fields of its members alone. *)
Lemma timer_chain_ext (hp hp' : gmap nat OpaqueAsyncIO) (a : option nat)
    (l : list nat) :
  timer_chain hp a l ->
  (forall p, p ∈ l -> exists t t', hp !! p = Some t /\ hp' !! p = Some t' /\
                                   next_timer t' = next_timer t) ->
  timer_chain hp' a l.
Proof.
  induction 1 as [|p t l Hp Hc IH]; intros Hsame; [constructor|].
  destruct (Hsame p) as (t0 & t' & Hp0 & Hp' & Hn); [by left|].
  rewrite Hp in Hp0. injection Hp0 as <-.
  apply (timer_chain_cons hp' p t'); [exact Hp'|].
  rewrite Hn. apply IH. intros p' Hin. apply Hsame. by right.
Qed.

Lemma timer_chain_lookup (hp : gmap nat OpaqueAsyncIO) (a : option nat)
    (l : list nat) (p : nat) :
  timer_chain hp a l -> p ∈ l -> is_Some (hp !! p).
Proof.
  induction 1 as [|p0 t l Hp Hc IH]; intros Hin; [inversion Hin|].
  apply elem_of_cons in Hin as [->|Hin]; [by eexists|by apply IH].
Qed.

Lemma timer_chain_insert_other (hp : gmap nat OpaqueAsyncIO) (a : option nat)
    (l : list nat) (q : nat) (t : OpaqueAsyncIO) :
  timer_chain hp a l -> q ∉ l -> timer_chain (<[q:=t]> hp) a l.
Proof.
  intros Hc Hq. apply (timer_chain_ext hp); [exact Hc|].
  intros p Hin. destruct (timer_chain_lookup _ _ _ p Hc Hin) as [tp Hp].
  exists tp, tp. split; [exact Hp|]. split; [|reflexivity].
  rewrite lookup_insert_ne; [exact Hp|]. by intros ->.
Qed.

(** Splitting a list at one of its members. *)
Lemma timer_chain_app (hp : gmap nat OpaqueAsyncIO) (l1 : list nat) :
  forall (a : option nat) (q : nat) (l2 : list nat),
    timer_chain hp a (l1 ++ q :: l2) ->
    exists tq, hp !! q = Some tq /\ timer_chain hp (next_timer tq) l2.
Proof.
  induction l1 as [|p l1 IH]; intros a q l2 Hc; cbn in Hc;
    inversion Hc as [|? t ? Hp Hrest]; subst.
  - by exists t.
  - by apply (IH (next_timer t)).
Qed.

Lemma set_next_timer_same (t : OpaqueAsyncIO) : set_next_timer (next_timer t) t = t.
Proof. by destruct t. Qed.

Lemma same_handles_refl (hp : gmap nat OpaqueAsyncIO) : same_handles hp hp.
Proof.
  intros p. destruct (hp !! p) as [t|] eqn:E; [|reflexivity].
  exists (next_timer t). by rewrite set_next_timer_same.
Qed.

Lemma same_handles_insert (hp hp' : gmap nat OpaqueAsyncIO) (q : nat)
    (t : OpaqueAsyncIO) (nt : option nat) :
  same_handles hp hp' -> hp' !! q = Some t ->
  same_handles hp (<[q:=set_next_timer nt t]> hp').
Proof.
  intros Hs Hq p. specialize (Hs p). destruct (decide (p = q)) as [->|Hne].
  - rewrite lookup_insert_eq. destruct (hp !! q) as [t0|]; [|congruence].
    destruct Hs as [nt0 Hs]. rewrite Hq in Hs. injection Hs as ->.
    exists nt. by destruct t0.
  - rewrite lookup_insert_ne by done. exact Hs.
Qed.

(** Unlinking a member that is not the head: its predecessor takes over
    its link. *)
Lemma timer_chain_unlink (hp : gmap nat OpaqueAsyncIO) (q : nat) (l2 : list nat) :
  forall (l1 : list nat) (p : nat) (tq : OpaqueAsyncIO),
    timer_chain hp (Some p) (p :: l1 ++ q :: l2) ->
    hp !! q = Some tq ->
    exists pred tpred,
      last (p :: l1) = Some pred /\ hp !! pred = Some tpred /\
      next_timer tpred = Some q /\ pred <> q /\
      timer_chain (<[pred:=set_next_timer (next_timer tq) tpred]> hp)
        (Some p) (p :: l1 ++ l2).
Proof.
  induction l1 as [|p1 l1 IH]; intros p tq Hc Hq.
  - pose proof (timer_chain_NoDup _ _ _ Hc) as Hnd.
    inversion Hc as [|? tp ? Hp Hrest Heq]; subst. cbn in Hrest.
    inversion Hrest as [|? tq' ? Hq' Hrest2 Hnext]; subst.
    rewrite Hq in Hq'. injection Hq' as <-.
    apply NoDup_cons in Hnd as [Hp1 Hnd].
    exists p, tp. repeat split; [exact Hp|by symmetry| |].
    + intros ->. apply Hp1. by left.
    + cbn. apply (timer_chain_cons _ p (set_next_timer (next_timer tq) tp));
        [apply lookup_insert_eq|].
      cbn. apply timer_chain_insert_other; [exact Hrest2|].
      intros Hin. apply Hp1. by right.
  - pose proof (timer_chain_NoDup _ _ _ Hc) as Hnd.
    inversion Hc as [|? tp ? Hp Hrest]; subst. cbn in Hrest.
    assert (Hnext : next_timer tp = Some p1) by (by inversion Hrest).
    rewrite Hnext in Hrest.
    destruct (IH p1 tq Hrest Hq) as (pred & tpred & Hlast & Hpred & Hpn & Hne & Hc').
    exists pred, tpred. repeat split; try assumption.
    apply NoDup_cons in Hnd as [Hp1 Hnd].
    assert (Hpp : pred <> p).
    { intros ->. apply Hp1. change (p1 :: l1 ++ q :: l2) with ((p1 :: l1) ++ q :: l2).
      apply elem_of_app. left. by apply last_Some_elem_of. }
    cbn. apply (timer_chain_cons _ p tp);
      [by rewrite lookup_insert_ne|].
    rewrite Hnext. exact Hc'.
Qed.

Lemma unlink_timer_present (q : nat) (l2 : list nat) :
  forall (l1 : list nat) (p : nat) (fuel : nat) (r : reactor) (tq : OpaqueAsyncIO),
    timer_chain (heap r) (Some p) (p :: l1 ++ q :: l2) ->
    heap r !! q = Some tq ->
    (length (p :: l1) <= fuel)%nat ->
    exists pred tpred,
      last (p :: l1) = Some pred /\ heap r !! pred = Some tpred /\
      unlink_timer fuel (Some p) (Some q) r
      = (Ok true,
         with_heap (insert pred (set_next_timer (next_timer tq) tpred)) r).
Proof.
  induction l1 as [|p1 l1 IH]; intros p fuel r tq Hc Hq Hf.
  - inversion Hc as [|? tp ? Hp Hrest]; subst. cbn in Hrest.
    assert (Hnext : next_timer tp = Some q) by (by inversion Hrest).
    destruct fuel as [|fuel]; [cbn in Hf; lia|].
    exists p, tp. repeat split; [exact Hp|].
    cbn [unlink_timer]. unfold bind at 1. unfold deref at 1. rewrite Hp, Hnext.
    rewrite AsyncIO_eqb_refl.
    unfold assign, bind, deref, modify, ret. by rewrite Hq, Hp.
  - pose proof (timer_chain_NoDup _ _ _ Hc) as Hnd.
    inversion Hc as [|? tp ? Hp Hrest]; subst. cbn in Hrest.
    assert (Hnext : next_timer tp = Some p1) by (by inversion Hrest).
    rewrite Hnext in Hrest.
    destruct fuel as [|fuel]; [cbn in Hf; lia|].
    destruct (IH p1 fuel r tq Hrest Hq) as (pred & tpred & Hlast & Hpred & Hrun);
      [cbn in Hf |- *; lia|].
    exists pred, tpred. repeat split; [exact Hlast|exact Hpred|].
    cbn [unlink_timer]. unfold bind at 1. unfold deref at 1. rewrite Hp, Hnext.
    assert (AsyncIO_eqb (Some p1) (Some q) = false) as ->.
    { apply AsyncIO_eqb_false. intros [= ->].
      apply NoDup_cons in Hnd as [_ Hnd]. apply NoDup_cons in Hnd as [Hq1 _].
      apply Hq1. apply elem_of_app. right. by left. }
    exact Hrun.
Qed.

(** [AsyncIO_DisableTimer] on a member of the list, select backend. *)
Lemma disable_timer_select_member (r : reactor) (l1 l2 : list nat) (q : nat)
    (fuel : nat) :
  timer_chain (heap r) (enabled_timers r) (l1 ++ q :: l2) ->
  (length l1 <= fuel)%nat ->
  exists tq r',
    heap r !! q = Some tq /\
    AsyncIO_DisableTimer Select fuel (Some q) r = (Ok 0, r') /\
    timer_chain (heap r') (enabled_timers r') (l1 ++ l2) /\
    heap r' !! q = Some (set_next_timer None tq) /\
    same_handles (heap r) (heap r') /\
    aio_next_enabled_timer r'
    = (if AsyncIO_eqb (Some q) (aio_next_enabled_timer r) then None
       else aio_next_enabled_timer r) /\
    timers_only r r'.
Proof.
  intros Hc Hf.
  destruct (timer_chain_app _ _ _ _ _ Hc) as (tq & Hq & Hc2).
  pose proof (timer_chain_NoDup _ _ _ Hc) as Hnd.
  assert (Hq2 : q ∉ l2).
  { apply NoDup_app in Hnd as (_ & _ & Hnd). by apply NoDup_cons in Hnd as [? _]. }
  assert (Hq1 : q ∉ l1).
  { apply NoDup_app in Hnd as (_ & Hnd & _). intros Hin. apply (Hnd q Hin). by left. }
  exists tq.
  unfold AsyncIO_DisableTimer.
  unfold bind at 1. unfold gets at 1. unfold bind at 1.
  set (r0 := snd ((if AsyncIO_eqb (Some q) (aio_next_enabled_timer r)
                   then modify (with_aio_next_enabled_timer None)
                   else ret tt) r)).
  assert (Hr0 : (if AsyncIO_eqb (Some q) (aio_next_enabled_timer r)
                 then modify (with_aio_next_enabled_timer None)
                 else ret tt) r = (Ok tt, r0))
    by (subst r0; by destruct (AsyncIO_eqb _ _)).
  rewrite Hr0.
  assert (Hh0 : heap r0 = heap r) by (subst r0; by destruct (AsyncIO_eqb _ _)).
  assert (He0 : enabled_timers r0 = enabled_timers r)
    by (subst r0; by destruct (AsyncIO_eqb _ _)).
  assert (Hn0 : aio_next_enabled_timer r0
                = (if AsyncIO_eqb (Some q) (aio_next_enabled_timer r) then None
                   else aio_next_enabled_timer r))
    by (subst r0; by destruct (AsyncIO_eqb _ _)).
  assert (Hfr0 : timers_only r r0)
    by (subst r0; by destruct (AsyncIO_eqb _ _)).
  clearbody r0. clear Hr0.
  unfold bind at 1. unfold gets at 1. rewrite He0.
  destruct l1 as [|p l1].
  - (* the timer is the head *)
    cbn in Hc. inversion Hc as [|? tq' ? Hq' Hrest Hhead]; subst.
    rewrite Hq in Hq'. injection Hq' as <-.
    rewrite AsyncIO_eqb_refl.
    unfold assign. unfold bind, deref, modify, ret.
    rewrite Hh0, Hq. cbn. rewrite Hh0, Hq.
    eexists. split; [reflexivity|]. split; [reflexivity|]. cbn.
    rewrite Hh0, lookup_insert_eq.
    split; [by apply timer_chain_insert_other|].
    split; [reflexivity|].
    split; [apply same_handles_insert; [apply same_handles_refl|exact Hq]|].
    split; [exact Hn0|].
    destruct Hfr0 as (? & ? & ? & ? & ? & ? & ? & ? & ? & ?). by repeat split.
  - (* the timer is further down *)
    cbn in Hc. assert (Hhead : enabled_timers r = Some p) by (by inversion Hc).
    rewrite Hhead in Hc |- *.
    assert (Hpq : p <> q) by (intros ->; apply Hq1; by left).
    assert (AsyncIO_eqb (Some p) (Some q) = false) as ->
      by (apply AsyncIO_eqb_false; by intros [= ->]).
    rewrite <- Hh0 in Hc, Hq.
    destruct (unlink_timer_present q l2 l1 p fuel r0 tq Hc Hq Hf)
      as (pred & tpred & Hlast & Hpred & Hrun).
    destruct (timer_chain_unlink _ q l2 l1 p tq Hc Hq)
      as (pred' & tpred' & Hlast' & Hpred' & _ & Hne & Hc').
    rewrite Hlast in Hlast'. injection Hlast' as <-.
    rewrite Hpred in Hpred'. injection Hpred' as <-.
    unfold bind at 1. rewrite Hrun.
    unfold assign. unfold bind, deref, modify, ret. cbn.
    rewrite lookup_insert_ne by done. rewrite Hq.
    eexists. split; [by rewrite <- Hh0|]. split; [reflexivity|]. cbn.
    rewrite lookup_insert_eq, He0, Hhead.
    split.
    { apply timer_chain_insert_other; [exact Hc'|].
      intros Hin. apply elem_of_cons in Hin as [->|Hin]; [done|].
      apply elem_of_app in Hin as [Hin|Hin]; [apply Hq1; by right|done]. }
    split; [reflexivity|].
    split.
    { rewrite <- Hh0. apply same_handles_insert.
      - apply same_handles_insert; [apply same_handles_refl|exact Hpred].
      - by rewrite lookup_insert_ne. }
    split; [exact Hn0|].
    destruct Hfr0 as (? & ? & ? & ? & ? & ? & ? & ? & ? & ?). by repeat split.
Qed.

Lemma three_timers_chain :
  timer_chain (heap three_timers) (enabled_timers three_timers)
    [3%nat; 2%nat; 1%nat].
Proof.
  apply (timer_chain_cons _ 3%nat
           (mkAsyncIO (-1) kAIO_TYPE_TIMER no_callback 0 false false 1030
                      (Some 2%nat))); [vm_compute; reflexivity|].
  apply (timer_chain_cons _ 2%nat
           (mkAsyncIO (-1) kAIO_TYPE_TIMER no_callback 0 false false 1010
                      (Some 1%nat))); [vm_compute; reflexivity|].
  apply (timer_chain_cons _ 1%nat
           (mkAsyncIO (-1) kAIO_TYPE_TIMER no_callback 0 false false 1050
                      None)); [vm_compute; reflexivity|].
  constructor.
Qed.

(** X1.  Disabling an enabled timer on the select backend takes it out of
    the list and leaves the list in order: the call returns 0, the list of
    enabled timers is the old one without the timer, the timer's own link
    is reset, every handle is still allocated with its other fields as
    they were, and nothing but the handles and the two timer variables
    changes. *)
Theorem disable_timer_unlinks (r : reactor) (l1 l2 : list nat) (q : nat)
    (fuel : nat) :
  timer_chain (heap r) (enabled_timers r) (l1 ++ q :: l2) ->
  (length l1 <= fuel)%nat ->
  exists r',
    AsyncIO_DisableTimer Select fuel (Some q) r = (Ok 0, r') /\
    timer_chain (heap r') (enabled_timers r') (l1 ++ l2) /\
    (next_timer <$> heap r' !! q) = Some None /\
    same_handles (heap r) (heap r') /\
    timers_only r r'.
Proof.
  intros Hc Hf.
  destruct (disable_timer_select_member r l1 l2 q fuel Hc Hf)
    as (tq & r' & Hq & Hrun & Hc' & Hq' & Hsame & _ & Hfr).
  exists r'. split; [exact Hrun|]. split; [exact Hc'|].
  split; [by rewrite Hq'|]. split; [exact Hsame|exact Hfr].
Qed.

Lemma disable_timer_unlinks_witness :
  exists r',
    AsyncIO_DisableTimer Select 1 (Some 2%nat) three_timers = (Ok 0, r') /\
    timer_chain (heap r') (enabled_timers r') [3%nat; 1%nat].
Proof.
  destruct (disable_timer_unlinks three_timers [3%nat] [1%nat] 2%nat 1%nat)
    as (r' & Hrun & Hc & _); [exact three_timers_chain|cbn; lia|].
  exists r'. split; [exact Hrun|exact Hc].
Defined.

(** X2.  Enabling a timer that is not in the list and disabling it again
    gives the list back: both calls return 0, the head and the members of
    the list are as before the two calls, and no other handle has
    changed; the timer keeps the fire time it was given, with its link
    reset. *)
Theorem enable_then_disable_timer (r : reactor) (l : list nat) (q : nat)
    (t : OpaqueAsyncIO) (now ms : Z) (fuel : nat) :
  timer_chain (heap r) (enabled_timers r) l -> q ∉ l ->
  heap r !! q = Some t ->
  exists r1 r2,
    AsyncIO_EnableTimer Select now (Some q) ms r = (Ok 0, r1) /\
    timer_chain (heap r1) (enabled_timers r1) (q :: l) /\
    AsyncIO_DisableTimer Select fuel (Some q) r1 = (Ok 0, r2) /\
    enabled_timers r2 = enabled_timers r /\
    timer_chain (heap r2) (enabled_timers r2) l /\
    heap r2 !! q
    = Some (set_next_timer None (set_next_fire_time (wrap32 (now + ms)) t)) /\
    (forall p, p <> q -> heap r2 !! p = heap r !! p).
Proof.
  intros Hc Hq Ht.
  rewrite (enable_timer_select r q t now ms Ht).
  set (r1 := with_enabled_timers (Some q) _).
  assert (Hc1 : timer_chain (heap r1) (enabled_timers r1) (q :: l)).
  { subst r1. cbn.
    eapply timer_chain_cons; [apply lookup_insert_eq|].
    cbn. by apply timer_chain_insert_other. }
  exists r1. 
  unfold AsyncIO_DisableTimer.
  unfold bind at 1. unfold gets at 1. unfold bind at 1.
  set (r0 := snd ((if AsyncIO_eqb (Some q) (aio_next_enabled_timer r1)
                   then modify (with_aio_next_enabled_timer None)
                   else ret tt) r1)).
  assert (Hr0 : (if AsyncIO_eqb (Some q) (aio_next_enabled_timer r1)
                 then modify (with_aio_next_enabled_timer None)
                 else ret tt) r1 = (Ok tt, r0))
    by (subst r0; by destruct (AsyncIO_eqb _ _)).
  rewrite Hr0.
  assert (Hh0 : heap r0 = heap r1) by (subst r0; by destruct (AsyncIO_eqb _ _)).
  assert (He0 : enabled_timers r0 = Some q)
    by (subst r0; by destruct (AsyncIO_eqb _ _)).
  clearbody r0. clear Hr0.
  unfold bind at 1. unfold gets at 1. rewrite He0, AsyncIO_eqb_refl.
  unfold assign. unfold bind, deref, modify, ret. rewrite Hh0.
  subst r1. cbn. rewrite lookup_insert_eq. cbn. rewrite Hh0. cbn.
  rewrite lookup_insert_eq.
  eexists. split; [reflexivity|]. split; [exact Hc1|].
  split; [reflexivity|]. cbn. rewrite Hh0. cbn.
  split; [reflexivity|].
  split.
  { apply timer_chain_insert_other; [|exact Hq].
    by apply timer_chain_insert_other. }
  split; [by rewrite lookup_insert_eq|].
  intros p Hp. by rewrite !lookup_insert_ne.
Qed.

Lemma enable_then_disable_timer_witness :
  exists r1 r2,
    AsyncIO_EnableTimer Select 2000 (Some 1%nat) 5 one_timer = (Ok 0, r1) /\
    AsyncIO_DisableTimer Select 0 (Some 1%nat) r1 = (Ok 0, r2) /\
    enabled_timers r2 = None.
Proof.
  destruct (enable_then_disable_timer one_timer [] 1%nat
              (mkAsyncIO (-1) kAIO_TYPE_TIMER no_callback 0 false false 0 None)
              2000 5 0%nat)
    as (r1 & r2 & H1 & _ & H2 & He & _);
    [constructor | apply not_elem_of_nil | vm_compute; reflexivity |].
  exists r1, r2. split; [exact H1|]. split; [exact H2|exact He].
Defined.

(** The timeout branch of the select loop, up to the call of the timer's
    callback: the timer has been taken out of the list before its callback
    runs. *)
Lemma dispatch_timeout_enters_callback (r : reactor) (l1 l2 : list nat)
    (q : nat) (tq : OpaqueAsyncIO) (fuel : nat) (now : Z) :
  timer_chain (heap r) (enabled_timers r) (l1 ++ q :: l2) ->
  aio_next_enabled_timer r = Some q -> heap r !! q = Some tq ->
  (length l1 <= fuel)%nat ->
  exists r1 d,
    dispatch_timeout fuel now r
    = bind (run_client Select fuel now
              (callback tq kAIO_TIMER_FIRED (Some q) (-1) (userdata tq)))
           (fun _ => modify (with_anioInProgress None)) r1 /\
    timer_chain (heap r1) (enabled_timers r1) (l1 ++ l2) /\
    heap r1 !! q = Some (set_next_timer None tq) /\
    same_handles (heap r) (heap r1) /\
    aio_next_enabled_timer r1 = None /\ anioInProgress r1 = Some q /\
    delivered r1 = delivered r ++ [d] /\
    d_event d = kAIO_TIMER_FIRED /\ d_anio d = Some q /\ d_fd d = -1 /\
    waited r1 = waited r /\ checks_failed r1 = checks_failed r.
Proof.
  intros Hc Hn Hq Hf.
  destruct (disable_timer_select_member r l1 l2 q fuel Hc Hf)
    as (tq' & r' & Hq' & Hrun & Hc' & Hq1 & Hsame & Hn' & Hfr).
  rewrite Hq in Hq'. injection Hq' as <-.
  rewrite Hn, AsyncIO_eqb_refl in Hn'.
  destruct Hfr as (? & ? & ? & ? & ? & ? & ? & Hd & Hw & Hcf).
  unfold dispatch_timeout. unfold bind at 1. unfold gets at 1. rewrite Hn.
  unfold bind at 1. rewrite Hrun.
  unfold bind at 1. unfold modify at 1.
  unfold invoke.
  unfold bind at 1. unfold bind at 1. unfold deref at 1.
  cbn [heap with_anioInProgress]. rewrite Hq1.
  unfold bind at 1. unfold gets at 1. unfold bind at 1. unfold gets at 1.
  unfold bind at 1. unfold modify at 1.
  cbn [callback userdata set_next_timer fd notifyOnRead notifyOnWrite].
  eexists _, _. split; [reflexivity|]. cbn.
  split; [exact Hc'|]. split; [exact Hq1|]. split; [exact Hsame|].
  split; [exact Hn'|]. split; [reflexivity|]. split; [by rewrite Hd|].
  split; [reflexivity|]. split; [reflexivity|]. split; [reflexivity|].
  split; [exact Hw|exact Hcf].
Qed.

(** X3.  The select loop takes a timer out of the list before it calls the
    timer's callback, so that the callback can enable the timer again:
    after the timeout branch has run a callback that calls
    [AsyncIO_EnableTimer] on its own timer, the list holds the timer once,
    at its head, with the new fire time, and the callback has been called
    once with [kAIO_TIMER_FIRED]. *)
Theorem timer_callback_can_enable_again (r : reactor) (l1 l2 : list nat)
    (q : nat) (tq : OpaqueAsyncIO) (fuel : nat) (now ms : Z) :
  timer_chain (heap r) (enabled_timers r) (l1 ++ q :: l2) ->
  aio_next_enabled_timer r = Some q -> heap r !! q = Some tq ->
  (length l1 <= fuel)%nat ->
  callback tq kAIO_TIMER_FIRED (Some q) (-1) (userdata tq)
  = Call (CallEnableTimer (Some q) ms) (fun _ => Return) ->
  exists r' d,
    dispatch_timeout fuel now r = (Ok tt, r') /\
    timer_chain (heap r') (enabled_timers r') (q :: l1 ++ l2) /\
    (next_fire_time <$> heap r' !! q) = Some (wrap32 (now + ms)) /\
    delivered r' = delivered r ++ [d] /\
    d_event d = kAIO_TIMER_FIRED /\ d_anio d = Some q /\ d_fd d = -1 /\
    anioInProgress r' = None.
Proof.
  intros Hc Hn Hq Hf Hcb.
  destruct (dispatch_timeout_enters_callback r l1 l2 q tq fuel now Hc Hn Hq Hf)
    as (r1 & d & Hrun & Hc1 & Hq1 & _ & _ & _ & Hd & Hk & Ha & Hfd & _).
  rewrite Hrun, Hcb. cbn [run_client exec_api].
  unfold bind. rewrite (enable_timer_select r1 q _ now ms Hq1).
  unfold ret, modify.
  eexists _, d. split; [reflexivity|]. cbn.
  rewrite lookup_insert_eq. cbn.
  pose proof (timer_chain_NoDup _ _ _ Hc) as Hnd.
  assert (Hnot : q ∉ l1 ++ l2).
  { apply NoDup_app in Hnd as (Hnd1 & Hnd2 & Hnd3).
    apply NoDup_cons in Hnd3 as [Hq2 _].
    intros Hin. apply elem_of_app in Hin as [Hin|Hin]; [|done].
    apply (Hnd2 q Hin). by left. }
  repeat split; try assumption.
  eapply timer_chain_cons; [apply lookup_insert_eq|].
  cbn. by apply timer_chain_insert_other.
Qed.

Lemma timer_callback_can_enable_again_witness :
  exists r',
    dispatch_timeout 1 1020 one_periodic_timer = (Ok tt, r') /\
    timer_chain (heap r') (enabled_timers r') [1%nat] /\
    (next_fire_time <$> heap r' !! 1%nat) = Some 1040.
Proof.
  destruct (timer_callback_can_enable_again one_periodic_timer [] [] 1%nat
              (mkAsyncIO (-1) kAIO_TYPE_TIMER (periodic 20) 0 false false
                         1020 None)
              1%nat 1020 20)
    as (r' & d & Hrun & Hc & Hfire & _);
    [ apply (timer_chain_cons _ 1%nat
               (mkAsyncIO (-1) kAIO_TYPE_TIMER (periodic 20) 0 false false
                          1020 None)); [vm_compute; reflexivity|constructor]
    | vm_compute; reflexivity | vm_compute; reflexivity | cbn; lia
    | vm_compute; reflexivity | ].
  exists r'. split; [exact Hrun|]. split; [exact Hc|exact Hfire].
Defined.

Lemma count_fds_zero (nfds : Z) : count_fds nfds 0 = 0.
Proof.
  unfold count_fds.
  assert (H : forall l, filter (fun i => FD_ISSET (Z.of_nat i) 0 = true) l = [])
    by (induction l as [|i l IH]; [reflexivity|];
        rewrite filter_cons_False; [exact IH|];
        unfold FD_ISSET; by rewrite Z.testbit_0_l).
  by rewrite H.
Qed.

(** [select] with nothing ready and a timeout. *)
Lemma select_times_out (nfds : Z) (readfds writefds : fd_set) (tv : timeval)
    (r : reactor) :
  select nfds readfds writefds (Some tv) (SelReady FD_ZERO FD_ZERO) r
  = (Ok (0, FD_ZERO, FD_ZERO), with_waited (fun w => w ++ [Some tv]) r).
Proof.
  unfold select, bind, modify, ret, FD_ZERO.
  rewrite !Z.land_0_r, !Z.land_0_l, count_fds_zero. reflexivity.
Qed.

(** X4.  A turn of [AsyncIO_Run] on the select backend in which nothing
    becomes ready: the loop waits for the time left until the earliest
    enabled timer, then takes that timer out of the list and calls its
    callback once with [kAIO_TIMER_FIRED] and -1 as descriptor.  With
    [keepRunning] unset the function then returns, and what it returns
    is -1. *)
Theorem select_timeout_fires_earliest_timer (r : reactor) (l : list nat)
    (maxnfds fuel : nat) (in_debugger : bool) (now : Z) (q : nat)
    (tq : OpaqueAsyncIO) (env : environment) :
  timer_chain (heap r) (enabled_timers r) l -> (length l <= fuel)%nat ->
  q ∈ l -> heap r !! q = Some tq -> next_fire_time tq < UINT32_MAX ->
  0 <= now -> anioInProgress r = None ->
  select_replies env = [(now, SelReady FD_ZERO FD_ZERO)] ->
  (forall p t, p ∈ l -> heap r !! p = Some t ->
     callback t kAIO_TIMER_FIRED (Some p) (-1) (userdata t) = Return) ->
  exists (p : nat) (t : OpaqueAsyncIO) (l1 l2 : list nat) (r' : reactor)
         (d : delivery),
    l = l1 ++ p :: l2 /\ heap r !! p = Some t /\
    (forall p' t', p' ∈ l -> heap r !! p' = Some t' ->
       next_fire_time t <= next_fire_time t') /\
    AsyncIO_Run Select maxnfds fuel in_debugger false env r = (Ok (-1), r') /\
    timer_chain (heap r') (enabled_timers r') (l1 ++ l2) /\
    delivered r' = delivered r ++ [d] /\
    d_event d = kAIO_TIMER_FIRED /\ d_anio d = Some p /\ d_fd d = -1 /\
    waited r' = waited r ++
      [Some (if next_fire_time t <=? now then mkTimeval 0 0
             else mkTimeval ((next_fire_time t - now) / 1000)
                            (((next_fire_time t - now) mod 1000) * 1000))].
Proof.
  intros Hc Hf Hq Htq Hlast Hnow Hip Henv Hquiet.
  set (r0 := with_aio_next_enabled_timer None r).
  destruct (next_timer_fire_time_earliest r0 l fuel now q tq)
    as (p & t & Hnext & Hin & Hp & Hmin); try assumption.
  destruct (timer_chain_suffix _ _ _ p Hc Hin) as (l1 & l2 & Hl & _).
  exists p, t, l1, l2.
  unfold AsyncIO_Run. unfold bind at 1. unfold gets at 1. rewrite Hip.
  unfold bind at 1. cbn [AsyncIO_eqb check]. rewrite AsyncIO_eqb_refl.
  cbn [check]. unfold ret at 1. rewrite Henv.
  cbn [AsyncIO_Run_select].
  unfold bind at 1. unfold gets at 1. unfold bind at 1. unfold gets at 1.
  destruct (build_fd_sets maxnfds (anioReadSet r) (anioWriteSet r))
    as [[maxFd rf0] wf0].
  unfold bind at 1. unfold modify at 1. fold r0.
  unfold bind at 1. rewrite Hnext.
  unfold bind at 1. unfold bind at 1. unfold modify at 1. unfold ret at 1.
  rewrite orb_true_r. cbn [negb].
  unfold bind at 1. rewrite select_times_out. cbn [Z.eqb].
  set (r2 := with_waited _ (with_aio_next_enabled_timer (Some p) r0)).
  assert (Hc2 : timer_chain (heap r2) (enabled_timers r2) (l1 ++ p :: l2))
    by (subst r2 r0; cbn; by rewrite <- Hl).
  assert (Hf2 : (length l1 <= fuel)%nat).
  { rewrite Hl, length_app in Hf. lia. }
  destruct (dispatch_timeout_enters_callback r2 l1 l2 p t fuel now Hc2)
    as (r3 & d & Hrun & Hc3 & _ & _ & _ & _ & Hd & Hk & Ha & Hfd & Hw & _);
    [reflexivity|exact Hp|exact Hf2|].
  unfold bind at 1. rewrite Hrun, (Hquiet p t Hin Hp). cbn [run_client].
  unfold bind, ret, modify.
  eexists _, d. split; [exact Hl|]. split; [exact Hp|]. split; [exact Hmin|].
  split; [reflexivity|]. cbn.
  split; [exact Hc3|]. split; [exact Hd|]. repeat split; try assumption.
Qed.

Lemma select_timeout_fires_earliest_timer_witness :
  exists (r' : reactor) (d : delivery),
    AsyncIO_Run Select 8 3 false false
      (mkEnvironment [] [(1005, SelReady FD_ZERO FD_ZERO)]) three_timers
    = (Ok (-1), r') /\
    delivered r' = [] ++ [d] /\ d_event d = kAIO_TIMER_FIRED.
Proof.
  destruct (select_timeout_fires_earliest_timer three_timers
              [3%nat; 2%nat; 1%nat] 8 3 false 1005 2%nat
              (mkAsyncIO (-1) kAIO_TYPE_TIMER no_callback 0 false false 1010
                         (Some 1%nat))
              (mkEnvironment [] [(1005, SelReady FD_ZERO FD_ZERO)]))
    as (p & t & l1 & l2 & r' & d & _ & _ & _ & Hrun & _ & Hd & Hk & _);
    [ exact three_timers_chain | cbn; lia | set_solver
    | vm_compute; reflexivity | vm_compute; reflexivity | lia
    | vm_compute; reflexivity | vm_compute; reflexivity | | ].
  - intros p t Hin Hp.
    repeat (apply elem_of_cons in Hin as [->|Hin]);
      [ | | | inversion Hin ];
      vm_compute in Hp; injection Hp as <-; reflexivity.
  - exists r', d. split; [exact Hrun|]. split; [exact Hd|exact Hk].
Defined.

(** X5.  [next_fire_time] is [MillisecondCounter() + milliseconds] in 32
    bits.  When the sum passes [0xFFFFFFFF] the stored fire time wraps
    round to a value below the clock, and the timer counts as overdue from
    the moment it is enabled: as long as the clock has not wrapped too,
    [AsyncIO_GetNextTimerFireTime] returns a zero timeout, for this timer
    or one that fires before it. *)
Theorem timer_across_counter_wrap_is_due_at_once (r : reactor) (l : list nat)
    (q : nat) (t : OpaqueAsyncIO) (now ms now' : Z) (fuel : nat) :
  timer_chain (heap r) (enabled_timers r) l -> q ∉ l ->
  heap r !! q = Some t ->
  0 <= now <= UINT32_MAX -> 0 <= ms <= UINT32_MAX -> UINT32_MAX < now + ms ->
  now <= now' -> (S (length l) <= fuel)%nat ->
  exists (r1 : reactor) (p : nat),
    AsyncIO_EnableTimer Select now (Some q) ms r = (Ok 0, r1) /\
    (next_fire_time <$> heap r1 !! q) = Some (now + ms - 4294967296) /\
    now + ms - 4294967296 < now /\
    AsyncIO_GetNextTimerFireTime fuel now' r1
    = (Ok (Some (mkTimeval 0 0, Some p)), r1) /\
    p ∈ q :: l.
Proof.
  intros Hc Hq Ht Hnow Hms Hwrap Hlater Hf.
  rewrite (enable_timer_select r q t now ms Ht).
  set (r1 := with_enabled_timers (Some q) _).
  assert (Hw : wrap32 (now + ms) = now + ms - 4294967296).
  { unfold wrap32, UINT32_MAX in *.
    rewrite <- (Z.mod_small (now + ms - 4294967296) 4294967296) by lia.
    rewrite <- (Z_mod_plus_full (now + ms - 4294967296) 1 4294967296).
    f_equal. lia. }
  assert (Hq1 : heap r1 !! q
                = Some (set_next_timer (enabled_timers r)
                          (set_next_fire_time (wrap32 (now + ms)) t)))
    by (subst r1; cbn; apply lookup_insert_eq).
  assert (Hc1 : timer_chain (heap r1) (enabled_timers r1) (q :: l)).
  { eapply timer_chain_cons; [exact Hq1|].
    subst r1. cbn. by apply timer_chain_insert_other. }
  destruct (next_timer_fire_time_earliest r1 (q :: l) fuel now' q
              (set_next_timer (enabled_timers r)
                 (set_next_fire_time (wrap32 (now + ms)) t)) Hc1)
    as (p & tp & Hrun & Hin & Hp & Hmin);
    [ exact Hf | by left | exact Hq1
    | cbn; rewrite Hw; unfold UINT32_MAX in *; lia
    | unfold UINT32_MAX in *; lia | ].
  exists r1, p. split; [reflexivity|].
  split; [by rewrite Hq1; cbn; rewrite Hw|].
  split; [unfold UINT32_MAX in *; lia|].
  split; [|exact Hin].
  rewrite Hrun.
  assert ((next_fire_time tp <=? now') = true) as ->; [|reflexivity].
  apply Z.leb_le. specialize (Hmin q _ (ltac:(by left)) Hq1).
  cbn in Hmin. rewrite Hw in Hmin. unfold UINT32_MAX in *. lia.
Qed.

Lemma timer_across_counter_wrap_is_due_at_once_witness :
  exists (r1 : reactor) (p : nat),
    AsyncIO_EnableTimer Select 4294967000 (Some 1%nat) 1000 one_timer
    = (Ok 0, r1) /\
    (next_fire_time <$> heap r1 !! 1%nat) = Some 704 /\
    AsyncIO_GetNextTimerFireTime 1 4294967001 r1
    = (Ok (Some (mkTimeval 0 0, Some p)), r1).
Proof.
  destruct (timer_across_counter_wrap_is_due_at_once one_timer [] 1%nat
              (mkAsyncIO (-1) kAIO_TYPE_TIMER no_callback 0 false false 0 None)
              4294967000 1000 4294967001 1%nat)
    as (r1 & p & H1 & Hfire & _ & Hnext & _);
    [ constructor | apply not_elem_of_nil | vm_compute; reflexivity
    | unfold UINT32_MAX; lia | unfold UINT32_MAX; lia
    | unfold UINT32_MAX; lia | lia | cbn; lia | ].
  exists r1, p. split; [exact H1|]. split; [exact Hfire|exact Hnext].
Defined.

(** ** Releasing a handle *)

(** Reading a field of the state through the state's update functions. *)
Ltac fields :=
  cbn [heap next_alloc anioInProgress anioKQ anioReadSet anioWriteSet
       enabled_timers aio_next_enabled_timer socket_userdata open_fds
       delivered waited checks_failed
       with_heap with_next_alloc with_anioInProgress with_anioKQ
       with_anioReadSet with_anioWriteSet with_enabled_timers
       with_aio_next_enabled_timer with_socket_userdata with_open_fds
       with_delivered with_waited with_checks_failed].

Lemma deref_run (r : reactor) (h : nat) (o : OpaqueAsyncIO) :
  heap r !! h = Some o -> deref (Some h) r = (Ok o, r).
Proof. intros Hh. unfold deref. by rewrite Hh. Qed.

Lemma assign_run (r : reactor) (h : nat) (o : OpaqueAsyncIO)
    (f : OpaqueAsyncIO -> OpaqueAsyncIO) :
  heap r !! h = Some o ->
  assign (Some h) f r = (Ok tt, with_heap (insert h (f o)) r).
Proof. intros Hh. unfold assign, bind. by rewrite (deref_run r h o Hh). Qed.

Lemma kevent_delete_if_run (c : bool) (ident : Z) (f : kfilter) (r : reactor) :
  (if c then kevent_delete ident f ;; ret tt else ret tt)%M r
  = (Ok tt, if c then with_anioKQ (delete (ident, f)) r else r).
Proof.
  destruct c; [|reflexivity].
  unfold kevent_delete, bind, gets, modify, ret.
  destruct (anioKQ r !! (ident, f)) eqn:E; [reflexivity|].
  destruct r. cbn in E. unfold with_anioKQ. fields. by rewrite delete_id.
Qed.

(** [AsyncIO_Release], step by step, from the state [r1] that the timer
    branch at its start leaves. *)
Lemma release_run_from (b : backend) (r r1 : reactor) (h : nat)
    (o0 o : OpaqueAsyncIO) (fuel : nat) (closeDescriptor : bool) :
  heap r !! h = Some o0 ->
  match type o0 with
  | kAIO_TYPE_TIMER => (AsyncIO_DisableTimer b fuel (Some h) ;; ret tt)%M
  | _ => ret tt
  end r = (Ok tt, r1) ->
  heap r1 !! h = Some o ->
  let r2 :=
    match b with
    | KQueue =>
        let r1' := if notifyOnRead o
                   then with_anioKQ (delete (fd o, EVFILT_READ)) r1 else r1 in
        if notifyOnWrite o
        then with_anioKQ (delete (fd o, EVFILT_WRITE)) r1' else r1'
    | Select =>
        with_anioWriteSet (FD_CLR (fd o)) (with_anioReadSet (FD_CLR (fd o)) r1)
    end in
  let r3 :=
    if closeDescriptor && IsValidFD (fd o)
    then with_heap (insert h (set_fd kInvalidFD o))
           (with_anioKQ (delete (fd o, EVFILT_WRITE))
              (with_anioKQ (delete (fd o, EVFILT_READ))
                 (with_open_fds (delete (fd o)) r2)))
    else r2 in
  let r4 :=
    if AsyncIO_eqb (anioInProgress r1) (Some h)
    then with_anioInProgress None r3 else r3 in
  AsyncIO_Release b fuel (Some h) closeDescriptor r
  = (Ok 0, with_heap (delete h) r4).
Proof.
  intros Hh0 Htimer Hh r2 r3 r4. unfold AsyncIO_Release.
  rewrite (run_bind _ _ r r o0) by (by apply deref_run).
  rewrite (run_bind _ _ r r1 tt) by exact Htimer.
  rewrite (run_bind _ _ r1 r1 o) by (by apply deref_run).
  assert (Hh2 : heap r2 = heap r1)
    by (subst r2; destruct b, (notifyOnRead o), (notifyOnWrite o); reflexivity).
  assert (Hip2 : anioInProgress r2 = anioInProgress r1)
    by (subst r2; destruct b, (notifyOnRead o), (notifyOnWrite o); reflexivity).
  rewrite (run_bind _ _ r1 r2 tt).
  2:{ subst r2. destruct b.
      - rewrite (run_bind _ _ r1 _ tt (kevent_delete_if_run _ _ _ r1)).
        apply kevent_delete_if_run.
      - reflexivity. }
  assert (Hip3 : anioInProgress r3 = anioInProgress r1)
    by (subst r3; destruct (closeDescriptor && IsValidFD (fd o)); [fields|];
        exact Hip2).
  rewrite (run_bind _ _ r2 r3 tt).
  2:{ subst r3. destruct (closeDescriptor && IsValidFD (fd o)); [|reflexivity].
      unfold close.
      erewrite run_bind; [|unfold bind, modify; reflexivity].
      apply assign_run. fields. by rewrite Hh2. }
  rewrite (run_bind _ _ r3 r3 (anioInProgress r1))
    by (unfold gets; by rewrite Hip3).
  rewrite (run_bind _ _ r3 r4 tt)
    by (subst r4; by destruct (AsyncIO_eqb (anioInProgress r1) (Some h))).
  reflexivity.
Qed.

(** The same for a handle that is not a timer. *)
Lemma release_run (b : backend) (r : reactor) (h : nat) (o : OpaqueAsyncIO)
    (fuel : nat) (closeDescriptor : bool) :
  heap r !! h = Some o -> type o <> kAIO_TYPE_TIMER ->
  let r2 :=
    match b with
    | KQueue =>
        let r1 := if notifyOnRead o
                  then with_anioKQ (delete (fd o, EVFILT_READ)) r else r in
        if notifyOnWrite o
        then with_anioKQ (delete (fd o, EVFILT_WRITE)) r1 else r1
    | Select =>
        with_anioWriteSet (FD_CLR (fd o)) (with_anioReadSet (FD_CLR (fd o)) r)
    end in
  let r3 :=
    if closeDescriptor && IsValidFD (fd o)
    then with_heap (insert h (set_fd kInvalidFD o))
           (with_anioKQ (delete (fd o, EVFILT_WRITE))
              (with_anioKQ (delete (fd o, EVFILT_READ))
                 (with_open_fds (delete (fd o)) r2)))
    else r2 in
  let r4 :=
    if AsyncIO_eqb (anioInProgress r) (Some h)
    then with_anioInProgress None r3 else r3 in
  AsyncIO_Release b fuel (Some h) closeDescriptor r
  = (Ok 0, with_heap (delete h) r4).
Proof.
  intros Hh Ht. apply (release_run_from b r r h o o fuel closeDescriptor Hh);
    [by destruct (type o)|exact Hh].
Qed.

Lemma not_registered (m : gmap (Z * kfilter) kreg) (k : Z * kfilter) :
  m !! k = None -> bool_decide (is_Some (m !! k)) = false.
Proof. intros ->. apply bool_decide_eq_false. by intros [? ?]. Qed.

(** X6.  [AsyncIO_Release] on a handle that is not a timer returns 0 and
    frees the handle; afterwards the backend watches the handle's
    descriptor in neither direction, the descriptor is closed exactly when
    [closeDescriptor] is set and the descriptor is valid, the loop's
    in-progress marker is cleared if it was this handle, and no callback
    has been called.  On the kqueue backend this is so when the handle's
    flags cover what is registered for its descriptor, as they do for a
    connection armed through [AsyncIO_NotifyOnReadability] and
    [AsyncIO_NotifyOnWritability]. *)
Theorem release_disarms (b : backend) (r : reactor) (h : nat)
    (o : OpaqueAsyncIO) (fuel : nat) (closeDescriptor : bool) :
  heap r !! h = Some o -> type o <> kAIO_TYPE_TIMER ->
  (b = KQueue ->
   (is_Some (anioKQ r !! (fd o, EVFILT_READ)) -> notifyOnRead o = true) /\
   (is_Some (anioKQ r !! (fd o, EVFILT_WRITE)) -> notifyOnWrite o = true)) ->
  exists r',
    AsyncIO_Release b fuel (Some h) closeDescriptor r = (Ok 0, r') /\
    heap r' = delete h (heap r) /\
    read_interest b (fd o) r' = false /\
    write_interest b (fd o) r' = false /\
    open_fds r'
    = (if closeDescriptor && IsValidFD (fd o)
       then delete (fd o) (open_fds r) else open_fds r) /\
    anioInProgress r'
    = (if AsyncIO_eqb (anioInProgress r) (Some h) then None
       else anioInProgress r) /\
    delivered r' = delivered r.
Proof.
  intros Hh Ht Hflags.
  rewrite (release_run b r h o fuel closeDescriptor Hh Ht).
  eexists. split; [reflexivity|].
  assert (Hr : b = KQueue -> notifyOnRead o = false ->
               anioKQ r !! (fd o, EVFILT_READ) = None).
  { intros Hb Hf. destruct (Hflags Hb) as [Hrd _].
    destruct (anioKQ r !! (fd o, EVFILT_READ)) eqn:E; [|reflexivity].
    rewrite Hrd in Hf; [discriminate|by eexists]. }
  assert (Hw : b = KQueue -> notifyOnWrite o = false ->
               anioKQ r !! (fd o, EVFILT_WRITE) = None).
  { intros Hb Hf. destruct (Hflags Hb) as [_ Hwr].
    destruct (anioKQ r !! (fd o, EVFILT_WRITE)) eqn:E; [|reflexivity].
    rewrite Hwr in Hf; [discriminate|by eexists]. }
  destruct b.
  - specialize (Hr eq_refl). specialize (Hw eq_refl).
    destruct (notifyOnRead o), (notifyOnWrite o),
      (closeDescriptor && IsValidFD (fd o)),
      (AsyncIO_eqb (anioInProgress r) (Some h));
      unfold read_interest, write_interest; fields;
      rewrite ?delete_insert_eq;
      repeat split;
      try (apply not_registered;
           repeat (first [ apply lookup_delete_eq
                         | rewrite lookup_delete_ne by congruence ]);
           first [ by apply Hr | by apply Hw ]).
  - destruct (closeDescriptor && IsValidFD (fd o)),
      (AsyncIO_eqb (anioInProgress r) (Some h));
      unfold read_interest, write_interest; fields;
      rewrite ?delete_insert_eq;
      repeat split;
      first [ apply FD_ISSET_CLR_same
            | apply FD_ISSET_CLR_off, FD_ISSET_CLR_same ].
Qed.

Lemma release_disarms_witness :
  exists r',
    AsyncIO_Release KQueue 0 (Some 1%nat) true
      (one_connection_reading KQueue 3 no_callback) = (Ok 0, r') /\
    heap r' = delete 1%nat (heap (one_connection_reading KQueue 3 no_callback)) /\
    read_interest KQueue 3 r' = false.
Proof.
  destruct (release_disarms KQueue (one_connection_reading KQueue 3 no_callback)
              1%nat
              (mkAsyncIO 3 kAIO_TYPE_CONNECTION no_callback 0 true false 0 None)
              0%nat true)
    as (r' & Hrun & Hheap & Hread & _);
    [ vm_compute; reflexivity | discriminate | | ].
  - intros _. split; [reflexivity|].
    intros [x Hx]. vm_compute in Hx. discriminate.
  - exists r'. split; [exact Hrun|]. split; [exact Hheap|exact Hread].
Defined.

(** Every case of the kqueue loop body starts by reading the handle. *)
Lemma dispatch_kevent_dangling (r : reactor) (kv : kevent_t) (h : nat)
    (fuel : nat) (now : Z) :
  kv_udata kv = Some h -> heap r !! h = None ->
  fst (dispatch_kevent fuel now kv r) = Fault (UseAfterFree h).
Proof.
  intros Hu Hh.
  unfold dispatch_kevent, dispatch_kevent_filter.
  rewrite Hu.
  erewrite run_bind by reflexivity.
  unfold bind at 1.
  destruct (kv_filter kv); unfold invoke, assign;
    unfold bind, deref; fields; by rewrite Hh.
Qed.

(** X7.  On the kqueue backend [AsyncIO_Release] removes a read or write
    registration only when the handle's [notifyOnRead] or [notifyOnWrite]
    flag is set.  A registration made without the flag, as the one
    [AsyncIO_NewConnectionListener] makes, survives a release that does
    not close the descriptor: the kernel still holds it, with the freed
    handle as its user data, and the loop body run on an event for it
    reads the freed handle. *)
Theorem release_keeps_unflagged_registration (r : reactor) (h : nat)
    (o : OpaqueAsyncIO) (fuel : nat) (ident : Z) (f : kfilter) (reg : kreg) :
  heap r !! h = Some o -> type o <> kAIO_TYPE_TIMER ->
  anioKQ r !! (ident, f) = Some reg -> kr_udata reg = Some h ->
  (f = EVFILT_READ -> notifyOnRead o = false) ->
  (f = EVFILT_WRITE -> notifyOnWrite o = false) ->
  exists r',
    AsyncIO_Release KQueue fuel (Some h) false r = (Ok 0, r') /\
    heap r' !! h = None /\
    anioKQ r' !! (ident, f) = Some reg /\
    forall (fuel' : nat) (now : Z) (eof : bool),
      fst (dispatch_kevent fuel' now (mkKevent ident f eof (kr_udata reg)) r')
      = Fault (UseAfterFree h).
Proof.
  intros Hh Ht Hreg Hu Hrd Hwr.
  rewrite (release_run KQueue r h o fuel false Hh Ht).
  eexists. split; [reflexivity|].
  assert (Hheap : forall r0 : reactor,
             heap (with_heap (delete h) r0) !! h = None)
    by (intros r0; fields; apply lookup_delete_eq).
  split; [apply Hheap|].
  split.
  - cbn [andb].
    destruct (notifyOnRead o) eqn:Er, (notifyOnWrite o) eqn:Ew,
      (AsyncIO_eqb (anioInProgress r) (Some h)); fields;
      rewrite ?lookup_delete_ne; try exact Hreg;
      intros [= _ <-]; first [ discriminate (Hrd eq_refl)
                             | discriminate (Hwr eq_refl) ].
  - intros fuel' now eof.
    apply dispatch_kevent_dangling; [exact Hu|apply Hheap].
Qed.

Lemma release_keeps_unflagged_registration_witness :
  exists r',
    AsyncIO_Release KQueue 0 (Some 1%nat) false (one_listener KQueue 3 no_callback)
    = (Ok 0, r') /\
    heap r' !! 1%nat = None /\
    anioKQ r' !! (3, EVFILT_READ) = Some (mkKreg (Some 1%nat) false).
Proof.
  destruct (release_keeps_unflagged_registration
              (one_listener KQueue 3 no_callback) 1%nat
              (mkAsyncIO 3 kAIO_TYPE_LISTENER no_callback 0 false false 0 None)
              0%nat 3 EVFILT_READ (mkKreg (Some 1%nat) false))
    as (r' & Hrun & Hheap & Hreg & _);
    [ vm_compute; reflexivity | discriminate | vm_compute; reflexivity
    | reflexivity | reflexivity | discriminate | ].
  exists r'. split; [exact Hrun|]. split; [exact Hheap|exact Hreg].
Defined.

(** ** Listeners *)

(** A callback that returns at once. *)
Lemma invoke_returning (b : backend) (fuel : nat) (now : Z) (k : event_kind)
    (h : nat) (o : OpaqueAsyncIO) (fd_arg source : Z) (r : reactor) :
  heap r !! h = Some o ->
  callback o k (Some h) fd_arg (userdata o) = Return ->
  invoke b fuel now k (Some h) fd_arg source r
  = (Ok tt,
     with_delivered (fun t =>
       t ++ [mkDelivery k (Some h) fd_arg
               (notifyOnRead o || read_interest b (fd o) r)
               (notifyOnWrite o || write_interest b (fd o) r) source]) r).
Proof.
  intros Hh Hcb. unfold invoke.
  rewrite (run_bind _ _ r r o) by (by apply deref_run).
  erewrite run_bind by reflexivity.
  erewrite run_bind by reflexivity.
  erewrite run_bind by reflexivity.
  by rewrite Hcb.
Qed.

(** X8.  A listener is armed for good on the kqueue backend and for one
    event on the select backend.  When the listener's descriptor is
    reported readable its callback is called once with
    [kAIO_NEW_CONNECTION] and the descriptor; afterwards the kqueue
    backend still watches the descriptor, its registration being made
    without [EV_ONESHOT], while the select loop has cleared the descriptor
    from [anioReadSet] before the call, as it does for a connection: on
    that backend further connections are reported only once the listener
    is armed again with [AsyncIO_NotifyOnReadability]. *)
Theorem listener_stays_armed_on_kqueue_only (b : backend) (r : reactor)
    (i : Z) (h : nat) (o : OpaqueAsyncIO) (fuel : nat) (now : Z)
    (to : option timeval) :
  heap r !! h = Some o -> type o = kAIO_TYPE_LISTENER -> fd o = i ->
  callback o kAIO_NEW_CONNECTION (Some h) i (userdata o) = Return ->
  match b with
  | Select => socket_userdata r !! i = Some h
  | KQueue => anioKQ r !! (i, EVFILT_READ) = Some (mkKreg (Some h) false)
  end ->
  exists (r' : reactor) (d : delivery),
    report_and_dispatch b EVFILT_READ fuel now to false i r = (Ok tt, r') /\
    delivered r' = delivered r ++ [d] /\
    d_event d = kAIO_NEW_CONNECTION /\ d_anio d = Some h /\ d_fd d = i /\
    read_interest b i r' = match b with KQueue => true | Select => false end.
Proof.
  intros Hh Ht Hfd Hcb Hreg. destruct b; cbn [report_and_dispatch].
  - (* kqueue *)
    assert (Hwait : kevent_wait 1 to (KReady [(i, EVFILT_READ, false)]) r
                    = (Ok (1, [mkKevent i EVFILT_READ false (Some h)], None),
                       with_waited (fun w => w ++ [to]) r)).
    { unfold kevent_wait.
      erewrite run_bind by reflexivity.
      erewrite run_bind;
        [|cbn [kevent_collect]; erewrite run_bind by reflexivity; fields;
          rewrite Hreg; reflexivity].
      reflexivity. }
    rewrite (run_bind _ _ _ _ _ Hwait). cbn [fst snd process_kevents].
    unfold dispatch_kevent, dispatch_kevent_filter, dispatch_kevent_eof.
    cbn [kv_udata kv_filter kv_ident kv_eof].
    erewrite run_bind; [|].
    2:{ erewrite run_bind by reflexivity.
        erewrite run_bind.
        2:{ erewrite run_bind by (apply deref_run; fields; exact Hh).
            rewrite Ht. apply invoke_returning; [fields; exact Hh|exact Hcb]. }
        reflexivity. }
    eexists _, _. split; [reflexivity|]. fields.
    split; [reflexivity|]. repeat split.
    unfold read_interest. fields. rewrite Hreg.
    apply bool_decide_eq_true_2. by eexists.
  - (* select *)
    unfold dispatch_readable.
    erewrite run_bind
      by (unfold lwip_socket_get_userdata, gets; by rewrite Hreg).
    erewrite run_bind by reflexivity.
    erewrite run_bind by reflexivity.
    erewrite run_bind by (apply deref_run; fields; exact Hh).
    erewrite run_bind
      by (rewrite Ht, Hfd; apply invoke_returning; [fields; exact Hh|exact Hcb]).
    eexists _, _. split; [reflexivity|]. fields.
    split; [reflexivity|]. repeat split.
    unfold read_interest. fields. apply FD_ISSET_CLR_same.
Qed.

Lemma listener_stays_armed_on_kqueue_only_witness :
  (read_interest KQueue 3 (one_listener KQueue 3 no_callback) = true /\
   exists r' d,
     report_and_dispatch KQueue EVFILT_READ 0 0 None false 3
       (one_listener KQueue 3 no_callback) = (Ok tt, r') /\
     d_event d = kAIO_NEW_CONNECTION /\ read_interest KQueue 3 r' = true) /\
  (read_interest Select 3 (one_listener Select 3 no_callback) = true /\
   exists r' d,
     report_and_dispatch Select EVFILT_READ 0 0 None false 3
       (one_listener Select 3 no_callback) = (Ok tt, r') /\
     d_event d = kAIO_NEW_CONNECTION /\ read_interest Select 3 r' = false).
Proof.
  split; (split; [vm_compute; reflexivity|]).
  - destruct (listener_stays_armed_on_kqueue_only KQueue
                (one_listener KQueue 3 no_callback) 3 1%nat
                (mkAsyncIO 3 kAIO_TYPE_LISTENER no_callback 0 false false 0 None)
                0%nat 0 None)
      as (r' & d & Hrun & _ & Hk & _ & _ & Hint);
      [ vm_compute; reflexivity | reflexivity | reflexivity | reflexivity
      | vm_compute; reflexivity | ].
    exists r', d. split; [exact Hrun|]. split; [exact Hk|exact Hint].
  - destruct (listener_stays_armed_on_kqueue_only Select
                (one_listener Select 3 no_callback) 3 1%nat
                (mkAsyncIO 3 kAIO_TYPE_LISTENER no_callback 0 false false 0 None)
                0%nat 0 None)
      as (r' & d & Hrun & _ & Hk & _ & _ & Hint);
      [ vm_compute; reflexivity | reflexivity | reflexivity | reflexivity
      | vm_compute; reflexivity | ].
    exists r', d. split; [exact Hrun|]. split; [exact Hk|exact Hint].
Defined.

(** ** Releasing a timer *)

Lemma filter_without_absent (q : nat) (l : list nat) :
  q ∉ l -> filter (fun p => p <> q) l = l.
Proof.
  induction l as [|p l IH]; intros Hq; [reflexivity|].
  rewrite filter_cons_True; [|intros ->; apply Hq; by left].
  f_equal. apply IH. intros Hin. apply Hq. by right.
Qed.

Lemma filter_without_member (q : nat) (l1 l2 : list nat) :
  NoDup (l1 ++ q :: l2) -> filter (fun p => p <> q) (l1 ++ q :: l2) = l1 ++ l2.
Proof.
  intros Hnd. apply NoDup_app in Hnd as (_ & Hnd2 & Hnd3).
  apply NoDup_cons in Hnd3 as [Hq2 _].
  rewrite filter_app, filter_cons_False by (intros H; by apply H).
  rewrite !filter_without_absent; [reflexivity|exact Hq2|].
  intros Hin. apply (Hnd2 q Hin). by left.
Qed.

Lemma timer_chain_change_other (hp hp' : gmap nat OpaqueAsyncIO)
    (a : option nat) (l : list nat) (q : nat) :
  timer_chain hp a l -> q ∉ l -> (forall p, p <> q -> hp' !! p = hp !! p) ->
  timer_chain hp' a l.
Proof.
  intros Hc Hq Hsame. apply (timer_chain_ext hp); [exact Hc|].
  intros p Hin. destruct (timer_chain_lookup _ _ _ p Hc Hin) as [tp Hp].
  exists tp, tp. split; [exact Hp|]. split; [|reflexivity].
  rewrite Hsame; [exact Hp|]. by intros ->.
Qed.

(** [AsyncIO_DisableTimer] on a timer that is not in the list, select
    backend. *)
Lemma disable_timer_select_absent (r : reactor) (l : list nat) (q : nat)
    (fuel : nat) :
  timer_chain (heap r) (enabled_timers r) l -> q ∉ l ->
  (length l <= fuel)%nat ->
  exists r1,
    AsyncIO_DisableTimer Select fuel (Some q) r = (Ok (-1), r1) /\
    heap r1 = heap r /\ enabled_timers r1 = enabled_timers r.
Proof.
  intros Hc Hq Hf. unfold AsyncIO_DisableTimer.
  erewrite run_bind by reflexivity.
  set (r0 := if AsyncIO_eqb (Some q) (aio_next_enabled_timer r)
             then with_aio_next_enabled_timer None r else r).
  rewrite (run_bind _ _ r r0 tt)
    by (subst r0; by destruct (AsyncIO_eqb _ _)).
  assert (Hh0 : heap r0 = heap r) by (subst r0; by destruct (AsyncIO_eqb _ _)).
  assert (He0 : enabled_timers r0 = enabled_timers r)
    by (subst r0; by destruct (AsyncIO_eqb _ _)).
  clearbody r0.
  erewrite run_bind by reflexivity. rewrite He0.
  destruct l as [|p l].
  - inversion Hc as [Hnone|].
    unfold check, bind, modify, ret. eexists. split; [reflexivity|].
    fields. by rewrite Hh0, He0.
  - assert (Hhead : enabled_timers r = Some p) by (by inversion Hc).
    rewrite Hhead in Hc |- *.
    assert (AsyncIO_eqb (Some p) (Some q) = false) as ->.
    { apply AsyncIO_eqb_false. intros [= ->]. apply Hq. by left. }
    rewrite <- Hh0 in Hc.
    rewrite (run_bind _ _ _ _ _
               (unlink_timer_absent r0 q l p fuel Hc
                  (fun Hin => Hq (proj2 (elem_of_cons _ _ _) (or_intror Hin))) Hf)).
    unfold ret. eexists. split; [reflexivity|]. fields. by rewrite Hh0, He0.
Qed.

(** X9.  Releasing a timer on the select backend never leaves it on the
    list of enabled timers.  Whether the timer is enabled or not, the call
    returns 0 and frees the handle; the list afterwards is the list
    before without the timer, in the same order, so that no member of the
    list and no link in it refers to the freed handle. *)
Theorem release_timer_unlinks_it (r : reactor) (l : list nat) (q : nat)
    (tq : OpaqueAsyncIO) (fuel : nat) (closeDescriptor : bool) :
  timer_chain (heap r) (enabled_timers r) l ->
  heap r !! q = Some tq -> type tq = kAIO_TYPE_TIMER ->
  (length l <= fuel)%nat ->
  exists r',
    AsyncIO_Release Select fuel (Some q) closeDescriptor r = (Ok 0, r') /\
    heap r' !! q = None /\
    timer_chain (heap r') (enabled_timers r') (filter (fun p => p <> q) l) /\
    q ∉ filter (fun p => p <> q) l.
Proof.
  intros Hc Hq Ht Hf.
  assert (Hnotin : q ∉ filter (fun p => p <> q) l).
  { intros Hin. apply list_elem_of_filter in Hin as [Hne _]. by apply Hne. }
  assert (Hstep : exists z r1 o1,
             AsyncIO_DisableTimer Select fuel (Some q) r = (Ok z, r1) /\
             heap r1 !! q = Some o1 /\
             timer_chain (heap r1) (enabled_timers r1)
               (filter (fun p => p <> q) l)).
  { destruct (decide (q ∈ l)) as [Hin|Hout].
    - destruct (timer_chain_suffix _ _ _ q Hc Hin) as (l1 & l2 & -> & _).
      destruct (disable_timer_select_member r l1 l2 q fuel Hc)
        as (tq' & r1 & _ & Hrun & Hc1 & Hq1 & _);
        [rewrite length_app in Hf; lia|].
      exists 0, r1, (set_next_timer None tq'). split; [exact Hrun|].
      split; [exact Hq1|].
      rewrite filter_without_member; [exact Hc1|].
      by apply (timer_chain_NoDup _ _ _ Hc).
    - destruct (disable_timer_select_absent r l q fuel Hc Hout Hf)
        as (r1 & Hrun & Hh1 & He1).
      exists (-1), r1, tq. split; [exact Hrun|].
      split; [by rewrite Hh1|].
      rewrite filter_without_absent by exact Hout. by rewrite Hh1, He1. }
  destruct Hstep as (z & r1 & o1 & Hrun & Hq1 & Hc1).
  rewrite (release_run_from Select r r1 q tq o1 fuel closeDescriptor Hq);
    [ | rewrite Ht; by rewrite (run_bind _ _ _ _ _ Hrun) | exact Hq1 ].
  eexists. split; [reflexivity|].
  split; [fields; apply lookup_delete_eq|].
  split; [|exact Hnotin].
  apply (timer_chain_change_other (heap r1) _ _ _ q); [|exact Hnotin|].
  - destruct (closeDescriptor && IsValidFD (fd o1)),
      (AsyncIO_eqb (anioInProgress r1) (Some q)); fields; exact Hc1.
  - intros p Hp.
    destruct (closeDescriptor && IsValidFD (fd o1)),
      (AsyncIO_eqb (anioInProgress r1) (Some q)); fields;
      rewrite lookup_delete_ne by done; rewrite ?lookup_insert_ne by done;
      reflexivity.
Qed.

Lemma release_timer_unlinks_it_witness :
  exists r',
    AsyncIO_Release Select 3 (Some 2%nat) false three_timers = (Ok 0, r') /\
    heap r' !! 2%nat = None /\
    timer_chain (heap r') (enabled_timers r') [3%nat; 1%nat].
Proof.
  destruct (release_timer_unlinks_it three_timers [3%nat; 2%nat; 1%nat] 2%nat
              (mkAsyncIO (-1) kAIO_TYPE_TIMER no_callback 0 false false 1010
                         (Some 1%nat))
              3%nat false)
    as (r' & Hrun & Hheap & Hc & _);
    [ exact three_timers_chain | vm_compute; reflexivity | reflexivity
    | cbn; lia | ].
  exists r'. split; [exact Hrun|]. split; [exact Hheap|exact Hc].
Defined.

(** ** What [AsyncIO_Run] returns *)

Lemma ensures_bind {A B} (Q : B -> reactor -> Prop) (m : M A) (k : A -> M B) :
  (forall a, ensures Q (k a)) -> ensures Q (bind m k).
Proof.
  intros Hk r b r'. unfold bind.
  destruct (m r) as [[a|f] r1]; [apply Hk|discriminate].
Qed.

Lemma ensures_raise {A} (Q : A -> reactor -> Prop) (f : fault) :
  ensures Q (raise f).
Proof. intros r a r'. discriminate. Qed.

Lemma ensures_modify_ret {A} (Q : A -> reactor -> Prop)
    (g : reactor -> reactor) (a : A) :
  (forall r, Q a (g r)) -> ensures Q (modify g ;; ret a)%M.
Proof. intros H r a' r' [= <- <-]. apply H. Qed.

Lemma run_outcome_minus_one (b : backend) (keepRunning : bool) (r : reactor) :
  run_outcome b keepRunning (-1) (with_anioInProgress None r).
Proof. split; [reflexivity|by left]. Qed.

Section RunReturns.

Context (b : backend) (keepRunning : bool).



Lemma ensures_Run_select maxnfds fuel env :
  ensures (run_outcome b keepRunning) (AsyncIO_Run_select maxnfds fuel keepRunning env).
Proof.
  induction env as [|[now reply] env IH]; cbn [AsyncIO_Run_select];
    [apply ensures_raise|].
  apply ensures_bind. intros rs. apply ensures_bind. intros ws.
  destruct (build_fd_sets maxnfds rs ws) as [[maxFd readfds] writefds].
  apply ensures_bind. intros _. apply ensures_bind. intros nt.
  apply ensures_bind. intros to.
  destruct (negb _).
  { apply ensures_bind. intros _. apply ensures_modify_ret, run_outcome_minus_one. }
  apply ensures_bind. intros [[num rf] wf].
  destruct (num =? 0).
  { apply ensures_bind. intros _.
    destruct keepRunning; [exact IH|apply ensures_modify_ret, run_outcome_minus_one]. }
  destruct (0 <? num); [|apply ensures_modify_ret, run_outcome_minus_one].
  apply ensures_bind. intros left. apply ensures_bind. intros _.
  destruct keepRunning; [exact IH|apply ensures_modify_ret, run_outcome_minus_one].
Qed.

Lemma ensures_Run_kqueue fuel in_debugger env :
  b = KQueue ->
  forall got_first_event,
    ensures (run_outcome b keepRunning) (AsyncIO_Run_kqueue fuel in_debugger keepRunning got_first_event
                 env).
Proof.
  intros Hb.
  induction env as [|reply env IH]; intros got; cbn [AsyncIO_Run_kqueue];
    [apply ensures_raise|].
  apply ensures_bind. intros [[num evs] err].
  destruct ((num =? 0) && negb keepRunning) eqn:Hdone.
  { apply ensures_modify_ret. intros r. split; [reflexivity|]. right.
    apply andb_true_iff in Hdone as [_ Hk]. apply negb_true_iff in Hk.
    by repeat split. }
  destruct (_ && _ && in_debugger); [apply IH|].
  destruct evs as [|kv [|kv' evs]];
    [ apply ensures_modify_ret, run_outcome_minus_one
    | apply ensures_bind; intros _; apply IH
    | apply ensures_modify_ret, run_outcome_minus_one ].
Qed.

End RunReturns.

(** X10.  Whenever [AsyncIO_Run] returns, the in-progress marker
    [anioInProgress] is [NULL], and the value returned is -1 but for one
    case: on the kqueue backend with [keepRunning] unset the function
    returns 0, when a wait finds no event.  On the select backend [result]
    is never assigned, so the function returns -1 however its loop
    ends, after a turn that went well too. *)
Theorem run_returns (b : backend) (maxnfds fuel : nat)
    (in_debugger keepRunning : bool) (env : environment) (r r' : reactor)
    (z : Z) :
  AsyncIO_Run b maxnfds fuel in_debugger keepRunning env r = (Ok z, r') ->
  anioInProgress r' = None /\
  (z = -1 \/ (z = 0 /\ b = KQueue /\ keepRunning = false)).
Proof.
  revert r z r'.
  change (ensures (run_outcome b keepRunning)
          (AsyncIO_Run b maxnfds fuel in_debugger keepRunning env)).
  unfold AsyncIO_Run.
  apply ensures_bind. intros ip. apply ensures_bind. intros _.
  destruct b.
  - by apply ensures_Run_kqueue.
  - apply ensures_Run_select.
Qed.

Lemma run_returns_witness :
  (fst (AsyncIO_Run KQueue 8 8 false false
          (mkEnvironment [KReady [(3, EVFILT_READ, false)]; KReady []] [])
          (one_connection_reading KQueue 3 no_callback)) = Ok 0 /\
   anioInProgress
     (snd (AsyncIO_Run KQueue 8 8 false false
             (mkEnvironment [KReady [(3, EVFILT_READ, false)]; KReady []] [])
             (one_connection_reading KQueue 3 no_callback))) = None) /\
  (fst (AsyncIO_Run Select 8 8 false false
          (mkEnvironment [] [(1000, SelReady 8 0)])
          (one_connection_reading Select 3 no_callback)) = Ok (-1) /\
   anioInProgress
     (snd (AsyncIO_Run Select 8 8 false false
             (mkEnvironment [] [(1000, SelReady 8 0)])
             (one_connection_reading Select 3 no_callback))) = None).
Proof.
  split; (split; [vm_compute; reflexivity|]).
  - refine (proj1 (run_returns KQueue 8 8 false false
             (mkEnvironment [KReady [(3, EVFILT_READ, false)]; KReady []] [])
             (one_connection_reading KQueue 3 no_callback)
             (snd (AsyncIO_Run KQueue 8 8 false false
                     (mkEnvironment
                        [KReady [(3, EVFILT_READ, false)]; KReady []] [])
                     (one_connection_reading KQueue 3 no_callback))) 0 _)).
    vm_compute. reflexivity.
  - refine (proj1 (run_returns Select 8 8 false false
             (mkEnvironment [] [(1000, SelReady 8 0)])
             (one_connection_reading Select 3 no_callback)
             (snd (AsyncIO_Run Select 8 8 false false
                     (mkEnvironment [] [(1000, SelReady 8 0)])
                     (one_connection_reading Select 3 no_callback))) (-1) _)).
    vm_compute. reflexivity.
Defined.

(** ** Process and signal monitors *)

Lemma check_run (c : bool) (r : reactor) :
  check c r
  = (Ok tt, if c then r else with_checks_failed (S (checks_failed r)) r).
Proof. by destruct c. Qed.

(** A monitor's registration is reported to one wait of [AsyncIO_Run] and
    is gone at the next. *)
Lemma monitor_run (f : kfilter) (k : event_kind) (ident : Z) (p : nat)
    (o : OpaqueAsyncIO) (fuel : nat) (in_debugger : bool) (r : reactor) :
  monitor_event f = Some k ->
  heap r !! p = Some o ->
  anioKQ r !! (ident, f) = Some (mkKreg (Some p) true) ->
  callback o k (Some p) ident (userdata o) = Return ->
  exists (r' : reactor) (d : delivery),
    AsyncIO_Run_kqueue fuel in_debugger false false
      (kevent_replies (reported_twice ident f)) r = (Ok 0, r') /\
    delivered r' = delivered r ++ [d] /\
    d_event d = k /\ d_anio d = Some p /\ d_fd d = ident /\
    anioKQ r' = delete (ident, f) (anioKQ r) /\
    heap r' = heap r /\
    waited r' = waited r ++ [None; Some (mkTimeval 0 0)].
Proof.
  intros Hk Hh Hreg Hcb.
  assert (Hwait : kevent_wait 1 None (KReady [(ident, f, false)]) r
                  = (Ok (1, [mkKevent ident f false (Some p)], None),
                     with_anioKQ (delete (ident, f))
                       (with_waited (fun w => w ++ [None]) r))).
  { unfold kevent_wait.
    erewrite run_bind by reflexivity.
    erewrite run_bind;
      [|cbn [kevent_collect]; erewrite run_bind by reflexivity; fields;
        rewrite Hreg; cbn [kr_oneshot kr_udata];
        erewrite run_bind by reflexivity; reflexivity].
    reflexivity. }
  set (r1 := with_anioKQ (delete (ident, f))
               (with_waited (fun w => w ++ [None]) r)) in *.
  set (d := mkDelivery k (Some p) ident
              (notifyOnRead o || read_interest KQueue (fd o)
                                   (with_anioInProgress (Some p) r1))
              (notifyOnWrite o || write_interest KQueue (fd o)
                                    (with_anioInProgress (Some p) r1)) ident).
  set (r2 := with_anioInProgress None
               (with_delivered (fun t => t ++ [d])
                  (with_anioInProgress (Some p) r1))).
  assert (Hdisp : dispatch_kevent fuel 0 (mkKevent ident f false (Some p)) r1
                  = (Ok tt, r2)).
  { unfold dispatch_kevent, dispatch_kevent_filter, dispatch_kevent_eof.
    cbn [kv_udata kv_filter kv_ident kv_eof].
    erewrite run_bind by reflexivity.
    erewrite run_bind; [reflexivity|].
    destruct f; try discriminate Hk; injection Hk as <-;
      (apply invoke_returning; [exact Hh|exact Hcb]). }
  assert (Hwait2 : kevent_wait 1 (Some (mkTimeval 0 0))
                     (KReady [(ident, f, false)]) r2
                   = (Ok (0, [], None),
                      with_waited (fun w => w ++ [Some (mkTimeval 0 0)]) r2)).
  { unfold kevent_wait.
    erewrite run_bind by reflexivity.
    erewrite run_bind;
      [|cbn [kevent_collect]; erewrite run_bind by reflexivity;
        subst r2 r1; fields; rewrite lookup_delete_eq; reflexivity].
    reflexivity. }
  exists (with_anioInProgress None
            (with_waited (fun w => w ++ [Some (mkTimeval 0 0)]) r2)), d.
  split.
  { cbn [reported_twice kevent_replies AsyncIO_Run_kqueue negb andb].
    rewrite (run_bind _ _ _ _ _ Hwait). cbn [Z.eqb andb negb Pos.eqb].
    rewrite (run_bind _ _ _ _ _ Hdisp).
    rewrite (run_bind _ _ _ _ _ Hwait2). reflexivity. }
  subst r2 r1. fields.
  split; [reflexivity|]. split; [reflexivity|]. split; [reflexivity|].
  split; [reflexivity|]. split; [reflexivity|]. split; [reflexivity|].
  by rewrite <- app_assoc.
Qed.

(** [AsyncIO_Run] from a state where no callback is in progress or one
    is. *)
Lemma run_kqueue_unfold (maxnfds fuel : nat) (in_debugger keepRunning : bool)
    (env : environment) (r : reactor) :
  AsyncIO_Run KQueue maxnfds fuel in_debugger keepRunning env r
  = AsyncIO_Run_kqueue fuel in_debugger keepRunning false (kevent_replies env)
      (if AsyncIO_eqb (anioInProgress r) None then r
       else with_checks_failed (S (checks_failed r)) r).
Proof.
  unfold AsyncIO_Run.
  erewrite run_bind by reflexivity.
  erewrite run_bind by apply check_run.
  reflexivity.
Qed.

(** X11.  A process monitor reports the exit once.  When the kernel
    accepts the registration, [AsyncIO_NewProcessMonitor] returns a handle
    whose [fd] field is [-1]; when the process exits, [AsyncIO_Run] calls
    the handle's callback with [kAIO_PROCESS_EXITED] and, as the [fd]
    argument, the process identifier.  The registration is made with
    [EV_ONESHOT]: a second report of the same process finds nothing
    registered, so [AsyncIO_Run( false )] returns 0 after one call, having
    waited first without and then with a zero timeout.  The handle is
    still allocated afterwards: it is the caller who releases it. *)
Theorem process_monitor_reports_once (pid : Z) (cb : AsyncIOEvent) (ud : Z)
    (maxnfds fuel : nat) (in_debugger : bool) (r : reactor) :
  (forall a, cb kAIO_PROCESS_EXITED a pid ud = Return) ->
  exists (r1 r' : reactor) (d : delivery),
    let p := next_alloc r in
    AsyncIO_NewProcessMonitor None pid cb ud r = (Ok (Some p), r1) /\
    heap r1 !! p
      = Some (mkAsyncIO (-1) kAIO_TYPE_PROC cb ud false false 0 None) /\
    AsyncIO_Run KQueue maxnfds fuel in_debugger false
      (reported_twice pid EVFILT_PROC) r1 = (Ok 0, r') /\
    delivered r' = delivered r ++ [d] /\
    d_event d = kAIO_PROCESS_EXITED /\ d_anio d = Some p /\ d_fd d = pid /\
    anioKQ r' !! (pid, EVFILT_PROC) = None /\
    heap r' !! p
      = Some (mkAsyncIO (-1) kAIO_TYPE_PROC cb ud false false 0 None) /\
    waited r' = waited r ++ [None; Some (mkTimeval 0 0)].
Proof.
  intros Hcb.
  set (p := next_alloc r).
  set (o := mkAsyncIO (-1) kAIO_TYPE_PROC cb ud false false 0 None).
  set (r1 := with_anioKQ (insert (pid, EVFILT_PROC) (mkKreg (Some p) true))
               (with_next_alloc (S p) (with_heap (insert p o) r))).
  set (r1' := if AsyncIO_eqb (anioInProgress r1) None then r1
              else with_checks_failed (S (checks_failed r1)) r1).
  assert (Hh : heap r1' !! p = Some o)
    by (subst r1' r1; destruct (AsyncIO_eqb _ None); fields;
        apply lookup_insert_eq).
  assert (Hreg : anioKQ r1' !! (pid, EVFILT_PROC) = Some (mkKreg (Some p) true))
    by (subst r1' r1; destruct (AsyncIO_eqb _ None); fields;
        apply lookup_insert_eq).
  destruct (monitor_run EVFILT_PROC kAIO_PROCESS_EXITED pid p o fuel
              in_debugger r1' eq_refl Hh Hreg (Hcb _))
    as (r' & d & Hrun & Hdel & Hk & Ha & Hfd & Hkq & Hheap & Hw).
  exists r1, r', d. cbn zeta.
  split; [reflexivity|].
  split; [subst r1; fields; apply lookup_insert_eq|].
  split; [rewrite run_kqueue_unfold; exact Hrun|].
  split; [rewrite Hdel; subst r1' r1; by destruct (AsyncIO_eqb _ None)|].
  split; [exact Hk|]. split; [exact Ha|]. split; [exact Hfd|].
  split; [rewrite Hkq; apply lookup_delete_eq|].
  split; [rewrite Hheap; exact Hh|].
  rewrite Hw. subst r1' r1. by destruct (AsyncIO_eqb _ None).
Qed.

Lemma process_monitor_reports_once_witness :
  exists r1 r' d,
    AsyncIO_NewProcessMonitor None 4242 no_callback 0 initial_reactor
    = (Ok (Some 1%nat), r1) /\
    AsyncIO_Run KQueue 8 8 false false (reported_twice 4242 EVFILT_PROC) r1
    = (Ok 0, r') /\
    delivered r' = [d] /\ d_fd d = 4242.
Proof.
  destruct (process_monitor_reports_once 4242 no_callback 0 8 8 false
              initial_reactor (fun _ => eq_refl))
    as (r1 & r' & d & Hnew & _ & Hrun & Hdel & _ & _ & Hfd & _).
  exists r1, r', d.
  split; [exact Hnew|]. split; [exact Hrun|]. split; [exact Hdel|exact Hfd].
Defined.

(** X12.  A signal monitor sets the signal to be ignored and reports it
    once.  [AsyncIO_NewSignalMonitor] calls [signal( sig_id, SIG_IGN )],
    whatever was set for the signal before, and registers the signal with
    [EV_ONESHOT]: [AsyncIO_Run] calls the callback with
    [kAIO_SIGNAL_DELIVERED] and the signal number at the first report, and
    a second report finds nothing registered.  After that one event the
    signal is still ignored and no longer monitored. *)
Theorem signal_monitor_reports_once (sig_id : Z) (cb : AsyncIOEvent) (ud : Z)
    (sigs : gmap Z sig_disposition) (maxnfds fuel : nat) (in_debugger : bool)
    (r : reactor) :
  (forall a, cb kAIO_SIGNAL_DELIVERED a sig_id ud = Return) ->
  exists (r1 r' : reactor) (d : delivery) (sigs' : gmap Z sig_disposition),
    let p := next_alloc r in
    AsyncIO_NewSignalMonitor None sig_id cb ud sigs r
    = (Ok (Some p, sigs'), r1) /\
    sigs' !! sig_id = Some SIG_IGN /\
    (forall s, s <> sig_id -> sigs' !! s = sigs !! s) /\
    AsyncIO_Run KQueue maxnfds fuel in_debugger false
      (reported_twice sig_id EVFILT_SIGNAL) r1 = (Ok 0, r') /\
    delivered r' = delivered r ++ [d] /\
    d_event d = kAIO_SIGNAL_DELIVERED /\ d_anio d = Some p /\
    d_fd d = sig_id /\
    anioKQ r' !! (sig_id, EVFILT_SIGNAL) = None.
Proof.
  intros Hcb.
  set (p := next_alloc r).
  set (o := mkAsyncIO (-1) kAIO_TYPE_SIGNAL cb ud false false 0 None).
  set (r1 := with_anioKQ (insert (sig_id, EVFILT_SIGNAL) (mkKreg (Some p) true))
               (with_next_alloc (S p) (with_heap (insert p o) r))).
  set (r1' := if AsyncIO_eqb (anioInProgress r1) None then r1
              else with_checks_failed (S (checks_failed r1)) r1).
  assert (Hh : heap r1' !! p = Some o)
    by (subst r1' r1; destruct (AsyncIO_eqb _ None); fields;
        apply lookup_insert_eq).
  assert (Hreg : anioKQ r1' !! (sig_id, EVFILT_SIGNAL)
                 = Some (mkKreg (Some p) true))
    by (subst r1' r1; destruct (AsyncIO_eqb _ None); fields;
        apply lookup_insert_eq).
  destruct (monitor_run EVFILT_SIGNAL kAIO_SIGNAL_DELIVERED sig_id p o fuel
              in_debugger r1' eq_refl Hh Hreg (Hcb _))
    as (r' & d & Hrun & Hdel & Hk & Ha & Hfd & Hkq & Hheap & Hw).
  exists r1, r', d, (<[sig_id := SIG_IGN]> sigs). cbn zeta.
  split; [reflexivity|].
  split; [apply lookup_insert_eq|].
  split; [intros s Hs; by apply lookup_insert_ne|].
  split; [rewrite run_kqueue_unfold; exact Hrun|].
  split; [rewrite Hdel; subst r1' r1; by destruct (AsyncIO_eqb _ None)|].
  split; [exact Hk|]. split; [exact Ha|]. split; [exact Hfd|].
  rewrite Hkq. apply lookup_delete_eq.
Qed.

Lemma signal_monitor_reports_once_witness :
  exists r1 r' d sigs',
    AsyncIO_NewSignalMonitor None 15 no_callback 0
      (<[15 := SIG_HANDLER 7]> ∅) initial_reactor
    = (Ok (Some 1%nat, sigs'), r1) /\
    sigs' !! 15 = Some SIG_IGN /\
    AsyncIO_Run KQueue 8 8 false false (reported_twice 15 EVFILT_SIGNAL) r1
    = (Ok 0, r') /\
    delivered r' = [d] /\ d_fd d = 15.
Proof.
  destruct (signal_monitor_reports_once 15 no_callback 0
              (<[15 := SIG_HANDLER 7]> ∅) 8 8 false
              initial_reactor (fun _ => eq_refl))
    as (r1 & r' & d & sigs' & Hnew & Hign & _ & Hrun & Hdel & _ & _ & Hfd & _).
  exists r1, r', d, sigs'.
  split; [exact Hnew|]. split; [exact Hign|]. split; [exact Hrun|].
  split; [exact Hdel|exact Hfd].
Defined.

(** X13.  A monitor the kernel refuses leaves nothing behind but the
    signal's disposition.  When the registration fails, both constructors
    log the failure, free the handle they allocated and return [NULL]: no
    handle and no registration is added.  [AsyncIO_NewSignalMonitor] has
    by then set the signal to be ignored, and it returns without restoring
    what was set before. *)
Theorem refused_monitor_leaves_signal_ignored (e : errno_t) (ident : Z)
    (cb : AsyncIOEvent) (ud : Z) (sigs : gmap Z sig_disposition)
    (r : reactor) :
  heap r !! next_alloc r = None ->
  (exists r',
     AsyncIO_NewProcessMonitor (Some e) ident cb ud r = (Ok None, r') /\
     heap r' = heap r /\ anioKQ r' = anioKQ r /\
     checks_failed r' = S (checks_failed r)) /\
  (exists r',
     AsyncIO_NewSignalMonitor (Some e) ident cb ud sigs r
     = (Ok (None, <[ident := SIG_IGN]> sigs), r') /\
     heap r' = heap r /\ anioKQ r' = anioKQ r /\
     checks_failed r' = S (checks_failed r)).
Proof.
  intros Hfresh.
  split.
  - exists (with_heap (delete (next_alloc r))
              (with_checks_failed (S (checks_failed r))
                 (with_next_alloc (S (next_alloc r))
                    (with_heap (insert (next_alloc r)
                       (mkAsyncIO (-1) kAIO_TYPE_PROC cb ud false false 0 None))
                       r)))).
    split; [reflexivity|]. fields.
    split; [by apply delete_insert_id|]. by split.
  - exists (with_heap (delete (next_alloc r))
              (with_checks_failed (S (checks_failed r))
                 (with_next_alloc (S (next_alloc r))
                    (with_heap (insert (next_alloc r)
                       (mkAsyncIO (-1) kAIO_TYPE_SIGNAL cb ud false false 0
                                  None)) r)))).
    split; [reflexivity|]. fields.
    split; [by apply delete_insert_id|]. by split.
Qed.

Lemma refused_monitor_leaves_signal_ignored_witness :
  exists r',
    AsyncIO_NewSignalMonitor (Some ENOENT) 99 no_callback 0
      (<[99 := SIG_DFL]> ∅) initial_reactor
    = (Ok (None, <[99 := SIG_IGN]> (<[99 := SIG_DFL]> ∅)), r') /\
    heap r' = ∅.
Proof.
  destruct (refused_monitor_leaves_signal_ignored ENOENT 99 no_callback 0
              (<[99 := SIG_DFL]> ∅) initial_reactor)
    as [_ (r' & Hrun & Hheap & _)]; [vm_compute; reflexivity|].
  exists r'. split; [exact Hrun|exact Hheap].
Defined.

(** ** Redirects: construction and release *)

Lemma new_connection_run (b : backend) (fd : Z) (cb : AsyncIOEvent) (ud : Z)
    (fl : Z) (r : reactor) :
  open_fds r !! fd = Some (mkFdState fl None) -> fl <> -1 ->
  AsyncIO_NewConnection b fd cb ud r
  = (Ok (Some (next_alloc r)),
     let r1 :=
       with_open_fds (insert fd (mkFdState (Z.lor fl O_NONBLOCK) None))
         (with_next_alloc (S (next_alloc r))
            (with_heap (insert (next_alloc r)
               (mkAsyncIO fd kAIO_TYPE_CONNECTION cb ud false false 0 None))
               r)) in
     match b with
     | KQueue => r1
     | Select => with_socket_userdata (insert fd (next_alloc r)) r1
     end).
Proof.
  intros Hfd Hfl. unfold AsyncIO_NewConnection.
  erewrite run_bind by reflexivity.
  erewrite run_bind
    by (unfold fcntl_GETFL; erewrite run_bind by reflexivity; fields;
        rewrite Hfd; reflexivity).
  cbn [fl_flags]. rewrite (proj2 (Z.eqb_neq fl (-1)) Hfl).
  erewrite run_bind
    by (unfold fcntl_SETFL; erewrite run_bind by reflexivity; fields;
        rewrite Hfd; cbn [fl_setfl_errno];
        erewrite run_bind by reflexivity; reflexivity).
  destruct b; [reflexivity|].
  erewrite run_bind
    by (unfold lwip_socket_set_userdata; erewrite run_bind by reflexivity;
        fields; rewrite lookup_insert_eq;
        erewrite run_bind by reflexivity; reflexivity).
  reflexivity.
Qed.

Lemma new_connection_not_open (b : backend) (fd : Z) (cb : AsyncIOEvent)
    (ud : Z) (r : reactor) :
  open_fds r !! fd = None ->
  AsyncIO_NewConnection b fd cb ud r
  = (Ok None,
     with_heap (delete (next_alloc r))
       (with_checks_failed (S (checks_failed r))
          (with_next_alloc (S (next_alloc r))
             (with_heap (insert (next_alloc r)
                (mkAsyncIO fd kAIO_TYPE_CONNECTION cb ud false false 0 None))
                r)))).
Proof.
  intros Hfd. unfold AsyncIO_NewConnection.
  erewrite run_bind by reflexivity.
  erewrite run_bind
    by (unfold fcntl_GETFL; erewrite run_bind by reflexivity; fields;
        rewrite Hfd; reflexivity).
  reflexivity.
Qed.

Lemma notify_read_run (b : backend) (r : reactor) (h : nat)
    (o : OpaqueAsyncIO) :
  heap r !! h = Some o -> is_Some (open_fds r !! fd o) ->
  AsyncIO_NotifyOnReadability b (Some h) r
  = (Ok 0,
     with_heap (insert h (set_notifyOnRead true o))
       match b with
       | KQueue =>
           with_anioKQ (insert (fd o, EVFILT_READ) (mkKreg (Some h) true)) r
       | Select =>
           with_anioReadSet (FD_SET (fd o))
             (with_socket_userdata (insert (fd o) h) r)
       end).
Proof.
  intros Hh [st Hst]. unfold AsyncIO_NotifyOnReadability.
  rewrite (run_bind _ _ r r o) by (by apply deref_run).
  destruct b.
  - erewrite run_bind
      by (unfold kevent_add, bind, gets, modify, ret; rewrite Hst;
          reflexivity).
    cbv beta iota.
    erewrite run_bind by (apply assign_run; fields; exact Hh).
    reflexivity.
  - erewrite run_bind
      by (unfold lwip_socket_set_userdata, bind, gets, modify, ret;
          rewrite Hst; reflexivity).
    cbv beta iota.
    erewrite run_bind by (apply assign_run; fields; exact Hh).
    reflexivity.
Qed.

Lemma FD_ISSET_CLR_other (i j : Z) (s : fd_set) :
  j <> i -> FD_ISSET j (FD_CLR i s) = FD_ISSET j s.
Proof.
  intros Hne. unfold FD_ISSET, FD_CLR. apply Z.clearbit_neq. congruence.
Qed.

Lemma forget_run (b : backend) (fuel : nat) (h : nat) (c : bool)
    (r r' : reactor) :
  AsyncIO_Release b fuel (Some h) c r = (Ok 0, r') ->
  ForgetAsyncIO b fuel (Some h) c r = (Ok tt, r').
Proof.
  intros H. unfold ForgetAsyncIO. by rewrite (run_bind _ _ _ _ _ H).
Qed.

(** The state after [AsyncIO_Release] on a connection, read field by
    field. *)
Lemma release_connection (b : backend) (r : reactor) (h : nat)
    (o : OpaqueAsyncIO) (fuel : nat) (c : bool) :
  heap r !! h = Some o -> type o = kAIO_TYPE_CONNECTION ->
  exists r',
    AsyncIO_Release b fuel (Some h) c r = (Ok 0, r') /\
    heap r' = delete h (heap r) /\
    next_alloc r' = next_alloc r /\
    (notifyOnRead o = true -> read_interest b (fd o) r' = false) /\
    open_fds r' = (if c && IsValidFD (fd o) then delete (fd o) (open_fds r)
                   else open_fds r) /\
    delivered r' = delivered r /\
    (forall j, j <> fd o -> read_interest b j r' = read_interest b j r).
Proof.
  intros Hh Ht.
  eexists. split; [apply (release_run b r h o fuel c Hh); by rewrite Ht|].
  cbn zeta.
  destruct b, (notifyOnRead o) eqn:Hrd, (notifyOnWrite o),
    (c && IsValidFD (fd o)), (AsyncIO_eqb (anioInProgress r) (Some h));
    fields; unfold read_interest; fields;
    (split; [by rewrite ?delete_insert_eq|]);
    (split; [reflexivity|]);
    (split; [intros Hflag;
             first [ discriminate Hflag
                   | apply FD_ISSET_CLR_same
                   | apply not_registered;
                     rewrite ?lookup_delete_eq;
                     rewrite ?lookup_delete_ne by congruence;
                     rewrite ?lookup_delete_eq; reflexivity ]|]);
    (split; [reflexivity|]); (split; [reflexivity|]);
    intros j Hj;
    first [ by rewrite FD_ISSET_CLR_other
          | by rewrite ?lookup_delete_ne by congruence ].
Qed.

Lemma new_connection_ok (b : backend) (fd : Z) (cb : AsyncIOEvent) (ud : Z)
    (fl : Z) (r : reactor) :
  open_fds r !! fd = Some (mkFdState fl None) -> fl <> -1 ->
  exists r',
    AsyncIO_NewConnection b fd cb ud r = (Ok (Some (next_alloc r)), r') /\
    heap r' = <[next_alloc r :=
                  mkAsyncIO fd kAIO_TYPE_CONNECTION cb ud false false 0 None]>
                (heap r) /\
    next_alloc r' = S (next_alloc r) /\
    open_fds r' = <[fd := mkFdState (Z.lor fl O_NONBLOCK) None]> (open_fds r) /\
    delivered r' = delivered r /\
    (forall j, read_interest b j r' = read_interest b j r).
Proof.
  intros Hfd Hfl. eexists. split; [by apply new_connection_run|].
  cbn zeta. destruct b; by repeat split.
Qed.

Lemma new_connection_refused (b : backend) (fd : Z) (cb : AsyncIOEvent)
    (ud : Z) (r : reactor) :
  open_fds r !! fd = None -> heap r !! next_alloc r = None ->
  exists r',
    AsyncIO_NewConnection b fd cb ud r = (Ok None, r') /\
    heap r' = heap r /\
    open_fds r' = open_fds r /\
    delivered r' = delivered r /\
    (forall j, read_interest b j r' = read_interest b j r).
Proof.
  intros Hfd Hfresh. eexists. split; [by apply new_connection_not_open|].
  fields. split; [by apply delete_insert_id|]. destruct b; by repeat split.
Qed.

Lemma FD_ISSET_SET_same (i : Z) (s : fd_set) :
  0 <= i -> FD_ISSET i (FD_SET i s) = true.
Proof. intros Hi. unfold FD_ISSET, FD_SET. by apply Z.setbit_eq. Qed.

Lemma notify_read_ok (b : backend) (r : reactor) (h : nat)
    (o : OpaqueAsyncIO) :
  heap r !! h = Some o -> is_Some (open_fds r !! fd o) -> 0 <= fd o ->
  exists r',
    AsyncIO_NotifyOnReadability b (Some h) r = (Ok 0, r') /\
    heap r' = <[h := set_notifyOnRead true o]> (heap r) /\
    next_alloc r' = next_alloc r /\
    open_fds r' = open_fds r /\
    delivered r' = delivered r /\
    read_interest b (fd o) r' = true.
Proof.
  intros Hh Hopen Hfd. eexists. split; [by apply notify_read_run|].
  destruct b; fields; unfold read_interest; fields;
    (split; [reflexivity|]); (split; [reflexivity|]);
    (split; [reflexivity|]); (split; [reflexivity|]).
  - apply bool_decide_eq_true_2. rewrite lookup_insert_eq. by eexists.
  - by apply FD_ISSET_SET_same.
Qed.

Lemma heap_after_redirect_and_release (hp : gmap nat OpaqueAsyncIO) (p : nat)
    (o1 o2 o3 : OpaqueAsyncIO) :
  hp !! p = None -> hp !! S p = None ->
  delete (S p) (delete p (<[S p := o3]> (<[p := o2]> (<[p := o1]> hp)))) = hp.
Proof.
  intros Hp HSp. apply map_eq. intros q.
  destruct (decide (q = S p)) as [->|Hq1]; [by rewrite lookup_delete_eq|].
  rewrite lookup_delete_ne by congruence.
  destruct (decide (q = p)) as [->|Hq2]; [by rewrite lookup_delete_eq|].
  rewrite lookup_delete_ne by congruence.
  by rewrite !lookup_insert_ne by congruence.
Qed.

(** X14.  Making a redirect and releasing it leaves the reactor as it
    was.  With both descriptors open, [AsyncIO_Redirect] makes two
    handles and arms the input for reading; the output is not armed.
    [AsyncIO_ReleaseRedirect] then frees both handles, so that the handles
    are those from before the redirect was made, takes the read interest
    off the input, and closes the input exactly when [closeIn] is set and
    the output exactly when [closeOut] is set.  A descriptor left open
    stays in non-blocking mode.  No callback is called on the way. *)
Theorem redirect_then_release (b : backend) (fuel : nat) (fd_in fd_out : Z)
    (cb : AsyncIOEvent) (ud : Z) (fl_in fl_out : Z) (closeIn closeOut : bool)
    (r : reactor) :
  heap_fresh r ->
  open_fds r !! fd_in = Some (mkFdState fl_in None) -> fl_in <> -1 ->
  open_fds r !! fd_out = Some (mkFdState fl_out None) -> fl_out <> -1 ->
  0 <= fd_in -> 0 <= fd_out -> fd_in <> fd_out ->
  exists (r1 r2 : reactor),
    let rd := mkRedirectHandles fd_in (Some (next_alloc r))
                                fd_out (Some (S (next_alloc r))) in
    AsyncIO_Redirect b fuel fd_in fd_out cb ud r = (Ok (Some rd), r1) /\
    read_interest b fd_in r1 = true /\
    AsyncIO_ReleaseRedirect b fuel (Some rd) closeIn closeOut r1
    = (Ok tt, r2) /\
    heap r2 = heap r /\
    read_interest b fd_in r2 = false /\
    open_fds r2 !! fd_in
    = (if closeIn then None
       else Some (mkFdState (Z.lor fl_in O_NONBLOCK) None)) /\
    open_fds r2 !! fd_out
    = (if closeOut then None
       else Some (mkFdState (Z.lor fl_out O_NONBLOCK) None)) /\
    delivered r2 = delivered r.
Proof.
  intros Hfresh Hin Hfl_in Hout Hfl_out Hpos_in Hpos_out Hne.
  set (p := next_alloc r).
  set (o_in := mkAsyncIO fd_in kAIO_TYPE_CONNECTION cb ud false false 0 None).
  set (o_out := mkAsyncIO fd_out kAIO_TYPE_CONNECTION cb ud false false 0 None).
  destruct (new_connection_ok b fd_in cb ud fl_in r Hin Hfl_in)
    as (ra & Hrun_a & Hheap_a & Hnext_a & Hopen_a & Hdel_a & Hint_a).
  fold p o_in in Hrun_a, Hheap_a, Hnext_a.
  destruct (notify_read_ok b ra p o_in)
    as (rb & Hrun_b & Hheap_b & Hnext_b & Hopen_b & Hdel_b & Hint_b);
    [ rewrite Hheap_a; apply lookup_insert_eq
    | rewrite Hopen_a, lookup_insert_eq; by eexists
    | exact Hpos_in | ].
  cbn [fd o_in] in Hint_b.
  destruct (new_connection_ok b fd_out cb ud fl_out rb)
    as (rc & Hrun_c & Hheap_c & Hnext_c & Hopen_c & Hdel_c & Hint_c);
    [ rewrite Hopen_b, Hopen_a; by rewrite lookup_insert_ne by congruence
    | exact Hfl_out | ].
  rewrite Hnext_b, Hnext_a in Hrun_c, Hheap_c, Hnext_c. fold o_out in Hheap_c.
  destruct (release_connection b rc p (set_notifyOnRead true o_in) fuel closeIn)
    as (rd & Hrun_d & Hheap_d & Hnext_d & Hint_d & Hopen_d & Hdel_d & Hoth_d);
    [ rewrite Hheap_c, Hheap_b;
      rewrite lookup_insert_ne by lia; apply lookup_insert_eq
    | reflexivity | ].
  cbn [fd set_notifyOnRead o_in notifyOnRead] in Hint_d, Hopen_d, Hoth_d.
  destruct (release_connection b rd (S p) o_out fuel closeOut)
    as (re & Hrun_e & Hheap_e & Hnext_e & _ & Hopen_e & Hdel_e & Hoth_e);
    [ rewrite Hheap_d, Hheap_c;
      rewrite lookup_delete_ne by lia; apply lookup_insert_eq
    | reflexivity | ].
  cbn [fd o_out] in Hopen_e, Hoth_e.
  assert (Hvin : IsValidFD fd_in = true) by (apply Z.leb_le; lia).
  assert (Hvout : IsValidFD fd_out = true) by (apply Z.leb_le; lia).
  rewrite Hvin, andb_true_r in Hopen_d. rewrite Hvout, andb_true_r in Hopen_e.
  exists rc, re. cbn zeta.
  split.
  { unfold AsyncIO_Redirect.
    rewrite (run_bind _ _ _ _ _ Hrun_a). cbv beta iota.
    rewrite (run_bind _ _ _ _ _ Hrun_b). cbn [Z.eqb negb].
    rewrite (run_bind _ _ _ _ _ Hrun_c). reflexivity. }
  split; [by rewrite Hint_c|].
  split.
  { unfold AsyncIO_ReleaseRedirect. cbn [anio_in anio_out].
    rewrite (run_bind _ _ _ _ _ (forget_run _ _ _ _ _ _ Hrun_d)).
    by apply forget_run. }
  split.
  { rewrite Hheap_e, Hheap_d, Hheap_c, Hheap_b, Hheap_a.
    apply heap_after_redirect_and_release; apply Hfresh; subst p; lia. }
  split; [rewrite Hoth_e by congruence; by apply Hint_d|].
  split.
  { rewrite Hopen_e, Hopen_d, Hopen_c, Hopen_b, Hopen_a.
    destruct closeIn, closeOut;
      rewrite ?(lookup_delete_ne _ fd_out fd_in) by congruence;
      rewrite ?lookup_delete_eq; try reflexivity;
      rewrite ?(lookup_insert_ne _ fd_out fd_in) by congruence;
      by rewrite lookup_insert_eq. }
  split.
  { rewrite Hopen_e, Hopen_d, Hopen_c.
    destruct closeIn, closeOut; rewrite ?lookup_delete_eq; try reflexivity;
      rewrite ?(lookup_delete_ne _ fd_in fd_out) by congruence;
      by rewrite lookup_insert_eq. }
  by rewrite Hdel_e, Hdel_d, Hdel_c, Hdel_b, Hdel_a.
Qed.

Lemma redirect_then_release_witness :
  heap_fresh (two_descriptors 3 4) /\
  exists r1 r2,
    AsyncIO_Redirect KQueue 8 3 4 no_callback 0 (two_descriptors 3 4)
    = (Ok (Some (mkRedirectHandles 3 (Some 1%nat) 4 (Some 2%nat))), r1) /\
    read_interest KQueue 3 r1 = true /\
    AsyncIO_ReleaseRedirect KQueue 8
      (Some (mkRedirectHandles 3 (Some 1%nat) 4 (Some 2%nat))) true false r1
    = (Ok tt, r2) /\
    heap r2 = ∅ /\
    open_fds r2 !! 3 = None /\
    open_fds r2 !! 4 = Some (mkFdState (Z.lor 2 O_NONBLOCK) None).
Proof.
  assert (Hfresh : heap_fresh (two_descriptors 3 4))
    by (intros q _; apply lookup_empty).
  split; [exact Hfresh|].
  destruct (redirect_then_release KQueue 8 3 4 no_callback 0 2 2 true false
              (two_descriptors 3 4) Hfresh)
    as (r1 & r2 & Hmake & Harmed & Hrel & Hheap & _ & Hin & Hout & _);
    [ vm_compute; reflexivity | discriminate | vm_compute; reflexivity
    | discriminate | lia | lia | discriminate | ].
  exists r1, r2.
  split; [exact Hmake|]. split; [exact Harmed|]. split; [exact Hrel|].
  split; [exact Hheap|]. split; [exact Hin|exact Hout].
Defined.

(** X15.  A redirect that cannot be made leaves nothing behind.  When the
    input descriptor is not open, [AsyncIO_Redirect] returns [NULL] with
    the handles, the open descriptors and the read interest as they were.
    When the input is fine and the output descriptor is not open, the
    input handle already made and armed is released again: the function
    returns [NULL], the handles are those from before, nothing watches the
    input for reading, and the input is not closed -- but it stays in
    non-blocking mode. *)
Theorem redirect_failure_leaves_nothing (b : backend) (fuel : nat)
    (fd_in fd_out : Z) (cb : AsyncIOEvent) (ud : Z) (r : reactor) :
  heap_fresh r ->
  (open_fds r !! fd_in = None ->
   exists r',
     AsyncIO_Redirect b fuel fd_in fd_out cb ud r = (Ok None, r') /\
     heap r' = heap r /\ open_fds r' = open_fds r /\
     delivered r' = delivered r /\
     forall j, read_interest b j r' = read_interest b j r) /\
  (forall fl_in,
     open_fds r !! fd_in = Some (mkFdState fl_in None) -> fl_in <> -1 ->
     0 <= fd_in -> open_fds r !! fd_out = None ->
     exists r',
       AsyncIO_Redirect b fuel fd_in fd_out cb ud r = (Ok None, r') /\
       heap r' = heap r /\
       open_fds r'
       = <[fd_in := mkFdState (Z.lor fl_in O_NONBLOCK) None]> (open_fds r) /\
       delivered r' = delivered r /\
       read_interest b fd_in r' = false).
Proof.
  intros Hfresh. split.
  - intros Hin.
    destruct (new_connection_refused b fd_in cb ud r Hin)
      as (ra & Hrun_a & Hheap_a & Hopen_a & Hdel_a & Hint_a);
      [by apply Hfresh|].
    eexists. split.
    { unfold AsyncIO_Redirect.
      rewrite (run_bind _ _ _ _ _ Hrun_a). cbv beta iota.
      erewrite run_bind by reflexivity. reflexivity. }
    fields. split; [exact Hheap_a|]. split; [exact Hopen_a|].
    split; [exact Hdel_a|].
    intros j. rewrite <- Hint_a. by destruct b.
  - intros fl_in Hin Hfl_in Hpos_in Hout.
    set (p := next_alloc r).
    set (o_in := mkAsyncIO fd_in kAIO_TYPE_CONNECTION cb ud false false 0 None).
    destruct (new_connection_ok b fd_in cb ud fl_in r Hin Hfl_in)
      as (ra & Hrun_a & Hheap_a & Hnext_a & Hopen_a & Hdel_a & Hint_a).
    fold p o_in in Hrun_a, Hheap_a, Hnext_a.
    destruct (notify_read_ok b ra p o_in)
      as (rb & Hrun_b & Hheap_b & Hnext_b & Hopen_b & Hdel_b & Hint_b);
      [ rewrite Hheap_a; apply lookup_insert_eq
      | rewrite Hopen_a, lookup_insert_eq; by eexists
      | exact Hpos_in | ].
    assert (Hne : fd_out <> fd_in) by (intros ->; congruence).
    destruct (new_connection_refused b fd_out cb ud rb)
      as (rc & Hrun_c & Hheap_c & Hopen_c & Hdel_c & Hint_c);
      [ rewrite Hopen_b, Hopen_a; by rewrite lookup_insert_ne by congruence
      | rewrite Hnext_b, Hnext_a, Hheap_b, Hheap_a;
        rewrite !lookup_insert_ne by lia; apply Hfresh; subst p; lia | ].
    set (rc' := with_checks_failed (S (checks_failed rc)) rc).
    destruct (release_connection b rc' p (set_notifyOnRead true o_in) fuel false)
      as (rd & Hrun_d & Hheap_d & _ & Hint_d & Hopen_d & Hdel_d & _);
      [ subst rc'; fields; rewrite Hheap_c, Hheap_b; apply lookup_insert_eq
      | reflexivity | ].
    cbn [fd set_notifyOnRead o_in notifyOnRead andb] in Hint_d, Hopen_d.
    exists rd. split.
    { unfold AsyncIO_Redirect.
      rewrite (run_bind _ _ _ _ _ Hrun_a). cbv beta iota.
      rewrite (run_bind _ _ _ _ _ Hrun_b). cbn [Z.eqb negb].
      rewrite (run_bind _ _ _ _ _ Hrun_c). cbv beta iota.
      erewrite run_bind by reflexivity. fold rc'.
      by rewrite (run_bind _ _ _ _ _ (forget_run _ _ _ _ _ _ Hrun_d)). }
    split.
    { rewrite Hheap_d. subst rc'. fields. rewrite Hheap_c, Hheap_b, Hheap_a.
      rewrite delete_insert_eq, delete_insert_eq. apply delete_id.
      apply Hfresh. subst p. lia. }
    split; [rewrite Hopen_d; subst rc'; fields;
            by rewrite Hopen_c, Hopen_b, Hopen_a|].
    split; [rewrite Hdel_d; subst rc'; fields;
            by rewrite Hdel_c, Hdel_b, Hdel_a|].
    by apply Hint_d.
Qed.

Lemma redirect_failure_leaves_nothing_witness :
  heap_fresh (two_descriptors 3 3) /\
  exists r',
    AsyncIO_Redirect Select 8 3 4 no_callback 0 (two_descriptors 3 3)
    = (Ok None, r') /\
    heap r' = ∅ /\ read_interest Select 3 r' = false.
Proof.
  assert (Hfresh : heap_fresh (two_descriptors 3 3))
    by (intros q _; apply lookup_empty).
  split; [exact Hfresh|].
  destruct (proj2 (redirect_failure_leaves_nothing Select 8 3 4 no_callback 0
                     (two_descriptors 3 3) Hfresh) 2)
    as (r' & Hrun & Hheap & _ & _ & Hint);
    [ vm_compute; reflexivity | discriminate | lia | vm_compute; reflexivity | ].
  exists r'. split; [exact Hrun|]. split; [exact Hheap|exact Hint].
Defined.

(** ** The pump: copying, blocking, bounds *)

Module PumpFacts.
Import Redirect.
Import RedirectFacts.

Lemma takes_all_inv (o : output_item) :
  takes_all o = true -> exists k, o = OutAccept k /\ (buffer_size <= k)%nat.
Proof.
  destruct o as [k|e]; [|discriminate]. intros H. exists k.
  split; [reflexivity|]. by apply Nat.leb_le.
Qed.

(** A [read] that finds nothing ends the loop with the input armed. *)
Lemma pump_step_nothing_to_read (w : world) :
  state (redir w) = REDIR_STATE_WAITING_FOR_DATA -> input w = [] ->
  pump_step w
  = (mkWorld (redir w) [] (output w) (written w)
       (log w ++ [DidRead (-1); ArmedRead]), true).
Proof.
  intros Hs Hi. unfold pump_step. rewrite Hs, Hi. cbn [sys_read].
  cbn [Z.ltb Z.compare]. rewrite bool_decide_eq_true_2 by reflexivity.
  unfold logged. cbn [redir input output written log].
  rewrite <- app_assoc.
  destruct w as [[s bf n] i o wr lg]. cbn in Hs |- *. by subst.
Qed.

(** A [write] that would block ends the loop with the output armed, the
    buffer and its count kept. *)
Lemma pump_step_write_blocked (w : world) (rest : list output_item) :
  state (redir w) = REDIR_STATE_SENDING ->
  output w = OutError EWOULDBLOCK :: rest ->
  pump_step w
  = (mkWorld (redir w) (input w) rest (written w)
       (log w ++ [DidWrite (num_in_buffer (redir w)) (-1); ArmedWrite]), true).
Proof.
  intros Hs Ho. unfold pump_step. rewrite Hs, Ho. cbn [sys_write].
  cbn [Z.ltb Z.compare]. rewrite bool_decide_eq_true_2 by reflexivity.
  unfold logged. cbn [redir input output written log].
  by rewrite <- app_assoc, app_nil_r.
Qed.

(** If the pump copies [chunks] when it is waiting for data, it sends what
    is pending and copies [chunks] when it is sending. *)
Lemma pump_copies_sending (chunks : list (list byte)) :
  (forall w : world,
      state (redir w) = REDIR_STATE_WAITING_FOR_DATA ->
      length (buffer (redir w)) = buffer_size ->
      input w = map InData chunks ->
      Forall (fun o => takes_all o = true) (output w) ->
      (length chunks <= length (output w))%nat ->
      pump_copies (2 * length chunks + 1) w (concat chunks)
        (concat (map chunk_log chunks))) ->
  forall w : world,
    state (redir w) = REDIR_STATE_SENDING ->
    length (buffer (redir w)) = buffer_size ->
    0 < num_in_buffer (redir w) <= Z.of_nat buffer_size ->
    input w = map InData chunks ->
    Forall (fun o => takes_all o = true) (output w) ->
    (length chunks + 1 <= length (output w))%nat ->
    pump_copies (2 * length chunks + 2) w
      (firstn (Z.to_nat (num_in_buffer (redir w))) (buffer (redir w))
       ++ concat chunks)
      (sent_log (num_in_buffer (redir w)) ++ concat (map chunk_log chunks)).
Proof.
  intros HW w Hs Hbuf Hn Hin Hout Hlen.
  destruct (output w) as [|o outs] eqn:Ho; [cbn in Hlen; lia|].
  apply Forall_cons in Hout as [Ho1 Houts].
  apply takes_all_inv in Ho1 as (m & -> & Hm).
  pose proof (pump_step_full_write w m outs Hs Ho) as Hstep.
  rewrite Hbuf in Hstep. specialize (Hstep ltac:(lia) ltac:(lia)).
  match type of Hstep with _ = (?x, _) => set (w1 := x) in * end.
  destruct (HW w1) as (w' & Hrun & Hwr & Hin' & Hs' & Hbuf' & Hlog);
    [reflexivity|exact Hbuf|exact Hin|exact Houts|cbn in Hlen |- *; lia|].
  exists w'. split.
  { replace (2 * length chunks + 2)%nat with (S (2 * length chunks + 1)) by lia.
    cbn [redirect_Pump]. rewrite Hstep. exact Hrun. }
  split; [rewrite Hwr; cbn [w1 written]; by rewrite <- app_assoc|].
  split; [exact Hin'|]. split; [exact Hs'|]. split; [exact Hbuf'|].
  rewrite Hlog. cbn [w1 log]. unfold sent_log. by rewrite <- !app_assoc.
Qed.

(** With an output that takes all it is offered, the pump copies every
    chunk of the input. *)
Lemma pump_copies_waiting (chunks : list (list byte)) :
  Forall (fun c => (0 < length c <= buffer_size)%nat) chunks ->
  forall w : world,
    state (redir w) = REDIR_STATE_WAITING_FOR_DATA ->
    length (buffer (redir w)) = buffer_size ->
    input w = map InData chunks ->
    Forall (fun o => takes_all o = true) (output w) ->
    (length chunks <= length (output w))%nat ->
    pump_copies (2 * length chunks + 1) w (concat chunks)
      (concat (map chunk_log chunks)).
Proof.
  induction chunks as [|c chunks IH]; intros Hchunks w Hs Hbuf Hin Hout Hlen.
  - exists (mkWorld (redir w) [] (output w) (written w)
              (log w ++ [DidRead (-1); ArmedRead])).
    split; [cbn [length Nat.mul Nat.add redirect_Pump];
            by rewrite (pump_step_nothing_to_read w Hs Hin)|].
    cbn [written input redir log concat map].
    split; [by rewrite app_nil_r|]. by repeat split.
  - apply Forall_cons in Hchunks as [Hc Hchunks]. cbn [map] in Hin.
    pose proof (pump_step_read_data w c (map InData chunks) Hs Hin Hc) as Hstep.
    match type of Hstep with _ = (?x, _) => set (w1 := x) in * end.
    destruct (pump_copies_sending chunks (IH Hchunks) w1)
      as (w' & Hrun & Hwr & Hin' & Hs' & Hbuf' & Hlog).
    + reflexivity.
    + cbn [w1 redir buffer]. rewrite length_app, length_skipn. lia.
    + cbn [w1 redir num_in_buffer]. lia.
    + reflexivity.
    + exact Hout.
    + cbn [w1 output]. cbn [length] in Hlen. lia.
    + exists w'. split.
      { replace (2 * length (c :: chunks) + 1)%nat
          with (S (2 * length chunks + 2)) by (cbn [length]; lia).
        cbn [redirect_Pump]. rewrite Hstep. exact Hrun. }
      split.
      { rewrite Hwr. cbn [w1 written redir num_in_buffer buffer concat].
        rewrite Nat2Z.id, firstn_app, Nat.sub_diag, firstn_all, firstn_O.
        by rewrite app_nil_r. }
      split; [exact Hin'|]. split; [exact Hs'|]. split; [exact Hbuf'|].
      rewrite Hlog. cbn [w1 log redir num_in_buffer map concat].
      unfold chunk_log at 2. by rewrite <- !app_assoc.
Qed.

(** X16.  With an output that takes all it is offered, the pump copies
    its input.  Started in [REDIR_STATE_WAITING_FOR_DATA] with the chunks
    that successive [read]s will return (each of 1 to 512 bytes) and an
    output that accepts every [write] in full, [redirect_Pump] returns
    after two turns per chunk and one more; the output has then received
    the chunks' bytes in order, nothing more and nothing less; the owner
    was told [kAIO_REDIRECT_DATA_WRITTEN] once per chunk, after its
    [write]; and the last thing the pump did, the input being drained, was
    to ask for [kAIO_DATA_AVAILABLE] again. *)
Theorem pump_copies_input (w : world) (chunks : list (list byte)) :
  state (redir w) = REDIR_STATE_WAITING_FOR_DATA ->
  length (buffer (redir w)) = buffer_size ->
  input w = map InData chunks ->
  Forall (fun c => (0 < length c <= buffer_size)%nat) chunks ->
  Forall (fun o => takes_all o = true) (output w) ->
  (length chunks <= length (output w))%nat ->
  exists w',
    redirect_Pump (2 * length chunks + 1) w = Some w' /\
    written w' = written w ++ concat chunks /\
    input w' = [] /\
    state (redir w') = REDIR_STATE_WAITING_FOR_DATA /\
    log w' = log w ++ concat (map chunk_log chunks)
                   ++ [DidRead (-1); ArmedRead].
Proof.
  intros Hs Hbuf Hin Hchunks Hout Hlen.
  destruct (pump_copies_waiting chunks Hchunks w Hs Hbuf Hin Hout Hlen)
    as (w' & Hrun & Hwr & Hin' & Hs' & _ & Hlog).
  exists w'. split; [exact Hrun|]. split; [exact Hwr|].
  split; [exact Hin'|]. split; [exact Hs'|exact Hlog].
Qed.

Lemma pump_copies_input_witness :
  exists w',
    redirect_Pump 5
      (new_world [InData (list_byte_of_string "AB");
                  InData (list_byte_of_string "CDE")]
                 [OutAccept 512; OutAccept 600]) = Some w' /\
    written w' = list_byte_of_string "ABCDE".
Proof.
  destruct (pump_copies_input
              (new_world [InData (list_byte_of_string "AB");
                          InData (list_byte_of_string "CDE")]
                         [OutAccept 512; OutAccept 600])
              [list_byte_of_string "AB"; list_byte_of_string "CDE"])
    as (w' & Hrun & Hwr & _);
    [ reflexivity | reflexivity | reflexivity
    | repeat constructor; cbn; unfold buffer_size; lia
    | repeat constructor
    | cbn; lia | ].
  exists w'. split; [exact Hrun|exact Hwr].
Defined.

(** X17.  A [write] that would block loses nothing.  The pump has read a
    chunk and the output answers [EWOULDBLOCK]: [redirect_Pump] asks for
    [kAIO_READY_FOR_WRITE] on the output and returns, with nothing
    written, the chunk kept in the buffer, and without telling the owner
    anything.  When that event arrives, [redirect_AsyncIOEvent] runs the
    pump again, which sends the kept chunk first and then copies the rest
    of the input: the output receives every byte once, in order. *)
Theorem pump_blocked_write_resumes (w : world) (c : list byte)
    (chunks : list (list byte)) (outs : list output_item) :
  state (redir w) = REDIR_STATE_WAITING_FOR_DATA ->
  length (buffer (redir w)) = buffer_size ->
  input w = map InData (c :: chunks) ->
  Forall (fun c => (0 < length c <= buffer_size)%nat) (c :: chunks) ->
  output w = OutError EWOULDBLOCK :: outs ->
  Forall (fun o => takes_all o = true) outs ->
  (length chunks + 1 <= length outs)%nat ->
  exists w1 w2,
    redirect_Pump 2 w = Some w1 /\
    written w1 = written w /\
    log w1 = log w ++ [DidRead (Z.of_nat (length c));
                       DidWrite (Z.of_nat (length c)) (-1); ArmedWrite] /\
    redirect_AsyncIOEvent (2 * length chunks + 2) kAIO_READY_FOR_WRITE w1
    = Some w2 /\
    written w2 = written w ++ c ++ concat chunks /\
    log w2 = log w1 ++ sent_log (Z.of_nat (length c))
                    ++ concat (map chunk_log chunks)
                    ++ [DidRead (-1); ArmedRead].
Proof.
  intros Hs Hbuf Hin Hchunks Hout Houts Hlen.
  apply Forall_cons in Hchunks as [Hc Hchunks]. cbn [map] in Hin.
  pose proof (pump_step_read_data w c (map InData chunks) Hs Hin Hc) as Hstep1.
  match type of Hstep1 with _ = (?x, _) => set (wa := x) in * end.
  pose proof (pump_step_write_blocked wa outs eq_refl Hout) as Hstep2.
  match type of Hstep2 with _ = (?x, _) => set (w1 := x) in * end.
  destruct (pump_copies_sending chunks (pump_copies_waiting chunks Hchunks) w1)
    as (w2 & Hrun & Hwr & _ & _ & _ & Hlog).
  - reflexivity.
  - cbn [w1 wa redir buffer]. rewrite length_app, length_skipn. lia.
  - cbn [w1 wa redir num_in_buffer]. lia.
  - reflexivity.
  - exact Houts.
  - exact Hlen.
  - exists w1, w2.
    split; [cbn [redirect_Pump]; by rewrite Hstep1, Hstep2|].
    split; [reflexivity|].
    split; [cbn [w1 wa log redir num_in_buffer]; by rewrite <- app_assoc|].
    split; [exact Hrun|].
    split.
    { rewrite Hwr. cbn [w1 wa written redir num_in_buffer buffer].
      rewrite Nat2Z.id, firstn_app, Nat.sub_diag, firstn_all, firstn_O.
      by rewrite app_nil_r. }
    rewrite Hlog. cbn [w1 wa redir num_in_buffer]. by rewrite <- app_assoc.
Qed.

Lemma pump_blocked_write_resumes_witness :
  exists w1 w2,
    redirect_Pump 2
      (new_world [InData (list_byte_of_string "AB");
                  InData (list_byte_of_string "CDE")]
                 [OutError EWOULDBLOCK; OutAccept 512; OutAccept 512])
    = Some w1 /\
    written w1 = [] /\
    redirect_AsyncIOEvent 4 kAIO_READY_FOR_WRITE w1 = Some w2 /\
    written w2 = list_byte_of_string "ABCDE".
Proof.
  destruct (pump_blocked_write_resumes
              (new_world [InData (list_byte_of_string "AB");
                          InData (list_byte_of_string "CDE")]
                         [OutError EWOULDBLOCK; OutAccept 512; OutAccept 512])
              (list_byte_of_string "AB") [list_byte_of_string "CDE"]
              [OutAccept 512; OutAccept 512])
    as (w1 & w2 & Hrun1 & Hwr1 & _ & Hrun2 & Hwr2 & _);
    [ reflexivity | reflexivity | reflexivity
    | repeat constructor; cbn; unfold buffer_size; lia
    | reflexivity
    | repeat constructor
    | cbn; lia | ].
  exists w1, w2.
  split; [exact Hrun1|]. split; [exact Hwr1|]. split; [exact Hrun2|exact Hwr2].
Defined.

End PumpFacts.


Module PumpBounds.
Import Redirect.

Lemma in_bounds_logged (a : action) (w : world) :
  write_in_bounds a -> pump_in_bounds w -> pump_in_bounds (logged a w).
Proof.
  intros Ha (Hbuf & Hn & Hlog). split; [exact Hbuf|]. split; [exact Hn|].
  cbn [logged log]. apply Forall_app. split; [exact Hlog|].
  by apply Forall_cons.
Qed.

Lemma memmove_length (buf : list byte) (from n : nat) :
  (from + n <= length buf)%nat -> length (memmove buf from n) = length buf.
Proof.
  intros H. unfold memmove.
  rewrite length_app, length_firstn, !length_skipn. lia.
Qed.

(** One turn of the loop keeps the pump within its buffer. *)
Lemma pump_step_in_bounds (w : world) :
  pump_in_bounds w -> pump_in_bounds (fst (pump_step w)).
Proof.
  intros (Hbuf & Hn & Hlog). unfold pump_step.
  destruct w as [[s bf n] inp out wr lg].
  cbn [redir state buffer num_in_buffer input output written log] in *.
  destruct s.
  - (* a read *)
    clear Hn.
    assert (Hread : forall num_in buf' inp',
              length buf' = buffer_size ->
              pump_in_bounds
                (logged (DidRead num_in)
                   (mkWorld (mkRedirect REDIR_STATE_WAITING_FOR_DATA buf' n)
                            inp' out wr lg))).
    { intros num_in buf' inp' Hb. apply in_bounds_logged; [exact I|].
      split; [exact Hb|]. split; [discriminate|exact Hlog]. }
    destruct inp as [|[bytes| |e] rest]; cbn [sys_read].
    + cbn [Z.ltb Z.compare]. rewrite bool_decide_eq_true_2 by reflexivity.
      cbn [fst]. apply in_bounds_logged; [exact I|]. by apply Hread.
    + set (got := firstn buffer_size bytes).
      assert (Hgot : (length got <= buffer_size)%nat)
        by (subst got; rewrite length_firstn; lia).
      assert (Hb : length (got ++ skipn (length got) bf) = buffer_size)
        by (rewrite length_app, length_skipn; lia).
      assert ((Z.of_nat (length got) <? 0) = false) as ->
        by (apply Z.ltb_ge; lia).
      destruct (Z.of_nat (length got) =? 0) eqn:Hz; cbn [fst].
      * by apply Hread.
      * apply Z.eqb_neq in Hz.
        split; [exact Hb|].
        split; [intros _; cbn [redir num_in_buffer]; lia|].
        cbn [logged log]. apply Forall_app. split; [exact Hlog|].
        by apply Forall_cons.
    + cbn [Z.ltb Z.eqb Z.compare fst]. by apply Hread.
    + cbn [Z.ltb Z.compare].
      destruct (bool_decide (Some e = Some EWOULDBLOCK)); cbn [fst];
        (apply in_bounds_logged; [exact I|]); by apply Hread.
  - (* a write *)
    specialize (Hn eq_refl).
    assert (Hwrite : forall num_out out' wr',
              num_out <= n ->
              pump_in_bounds
                (logged (DidWrite n num_out)
                   (mkWorld (mkRedirect REDIR_STATE_SENDING bf n)
                            inp out' wr' lg))).
    { intros num_out out' wr' Hle. apply in_bounds_logged; [split; lia|].
      split; [exact Hbuf|]. split; [intros _; exact Hn|exact Hlog]. }
    destruct out as [|[k|e] rest]; cbn [sys_write].
    + cbn [Z.ltb Z.compare]. rewrite bool_decide_eq_true_2 by reflexivity.
      cbn [fst]. apply in_bounds_logged; [exact I|]. apply Hwrite. lia.
    + set (taken := firstn (Nat.min k (Z.to_nat n)) bf).
      assert (Htaken : length taken = Nat.min k (Z.to_nat n))
        by (subst taken; rewrite length_firstn; lia).
      assert ((Z.of_nat (length taken) <? 0) = false) as ->
        by (apply Z.ltb_ge; lia).
      destruct (Z.of_nat (length taken) <? n) eqn:Hpart; cbn [fst].
      * apply Z.ltb_lt in Hpart.
        destruct (Hwrite (Z.of_nat (length taken)) rest (wr ++ taken))
          as (_ & _ & Hlog'); [lia|].
        split; [|split; [intros _; exact Hn|exact Hlog']].
        cbn [redir buffer logged]. rewrite memmove_length; [exact Hbuf|]. lia.
      * apply Z.ltb_ge in Hpart.
        destruct (Hwrite (Z.of_nat (length taken)) rest (wr ++ taken))
          as (_ & _ & Hlog'); [lia|].
        split; [exact Hbuf|]. split; [discriminate|].
        cbn [logged log] in Hlog' |- *.
        apply Forall_app. split; [exact Hlog'|]. by apply Forall_cons.
    + cbn [Z.ltb Z.compare].
      destruct (bool_decide (Some e = Some EWOULDBLOCK)); cbn [fst];
        (apply in_bounds_logged; [exact I|]); apply Hwrite; lia.
Qed.

Lemma pump_turns_in_bounds (n : nat) :
  forall w, pump_in_bounds w -> pump_in_bounds (pump_turns n w).
Proof.
  induction n as [|n IH]; intros w Hw; [exact Hw|].
  cbn [pump_turns]. pose proof (pump_step_in_bounds w Hw) as Hstep.
  destruct (pump_step w) as [w' done]. cbn [fst] in Hstep.
  destruct done; [exact Hstep|by apply IH].
Qed.

Lemma redirect_Pump_in_bounds (fuel : nat) :
  forall w w', pump_in_bounds w -> redirect_Pump fuel w = Some w' ->
               pump_in_bounds w'.
Proof.
  induction fuel as [|fuel IH]; intros w w' Hw; [discriminate|].
  cbn [redirect_Pump]. pose proof (pump_step_in_bounds w Hw) as Hstep.
  destruct (pump_step w) as [w1 done]. cbn [fst] in Hstep.
  destruct done; [by intros [= <-]|by apply IH].
Qed.

(** X18.  The pump stays inside its buffer, whatever the descriptors
    do.  Every [read] asks for the buffer's 512 bytes; from a state in
    which the buffer has its 512 bytes and a pending count lies between 1
    and 512 (a new redirect is in such a state), after any number of
    turns of the loop, and whenever [redirect_AsyncIOEvent] returns from
    any event, the buffer still has 512 bytes, the pending count lies
    between 1 and 512, and every [write] made offered between 1 and 512
    bytes and took no more than it was offered.  This holds for every
    mix of short reads, partial writes and errors. *)
Theorem pump_stays_in_buffer (w : world) :
  pump_in_bounds w ->
  (forall n, pump_in_bounds (pump_turns n w)) /\
  (forall fuel eventID w',
      redirect_AsyncIOEvent fuel eventID w = Some w' -> pump_in_bounds w').
Proof.
  intros Hw. split; [intros n; by apply pump_turns_in_bounds|].
  intros fuel eventID w'.
  destruct eventID; cbn [redirect_AsyncIOEvent];
    try (intros [= <-]; first [ exact Hw | by apply in_bounds_logged ]);
    apply redirect_Pump_in_bounds;
    first [ exact Hw | by apply in_bounds_logged ].
Qed.

Lemma pump_stays_in_buffer_witness :
  pump_in_bounds
    (pump_turns 3 (new_world [InData (list_byte_of_string "ABCD")]
                             [OutAccept 2; OutAccept 512])).
Proof.
  apply (pump_stays_in_buffer
           (new_world [InData (list_byte_of_string "ABCD")]
                      [OutAccept 2; OutAccept 512])).
  split; [reflexivity|]. split; [discriminate|constructor].
Defined.

End PumpBounds.

(** ** Timers on the kqueue backend *)

(** The kernel reports a one-shot timer registration to one wait of
    [AsyncIO_Run] and has none at the next. *)
Lemma kqueue_timer_run (ident : Z) (p : nat) (o : OpaqueAsyncIO)
    (fuel : nat) (in_debugger : bool) (r : reactor) :
  heap r !! p = Some o ->
  anioKQ r !! (ident, EVFILT_TIMER) = Some (mkKreg (Some p) true) ->
  callback o kAIO_TIMER_FIRED (Some p) (-1) (userdata o) = Return ->
  exists (r' : reactor) (d : delivery),
    AsyncIO_Run_kqueue fuel in_debugger false false
      (kevent_replies (reported_twice ident EVFILT_TIMER)) r = (Ok 0, r') /\
    delivered r' = delivered r ++ [d] /\
    d_event d = kAIO_TIMER_FIRED /\ d_anio d = Some p /\ d_fd d = -1 /\
    anioKQ r' = delete (ident, EVFILT_TIMER) (anioKQ r) /\
    heap r' = heap r.
Proof.
  intros Hh Hreg Hcb.
  assert (Hwait : kevent_wait 1 None (KReady [(ident, EVFILT_TIMER, false)]) r
                  = (Ok (1, [mkKevent ident EVFILT_TIMER false (Some p)], None),
                     with_anioKQ (delete (ident, EVFILT_TIMER))
                       (with_waited (fun w => w ++ [None]) r))).
  { unfold kevent_wait.
    erewrite run_bind by reflexivity.
    erewrite run_bind;
      [|cbn [kevent_collect]; erewrite run_bind by reflexivity; fields;
        rewrite Hreg; cbn [kr_oneshot kr_udata];
        erewrite run_bind by reflexivity; reflexivity].
    reflexivity. }
  set (r1 := with_anioKQ (delete (ident, EVFILT_TIMER))
               (with_waited (fun w => w ++ [None]) r)) in *.
  set (d := mkDelivery kAIO_TIMER_FIRED (Some p) (-1)
              (notifyOnRead o || read_interest KQueue (fd o)
                                   (with_anioInProgress (Some p) r1))
              (notifyOnWrite o || write_interest KQueue (fd o)
                                    (with_anioInProgress (Some p) r1)) ident).
  set (r2 := with_anioInProgress None
               (with_delivered (fun t => t ++ [d])
                  (with_anioInProgress (Some p) r1))).
  assert (Hdisp : dispatch_kevent fuel 0
                    (mkKevent ident EVFILT_TIMER false (Some p)) r1
                  = (Ok tt, r2)).
  { unfold dispatch_kevent, dispatch_kevent_filter, dispatch_kevent_eof.
    cbn [kv_udata kv_filter kv_ident kv_eof].
    erewrite run_bind by reflexivity.
    erewrite run_bind; [reflexivity|].
    apply invoke_returning; [exact Hh|exact Hcb]. }
  assert (Hwait2 : kevent_wait 1 (Some (mkTimeval 0 0))
                     (KReady [(ident, EVFILT_TIMER, false)]) r2
                   = (Ok (0, [], None),
                      with_waited (fun w => w ++ [Some (mkTimeval 0 0)]) r2)).
  { unfold kevent_wait.
    erewrite run_bind by reflexivity.
    erewrite run_bind;
      [|cbn [kevent_collect]; erewrite run_bind by reflexivity;
        subst r2 r1; fields; rewrite lookup_delete_eq; reflexivity].
    reflexivity. }
  exists (with_anioInProgress None
            (with_waited (fun w => w ++ [Some (mkTimeval 0 0)]) r2)), d.
  split.
  { cbn [reported_twice kevent_replies AsyncIO_Run_kqueue negb andb].
    rewrite (run_bind _ _ _ _ _ Hwait). cbn [Z.eqb andb negb Pos.eqb].
    rewrite (run_bind _ _ _ _ _ Hdisp).
    rewrite (run_bind _ _ _ _ _ Hwait2). reflexivity. }
  subst r2 r1. fields. by repeat split.
Qed.

(** X19.  A timer on the kqueue backend is one-shot and is armed at most
    once.  [AsyncIO_EnableTimer] registers the timer under the handle's
    address and returns 0; enabling it again replaces the registration, so
    that the state is the same as after enabling it once.  When the kernel
    reports the timer, [AsyncIO_Run] calls the callback once with
    [kAIO_TIMER_FIRED] and -1 as the descriptor; a second report finds
    nothing registered: to fire again the timer has to be enabled again.
    [AsyncIO_DisableTimer] on the enabled timer returns 0 and leaves no
    registration. *)
Theorem kqueue_timer_fires_once (p : nat) (o : OpaqueAsyncIO)
    (now now' ms ms' : Z) (maxnfds fuel : nat) (in_debugger : bool)
    (r : reactor) :
  heap r !! p = Some o ->
  callback o kAIO_TIMER_FIRED (Some p) (-1) (userdata o) = Return ->
  exists (r1 r' r2 : reactor) (d : delivery),
    AsyncIO_EnableTimer KQueue now (Some p) ms r = (Ok 0, r1) /\
    AsyncIO_EnableTimer KQueue now' (Some p) ms' r1 = (Ok 0, r1) /\
    AsyncIO_Run KQueue maxnfds fuel in_debugger false
      (reported_twice (Z.of_nat p) EVFILT_TIMER) r1 = (Ok 0, r') /\
    delivered r' = delivered r ++ [d] /\
    d_event d = kAIO_TIMER_FIRED /\ d_anio d = Some p /\ d_fd d = -1 /\
    anioKQ r' !! (Z.of_nat p, EVFILT_TIMER) = None /\
    AsyncIO_DisableTimer KQueue fuel (Some p) r1 = (Ok 0, r2) /\
    anioKQ r2 !! (Z.of_nat p, EVFILT_TIMER) = None /\
    delivered r2 = delivered r.
Proof.
  intros Hh Hcb.
  set (reg := mkKreg (Some p) true).
  set (r1 := with_anioKQ (insert (Z.of_nat p, EVFILT_TIMER) reg) r).
  set (r1' := if AsyncIO_eqb (anioInProgress r1) None then r1
              else with_checks_failed (S (checks_failed r1)) r1).
  assert (Hh1 : heap r1' !! p = Some o)
    by (subst r1' r1; destruct (AsyncIO_eqb _ None); fields; exact Hh).
  assert (Hreg : anioKQ r1' !! (Z.of_nat p, EVFILT_TIMER) = Some reg)
    by (subst r1' r1; destruct (AsyncIO_eqb _ None); fields;
        apply lookup_insert_eq).
  destruct (kqueue_timer_run (Z.of_nat p) p o fuel in_debugger r1' Hh1 Hreg Hcb)
    as (r' & d & Hrun & Hdel & Hk & Ha & Hfd & Hkq & _).
  exists r1, r', (with_anioKQ (delete (Z.of_nat p, EVFILT_TIMER)) r1), d.
  split; [reflexivity|].
  split.
  { unfold AsyncIO_EnableTimer, kevent_add, ident_of, bind, gets, modify, ret.
    subst r1. unfold with_anioKQ. fields. by rewrite insert_insert_eq. }
  split; [rewrite run_kqueue_unfold; exact Hrun|].
  split; [rewrite Hdel; subst r1' r1; by destruct (AsyncIO_eqb _ None)|].
  split; [exact Hk|]. split; [exact Ha|]. split; [exact Hfd|].
  split; [rewrite Hkq; apply lookup_delete_eq|].
  split.
  { unfold AsyncIO_DisableTimer, kevent_delete, ident_of.
    erewrite run_bind
      by (erewrite run_bind by reflexivity; subst r1; fields;
          rewrite lookup_insert_eq; erewrite run_bind by reflexivity;
          reflexivity).
    reflexivity. }
  fields. split; [apply lookup_delete_eq|reflexivity].
Qed.

Lemma kqueue_timer_fires_once_witness :
  exists r1 r' r2 d,
    AsyncIO_EnableTimer KQueue 1000 (Some 1%nat) 50
      (one_kqueue_timer no_callback) = (Ok 0, r1) /\
    AsyncIO_Run KQueue 8 8 false false (reported_twice 1 EVFILT_TIMER) r1
    = (Ok 0, r') /\
    delivered r' = [d] /\ d_fd d = -1 /\
    AsyncIO_DisableTimer KQueue 8 (Some 1%nat) r1 = (Ok 0, r2).
Proof.
  destruct (kqueue_timer_fires_once 1
              (mkAsyncIO (-1) kAIO_TYPE_TIMER no_callback 0 false false 0 None)
              1000 2000 50 60 8 8 false (one_kqueue_timer no_callback))
    as (r1 & r' & r2 & d & Hen & _ & Hrun & Hdel & _ & _ & Hfd & _ & Hdis & _);
    [vm_compute; reflexivity|reflexivity|].
  exists r1, r', r2, d.
  split; [exact Hen|]. split; [exact Hrun|]. split; [exact Hdel|].
  split; [exact Hfd|exact Hdis].
Defined.

(** ** The select loop with nothing to wait for *)

Lemma build_fd_sets_S (n : nat) (rs ws : fd_set) :
  build_fd_sets (S n) rs ws
  = (let i := Z.of_nat n in
     let '(maxFd, rf, wf) := build_fd_sets n rs ws in
     let '(maxFd, rf) :=
       if FD_ISSET i rs then (i, FD_SET i rf) else (maxFd, rf) in
     let '(maxFd, wf) :=
       if FD_ISSET i ws then (i, FD_SET i wf) else (maxFd, wf) in
     (maxFd, rf, wf)).
Proof.
  unfold build_fd_sets. rewrite seq_S, fold_left_app. reflexivity.
Qed.

Lemma build_fd_sets_nothing (n : nat) (rs ws : fd_set) :
  (forall i, (i < n)%nat ->
     FD_ISSET (Z.of_nat i) rs = false /\ FD_ISSET (Z.of_nat i) ws = false) ->
  build_fd_sets n rs ws = (-1, FD_ZERO, FD_ZERO).
Proof.
  induction n as [|n IH]; intros H; [reflexivity|].
  rewrite build_fd_sets_S, IH by (intros i Hi; apply H; lia).
  cbv zeta. destruct (H n ltac:(lia)) as [Hr Hw]. by rewrite Hr, Hw.
Qed.

(** X20.  The select loop does not wait when there is nothing to wait
    for.  With no descriptor below [LWIP_SELECT_MAXNFDS] armed for
    reading or writing and no timer enabled, [AsyncIO_Run] logs a failed
    [require] and returns -1 at once, for either value of [keepRunning]:
    [select] is not called and no callback runs.  A descriptor numbered
    [LWIP_SELECT_MAXNFDS] or more does not count: the loop that builds the
    sets for [select] never looks at it, armed or not. *)
Theorem run_select_nothing_to_wait_for (maxnfds fuel : nat)
    (in_debugger keepRunning : bool) (env : environment) (r : reactor) :
  nothing_armed maxnfds r ->
  enabled_timers r = None ->
  select_replies env <> [] ->
  exists r',
    AsyncIO_Run Select maxnfds fuel in_debugger keepRunning env r
    = (Ok (-1), r') /\
    waited r' = waited r /\ delivered r' = delivered r /\
    heap r' = heap r /\
    anioReadSet r' = anioReadSet r /\ anioWriteSet r' = anioWriteSet r /\
    (checks_failed r < checks_failed r')%nat.
Proof.
  intros Hnone Htimers Henv.
  destruct (select_replies env) as [|[now reply] rest] eqn:Eenv; [done|].
  set (r0 := if AsyncIO_eqb (anioInProgress r) None then r
             else with_checks_failed (S (checks_failed r)) r).
  assert (Hrs : anioReadSet r0 = anioReadSet r)
    by (subst r0; by destruct (AsyncIO_eqb _ None)).
  assert (Hws : anioWriteSet r0 = anioWriteSet r)
    by (subst r0; by destruct (AsyncIO_eqb _ None)).
  assert (Het : enabled_timers r0 = None)
    by (subst r0; by destruct (AsyncIO_eqb _ None)).
  assert (Hcf : (checks_failed r <= checks_failed r0)%nat)
    by (subst r0; destruct (AsyncIO_eqb _ None); fields; lia).
  exists (with_anioInProgress None
            (with_checks_failed (S (checks_failed r0))
               (with_aio_next_enabled_timer None r0))).
  split.
  { unfold AsyncIO_Run.
    erewrite run_bind by reflexivity.
    erewrite run_bind by apply check_run. fold r0.
    rewrite Eenv. cbn [AsyncIO_Run_select].
    erewrite run_bind by reflexivity.
    erewrite run_bind by reflexivity.
    rewrite Hrs, Hws, (build_fd_sets_nothing maxnfds _ _ Hnone).
    erewrite run_bind by reflexivity.
    erewrite run_bind
      by (unfold AsyncIO_GetNextTimerFireTime;
          erewrite run_bind by reflexivity; fields; rewrite Het;
          destruct fuel; reflexivity).
    erewrite run_bind by reflexivity.
    reflexivity. }
  fields. subst r0.
  destruct (AsyncIO_eqb (anioInProgress r) None); fields;
    repeat split; lia.
Qed.

Lemma run_select_nothing_to_wait_for_witness :
  exists r',
    AsyncIO_Run Select 8 8 false true
      (mkEnvironment [] [(1000, SelReady 8 0)])
      (with_anioReadSet (FD_SET 9) (one_connection Select 9 no_callback))
    = (Ok (-1), r') /\
    waited r' = [] /\ delivered r' = [].
Proof.
  destruct (run_select_nothing_to_wait_for 8 8 false true
              (mkEnvironment [] [(1000, SelReady 8 0)])
              (with_anioReadSet (FD_SET 9)
                 (one_connection Select 9 no_callback)))
    as (r' & Hrun & Hw & Hd & _).
  - intros i Hi.
    do 8 (destruct i as [|i]; [split; vm_compute; reflexivity|]). lia.
  - vm_compute; reflexivity.
  - discriminate.
  - exists r'. split; [exact Hrun|]. split; [exact Hw|exact Hd].
Defined.

(** * The clock *)

Lemma wrap64_small (z : Z) : 0 <= z < 18446744073709551616 -> wrap64 z = z.
Proof. intros H. unfold wrap64. by apply Z.mod_small. Qed.

Lemma NanosecondCounter_reading (t : timespec) :
  clock_reading t ->
  NanosecondCounter t = ts_sec t * 1000000000 + ts_nsec t.
Proof.
  intros (Hs & Hn & Hfit). unfold NanosecondCounter. cbv zeta.
  rewrite (wrap64_small (ts_sec t)) by nia.
  rewrite (wrap64_small (ts_sec t * 1000000000)) by nia.
  apply wrap64_small. nia.
Qed.

Lemma NanosecondsToTimespec_fields (ns : Z) :
  0 <= ns < 18446744073709551616 ->
  NanosecondsToTimespec ns
  = mkTimespec (ns / 1000000000) (ns mod 1000000000).
Proof.
  intros Hns. unfold NanosecondsToTimespec. cbv zeta.
  pose proof (Z.div_mod ns 1000000000 ltac:(lia)) as Hdm.
  pose proof (Z.mod_pos_bound ns 1000000000 ltac:(lia)) as Hm.
  assert (Hq : 0 <= ns / 1000000000) by (apply Z.div_pos; lia).
  f_equal. destruct (0 <? ns / 1000000000) eqn:Hpos.
  - rewrite (wrap64_small (ns / 1000000000 * 1000000000)) by nia.
    rewrite wrap64_small by nia. lia.
  - apply Z.ltb_ge in Hpos. nia.
Qed.

(** X21.  Nanosecond counts and [struct timespec] values convert back
    and forth without loss.  [NanosecondsToTimespec] turns every 64-bit
    count into a normalised value, whole seconds in [tv_sec] and less than
    a second in [tv_nsec], from which [NanosecondCounter] computes the
    count again; and it maps the count [NanosecondCounter] computes from a
    clock reading back to that reading.  [DelayMilliseconds] hands
    [nanosleep] the same value that [NanosecondsToTimespec] gives for the
    delay in nanoseconds. *)
Theorem nanoseconds_timespec_round_trip :
  (forall ns, 0 <= ns < 18446744073709551616 ->
     clock_reading (NanosecondsToTimespec ns) /\
     NanosecondCounter (NanosecondsToTimespec ns) = ns) /\
  (forall t, clock_reading t ->
     NanosecondsToTimespec (NanosecondCounter t) = t) /\
  (forall ms, 0 <= ms < 4294967296 ->
     DelayMilliseconds ms
     = NanosecondsToTimespec (ms * NANOSECONDS_PER_MILLISECOND)).
Proof.
  split; [|split].
  - intros ns Hns.
    pose proof (Z.div_mod ns 1000000000 ltac:(lia)) as Hdm.
    pose proof (Z.mod_pos_bound ns 1000000000 ltac:(lia)) as Hm.
    assert (Hq : 0 <= ns / 1000000000) by (apply Z.div_pos; lia).
    assert (Hr : clock_reading (NanosecondsToTimespec ns)).
    { rewrite NanosecondsToTimespec_fields by exact Hns.
      unfold clock_reading. cbn [ts_sec ts_nsec]. nia. }
    split; [exact Hr|].
    rewrite NanosecondCounter_reading by exact Hr.
    rewrite NanosecondsToTimespec_fields by exact Hns.
    cbn [ts_sec ts_nsec]. lia.
  - intros t Ht. pose proof Ht as (Hs & Hn & Hfit).
    rewrite NanosecondCounter_reading by exact Ht.
    rewrite NanosecondsToTimespec_fields by nia.
    destruct t as [s n]. cbn [ts_sec ts_nsec] in *. f_equal.
    + rewrite Z.add_comm, Z.div_add by lia.
      rewrite Z.div_small by lia. lia.
    + rewrite Z.add_comm, Z.mod_add by lia. by apply Z.mod_small.
  - intros ms Hms. unfold NANOSECONDS_PER_MILLISECOND.
    rewrite NanosecondsToTimespec_fields by nia.
    unfold DelayMilliseconds, NANOSECONDS_PER_MILLISECOND, wrap32.
    pose proof (Z.div_mod ms 1000 ltac:(lia)) as Hdm.
    pose proof (Z.mod_pos_bound ms 1000 ltac:(lia)) as Hm.
    rewrite (Z.mod_small (ms mod 1000)) by lia.
    rewrite wrap64_small by nia.
    f_equal.
    + replace 1000000000 with (1000000 * 1000) by lia.
      rewrite <- Z.div_div by lia. by rewrite Z.div_mul by lia.
    + replace 1000000000 with (1000 * 1000000) at 1 by lia.
      rewrite Z.mul_mod_distr_r by lia. reflexivity.
Qed.

Lemma nanoseconds_timespec_round_trip_witness :
  NanosecondCounter (NanosecondsToTimespec 1500000000) = 1500000000 /\
  DelayMilliseconds 1500 = mkTimespec 1 500000000.
Proof.
  destruct nanoseconds_timespec_round_trip as (Hto & _ & Hdelay).
  split.
  - apply Hto. lia.
  - rewrite Hdelay by lia. vm_compute. reflexivity.
Defined.

(** X22.  The millisecond counter is the clock reading in milliseconds
    cut to 32 bits: it starts again from 0 every 4294967296 milliseconds,
    a little under fifty days.  Across such a restart the later reading is
    the smaller number, but the difference of two readings taken in
    [uint32_t] is still the time that passed, as long as that is less
    than 4294967296 milliseconds. *)
Theorem millisecond_counter_wraps (t1 t2 : timespec) :
  clock_reading t1 -> clock_reading t2 ->
  MillisecondCounter t1 = milliseconds_of t1 mod 4294967296 /\
  (milliseconds_of t2 = milliseconds_of t1 + 4294967296 ->
   MillisecondCounter t2 = MillisecondCounter t1) /\
  (0 <= milliseconds_of t2 - milliseconds_of t1 < 4294967296 ->
   wrap32 (MillisecondCounter t2 - MillisecondCounter t1)
   = milliseconds_of t2 - milliseconds_of t1).
Proof.
  assert (Hms : forall t, clock_reading t ->
            MillisecondCounter t = milliseconds_of t mod 4294967296).
  { intros t Ht. pose proof Ht as (Hs & Hn & Hfit).
    unfold MillisecondCounter, milliseconds_of, wrap32. cbv zeta.
    rewrite NanosecondCounter_reading by exact Ht. f_equal.
    replace (1000 * 1000) with 1000000 by lia.
    replace (ts_sec t * 1000000000) with (ts_sec t * 1000 * 1000000) by lia.
    by rewrite Z.div_add_l by lia. }
  intros H1 H2. split; [by apply Hms|]. split.
  - intros Hlater. rewrite !Hms by assumption. rewrite Hlater.
    replace (milliseconds_of t1 + 4294967296)
      with (milliseconds_of t1 + 1 * 4294967296) by lia.
    by rewrite Z.mod_add by lia.
  - intros Hgap. rewrite !Hms by assumption. unfold wrap32.
    rewrite <- Zminus_mod. by apply Z.mod_small.
Qed.

Lemma millisecond_counter_wraps_witness :
  MillisecondCounter (mkTimespec 4294967 300000000) = 4
  /\ wrap32 (MillisecondCounter (mkTimespec 4294967 300000000)
             - MillisecondCounter (mkTimespec 4294967 290000000)) = 10.
Proof.
  destruct (millisecond_counter_wraps (mkTimespec 4294967 290000000)
              (mkTimespec 4294967 300000000))
    as (_ & _ & Hgap);
    [ unfold clock_reading; cbn; lia | unfold clock_reading; cbn; lia | ].
  split; [vm_compute; reflexivity|].
  rewrite Hgap; [vm_compute; reflexivity|].
  vm_compute. split; [intros H; discriminate H|reflexivity].
Defined.

(** ** A timer that releases itself *)

Lemma delivered_stable (ff : kfilter) (l : list delivery) :
  stable ff (fun r => delivered r = l).
Proof. constructor; intros; assumption. Qed.

(** [AsyncIO_Release] on a timer that is not in the list of enabled
    timers, select backend. *)
Lemma release_idle_timer_select (r : reactor) (l : list nat) (q : nat)
    (tq : OpaqueAsyncIO) (fuel : nat) (closeDescriptor : bool) :
  timer_chain (heap r) (enabled_timers r) l -> q ∉ l ->
  heap r !! q = Some tq -> type tq = kAIO_TYPE_TIMER ->
  (length l <= fuel)%nat ->
  exists r',
    AsyncIO_Release Select fuel (Some q) closeDescriptor r = (Ok 0, r') /\
    heap r' !! q = None /\
    timer_chain (heap r') (enabled_timers r') l /\
    delivered r' = delivered r.
Proof.
  intros Hc Hout Hq Ht Hf.
  destruct (disable_timer_select_absent r l q fuel Hc Hout Hf)
    as (r1 & Hrun & Hh1 & He1).
  pose proof (preserves_Release (delivered_stable EVFILT_PROC (delivered r))
                Select fuel (Some q) closeDescriptor r eq_refl) as Hdel.
  rewrite (release_run_from Select r r1 q tq tq fuel closeDescriptor Hq)
    in Hdel |- *;
    [ | rewrite Ht; by rewrite (run_bind _ _ _ _ _ Hrun) | by rewrite Hh1
      | rewrite Ht; by rewrite (run_bind _ _ _ _ _ Hrun) | by rewrite Hh1 ].
  eexists. split; [reflexivity|].
  split; [fields; apply lookup_delete_eq|].
  split; [|exact Hdel].
  apply (timer_chain_change_other (heap r1) _ _ _ q); [|exact Hout|].
  - destruct (closeDescriptor && IsValidFD (fd tq)),
      (AsyncIO_eqb (anioInProgress r1) (Some q)); fields;
      by rewrite Hh1, He1.
  - intros p Hp.
    destruct (closeDescriptor && IsValidFD (fd tq)),
      (AsyncIO_eqb (anioInProgress r1) (Some q)); fields;
      rewrite lookup_delete_ne by done; rewrite ?lookup_insert_ne by done;
      reflexivity.
Qed.

(** [AsyncIO_DisableTimer] on the kqueue backend, the registration being
    there or not. *)
Lemma disable_timer_kqueue_run (r : reactor) (q : nat) (fuel : nat) :
  AsyncIO_DisableTimer KQueue fuel (Some q) r
  = (Ok 0, with_anioKQ (delete (Z.of_nat q, EVFILT_TIMER)) r).
Proof.
  unfold AsyncIO_DisableTimer, kevent_delete, ident_of, bind, gets, modify, ret.
  destruct (anioKQ r !! (Z.of_nat q, EVFILT_TIMER)) eqn:E; [reflexivity|].
  destruct r. cbn in E. unfold with_anioKQ. fields. by rewrite delete_id.
Qed.

(** X23.  A timer may release itself from its own callback.  On the
    select backend the loop has taken the timer out of the list before it
    calls the callback; [AsyncIO_Release] called from the callback frees
    the handle, and the loop touches the handle no more: the timeout
    branch returns with the handle freed, the list made of the other
    timers, and [anioInProgress] cleared.  On the kqueue backend the loop
    body for the timer's event returns in the same way, with no
    registration left for the timer. *)
Theorem timer_may_release_itself (q : nat) (tq : OpaqueAsyncIO)
    (fuel : nat) (now : Z) (closeDescriptor : bool) :
  type tq = kAIO_TYPE_TIMER ->
  callback tq kAIO_TIMER_FIRED (Some q) (-1) (userdata tq)
  = Call (CallRelease (Some q) closeDescriptor) (fun _ => Return) ->
  (forall (r : reactor) (l1 l2 : list nat),
      timer_chain (heap r) (enabled_timers r) (l1 ++ q :: l2) ->
      aio_next_enabled_timer r = Some q -> heap r !! q = Some tq ->
      (length (l1 ++ l2) <= fuel)%nat ->
      exists r' d,
        dispatch_timeout fuel now r = (Ok tt, r') /\
        heap r' !! q = None /\
        timer_chain (heap r') (enabled_timers r') (l1 ++ l2) /\
        delivered r' = delivered r ++ [d] /\
        d_event d = kAIO_TIMER_FIRED /\ d_anio d = Some q /\
        anioInProgress r' = None) /\
  (forall (r : reactor) (ident : Z),
      heap r !! q = Some tq ->
      exists r' d,
        dispatch_kevent fuel now (mkKevent ident EVFILT_TIMER false (Some q)) r
        = (Ok tt, r') /\
        heap r' !! q = None /\
        anioKQ r' !! (Z.of_nat q, EVFILT_TIMER) = None /\
        delivered r' = delivered r ++ [d] /\
        d_event d = kAIO_TIMER_FIRED /\ d_anio d = Some q /\
        anioInProgress r' = None).
Proof.
  intros Ht Hcb. split.
  - intros r l1 l2 Hc Hn Hq Hf.
    destruct (dispatch_timeout_enters_callback r l1 l2 q tq fuel now Hc Hn Hq)
      as (r1 & d & Hrun & Hc1 & Hq1 & _ & _ & _ & Hd & Hk & Ha & _);
      [rewrite length_app in Hf; lia|].
    pose proof (timer_chain_NoDup _ _ _ Hc) as Hnd.
    assert (Hnot : q ∉ l1 ++ l2).
    { apply NoDup_app in Hnd as (Hnd1 & Hnd2 & Hnd3).
      apply NoDup_cons in Hnd3 as [Hq2 _].
      intros Hin. apply elem_of_app in Hin as [Hin|Hin]; [|done].
      apply (Hnd2 q Hin). by left. }
    destruct (release_idle_timer_select r1 (l1 ++ l2) q (set_next_timer None tq)
                fuel closeDescriptor Hc1 Hnot Hq1 Ht Hf)
      as (r2 & Hrel & Hq2 & Hc2 & Hd2).
    exists (with_anioInProgress None r2), d.
    split.
    { rewrite Hrun, Hcb. cbn [run_client exec_api].
      erewrite run_bind; [reflexivity|].
      by rewrite (run_bind _ _ _ _ _ Hrel). }
    fields. split; [exact Hq2|]. split; [exact Hc2|].
    split; [by rewrite Hd2|]. by repeat split.
  - intros r ident Hq.
    set (d := mkDelivery kAIO_TIMER_FIRED (Some q) (-1)
                (notifyOnRead tq || read_interest KQueue (fd tq)
                                      (with_anioInProgress (Some q) r))
                (notifyOnWrite tq || write_interest KQueue (fd tq)
                                       (with_anioInProgress (Some q) r)) ident).
    set (ra := with_delivered (fun t => t ++ [d])
                 (with_anioInProgress (Some q) r)).
    set (rb := with_anioKQ (delete (Z.of_nat q, EVFILT_TIMER)) ra).
    assert (Hqa : heap ra !! q = Some tq) by exact Hq.
    assert (Hqb : heap rb !! q = Some tq) by exact Hq.
    pose proof (release_run_from KQueue ra rb q tq tq fuel closeDescriptor Hqa)
      as Hrel.
    cbv zeta in Hrel.
    specialize (Hrel ltac:(rewrite Ht;
                           by rewrite (run_bind _ _ _ _ _
                                         (disable_timer_kqueue_run ra q fuel)))
                     Hqb).
    eexists _, d. split.
    { unfold dispatch_kevent, dispatch_kevent_filter, dispatch_kevent_eof.
      cbn [kv_udata kv_filter kv_ident kv_eof].
      erewrite run_bind by reflexivity.
      erewrite run_bind; [reflexivity|].
      unfold invoke.
      erewrite run_bind by (apply deref_run; exact Hq).
      erewrite run_bind by reflexivity.
      erewrite run_bind by reflexivity.
      erewrite run_bind by reflexivity.
      rewrite Hcb. cbn [run_client exec_api]. fold d ra.
      by rewrite (run_bind _ _ _ _ _ Hrel). }
    fields.
    split; [apply lookup_delete_eq|].
    assert (Hip : AsyncIO_eqb (anioInProgress rb) (Some q) = true)
      by apply AsyncIO_eqb_refl.
    rewrite Hip.
    split.
    { subst rb ra.
      destruct (notifyOnRead tq), (notifyOnWrite tq),
        (closeDescriptor && IsValidFD (fd tq)); fields;
        rewrite ?lookup_delete_ne by congruence;
        apply lookup_delete_eq. }
    split.
    { subst rb ra.
      by destruct (notifyOnRead tq), (notifyOnWrite tq),
        (closeDescriptor && IsValidFD (fd tq)). }
    by repeat split.
Qed.

Lemma timer_may_release_itself_witness :
  (exists r',
     dispatch_timeout 1 1020
       (with_aio_next_enabled_timer (Some 1%nat)
          (snd (AsyncIO_EnableTimer Select 1000 (Some 1%nat) 20
                  (snd (AsyncIO_NewTimer (releases_when_fired false) 0
                          initial_reactor)))))
     = (Ok tt, r') /\ heap r' !! 1%nat = None /\ enabled_timers r' = None) /\
  (exists r',
     dispatch_kevent 1 0 (mkKevent 1 EVFILT_TIMER false (Some 1%nat))
       (one_kqueue_timer (releases_when_fired false))
     = (Ok tt, r') /\ heap r' !! 1%nat = None).
Proof.
  split.
  - destruct (proj1 (timer_may_release_itself 1%nat
                       (mkAsyncIO (-1) kAIO_TYPE_TIMER
                          (releases_when_fired false) 0 false false 1020 None)
                       1%nat 1020 false eq_refl eq_refl)
                (with_aio_next_enabled_timer (Some 1%nat)
                   (snd (AsyncIO_EnableTimer Select 1000 (Some 1%nat) 20
                           (snd (AsyncIO_NewTimer (releases_when_fired false) 0
                                   initial_reactor))))) [] [])
      as (r' & d & Hrun & Hheap & Hc & _);
      [ apply (timer_chain_cons _ 1%nat
                 (mkAsyncIO (-1) kAIO_TYPE_TIMER (releases_when_fired false) 0
                            false false 1020 None));
          [vm_compute; reflexivity|constructor]
      | vm_compute; reflexivity | vm_compute; reflexivity | cbn; lia | ].
    exists r'. split; [exact Hrun|]. split; [exact Hheap|].
    by inversion Hc.
  - destruct (proj2 (timer_may_release_itself 1%nat
                       (mkAsyncIO (-1) kAIO_TYPE_TIMER
                          (releases_when_fired false) 0 false false 0 None)
                       1%nat 0 false eq_refl eq_refl)
                (one_kqueue_timer (releases_when_fired false)) 1)
      as (r' & d & Hrun & Hheap & _); [vm_compute; reflexivity|].
    exists r'. split; [exact Hrun|exact Hheap].
Defined.
